(** * trading-go: the BingX response-normalisation and signing layer

    A shallow embedding of the Go packages [broker] and [bingx] of
    agatticelli/trading-go, and the properties of the specification proved
    (or refuted) on it.

    Conventions of the embedding:
    - a Go [string] is a Rocq [string] (a sequence of bytes);
    - a Go [float64] is a primitive binary64 float;
    - a Go [int] / [int64] is a [Z];
    - a Go [map[string]string] is a [gmap string string]; a loop over a map
      is a fold over its entries in the order the map yields them, and the
      result is shown not to depend on that order;
    - a function returning [(T, error)] returns a [result T], or a pair with
      an [option error] when the source uses the value next to the error;
    - the network, the JSON decoder's verdict on a response body and the wall
      clock are the environment [Env] every operation takes. *)

From Stdlib Require Import ZArith NArith List Ascii String Lia.
From Stdlib Require Import DecimalString DecimalZ.
From Stdlib Require Import Floats.PrimFloat Floats.SpecFloat Floats.FloatOps.
From stdpp Require Import base option list sorting gmap strings.

Local Open Scope Z_scope.

(* Decimal float literals denote the nearest binary64, as in Go. *)
Set Warnings "-inexact-float".

(** * Bytes of a Go string *)

Definition code (c : ascii) : Z := Z.of_N (N_of_ascii c).

Definition is_digit (c : ascii) : bool := (48 <=? code c) && (code c <=? 57).

Definition digit_val (c : ascii) : Z := code c - 48.

Definition is_upper (c : ascii) : bool := (65 <=? code c) && (code c <=? 90).

Definition is_lower (c : ascii) : bool := (97 <=? code c) && (code c <=? 122).

Definition ascii_eqb (c d : ascii) : bool := code c =? code d.

Definition strlen (s : string) : Z := Z.of_nat (String.length s).

(** * Package strconv *)

Module strconv.

(** The two sentinel errors a [*strconv.NumError] of [ParseFloat] wraps. *)
Inductive Err : Type := ErrSyntax | ErrRange.

(** [lower(c)]: [c | ('x' - 'X')]. *)
Definition lower (c : ascii) : Z := Z.lor (code c) 32.

Fixpoint commonPrefixLenIgnoreCase (s pre : string) : Z :=
  match s, pre with
  | String c s', String p pre' =>
      let c' := if is_upper c then code c + 32 else code c in
      if c' =? code p then 1 + commonPrefixLenIgnoreCase s' pre' else 0
  | _, _ => 0
  end.

(** [special]: the possibly signed [inf], [infinity] and the unsigned [nan],
    whatever the case of the letters; the value and the length of the prefix
    of [s] that spells it. *)
Definition special (s : string) : option (float * Z) :=
  let inf (negative : bool) (nsign : Z) (t : string) :=
    let n := commonPrefixLenIgnoreCase t "infinity" in
    let n := if (3 <? n) && (n <? 8) then 3 else n in
    if (n =? 3) || (n =? 8)
    then Some (if negative then neg_infinity else infinity, nsign + n)
    else None in
  match s with
  | EmptyString => None
  | String c t =>
      if ascii_eqb c "+" then inf false 1 t
      else if ascii_eqb c "-" then inf true 1 t
      else if ascii_eqb c "i" || ascii_eqb c "I" then inf false 0 s
      else if ascii_eqb c "n" || ascii_eqb c "N" then
        if commonPrefixLenIgnoreCase s "nan" =? 3 then Some (nan, 3) else None
      else None
  end.

(** [underscoreOK]: underscores stand only between digits, or between a base
    prefix and a digit. [saw] is the class of the last byte: [0] a digit,
    [1] an underscore, [2] the start, [3] anything else. *)
Fixpoint underscoreOK_go (hex : bool) (saw : Z) (s : string) : bool :=
  match s with
  | EmptyString => negb (saw =? 1)
  | String c t =>
      if is_digit c || (hex && (97 <=? lower c) && (lower c <=? 102))
      then underscoreOK_go hex 0 t
      else if ascii_eqb c "_"
      then if saw =? 0 then underscoreOK_go hex 1 t else false
      else if saw =? 1 then false
      else underscoreOK_go hex 3 t
  end.

Definition underscoreOK (s : string) : bool :=
  let s := match s with
           | String c t => if ascii_eqb c "-" || ascii_eqb c "+" then t else s
           | EmptyString => s
           end in
  match s with
  | String c0 (String c1 t) =>
      if ascii_eqb c0 "0" && ((lower c1 =? 98) || (lower c1 =? 111) || (lower c1 =? 120))
      then underscoreOK_go (lower c1 =? 120) 0 t
      else underscoreOK_go false 2 s
  | _ => underscoreOK_go false 2 s
  end.

(** What [readFloat] reads off a numeral: sign, base, the integer spelled by
    all of its digits, and the power of ten (of two for a hexadecimal
    numeral) that scales it; [rest] is the unread suffix. The source keeps
    the leading 19 digits and a truncation flag and falls back on an exact
    decimal when they do not decide the rounding: the value it returns is the
    correctly rounded one, which is what this model computes. *)
Record numeral : Type := {
  neg : bool;
  hex : bool;
  mantissa : Z;
  exp : Z;
  rest : string
}.

(** The digits of the mantissa: underscores are skipped, one point is
    allowed, and a second one ends the run. *)
Fixpoint readDigits (hex : bool) (s : string) (sawdot sawdigits underscores : bool)
    (m frac : Z) : string * bool * bool * Z * Z :=
  match s with
  | EmptyString => (s, sawdigits, underscores, m, frac)
  | String c t =>
      if ascii_eqb c "_" then readDigits hex t sawdot sawdigits true m frac
      else if ascii_eqb c "." then
        if sawdot then (s, sawdigits, underscores, m, frac)
        else readDigits hex t true sawdigits underscores m frac
      else if is_digit c then
        readDigits hex t sawdot true underscores
          (m * (if hex then 16 else 10) + digit_val c)
          (if sawdot then frac + 1 else frac)
      else if hex && (97 <=? lower c) && (lower c <=? 102) then
        readDigits hex t sawdot true underscores
          (m * 16 + (lower c - 97 + 10))
          (if sawdot then frac + 1 else frac)
      else (s, sawdigits, underscores, m, frac)
  end.

(** The digits of the exponent; the source stops accumulating at 10000. *)
Fixpoint readExp (s : string) (e : Z) (underscores : bool) : string * Z * bool :=
  match s with
  | EmptyString => (s, e, underscores)
  | String c t =>
      if is_digit c then readExp t (if e <? 10000 then e * 10 + digit_val c else e) underscores
      else if ascii_eqb c "_" then readExp t e true
      else (s, e, underscores)
  end.

Definition readFloat (s : string) : option numeral :=
  match s with
  | EmptyString => None
  | String c0 t0 =>
      let '(neg, s1) :=
        if ascii_eqb c0 "+" then (false, t0)
        else if ascii_eqb c0 "-" then (true, t0)
        else (false, s) in
      let '(hex, s2) :=
        match s1 with
        | String d0 (String d1 ((String _ _) as t)) =>
            if ascii_eqb d0 "0" && (lower d1 =? 120) then (true, t) else (false, s1)
        | _ => (false, s1)
        end in
      let '(s3, sawdigits, us, m, frac) := readDigits hex s2 false false false 0 0 in
      if negb sawdigits then None else
      let dp := if hex then - (4 * frac) else - frac in
      let expChar := if hex then 112 else 101 in
      let finish (r : string) (e : Z) (us : bool) : option numeral :=
        let read := String.substring 0 (String.length s - String.length r) s in
        if us && negb (underscoreOK read) then None
        else Some {| neg := neg; hex := hex; mantissa := m; exp := e; rest := r |} in
      match s3 with
      | String c t =>
          if lower c =? expChar then
            match t with
            | EmptyString => None
            | String sg t' =>
                let '(esign, s4) :=
                  if ascii_eqb sg "+" then (1, t')
                  else if ascii_eqb sg "-" then (-1, t')
                  else (1, t) in
                match s4 with
                | String d _ =>
                    if is_digit d then
                      let '(s5, e, us') := readExp s4 0 us in
                      finish s5 (dp + e * esign) us'
                    else None
                | EmptyString => None
                end
            end
          else if hex then None
          else finish s3 dp us
      | EmptyString => if hex then None else finish s3 dp us
      end
  end.

(** The binary64 nearest to [n / d] ([0 <= n], [0 < d]), ties to even;
    an infinity when it is beyond the largest finite float. *)
Definition round_ratio (negative : bool) (n d : Z) : spec_float :=
  if n =? 0 then S754_zero negative else
  let ex := Z.log2 n - Z.log2 d - 64 in
  let '(num, den) := if 0 <=? ex then (n, d * 2 ^ ex) else (n * 2 ^ (- ex), d) in
  let q := num / den in
  let r := num mod den in
  let loc := if r =? 0 then loc_Exact else loc_Inexact (2 * r ?= den) in
  binary_round_aux prec emax negative q ex loc.

Definition numeral_value (x : numeral) : spec_float :=
  let b := if hex x then 2 else 10 in
  if 0 <=? exp x
  then round_ratio (neg x) (mantissa x * b ^ exp x) 1
  else round_ratio (neg x) (mantissa x) (b ^ (- exp x)).

(** [strconv.ParseFloat(s, 64)]: the value and the error, both returned.
    A malformed [s] gives [(0, ErrSyntax)]; a numeral beyond the largest
    float gives [(±Inf, ErrRange)]. *)
Definition ParseFloat (s : string) : float * option Err :=
  match special s with
  | Some (f, n) => if n =? strlen s then (f, None) else (0%float, Some ErrSyntax)
  | None =>
      match readFloat s with
      | None => (0%float, Some ErrSyntax)
      | Some x =>
          match rest x with
          | EmptyString =>
              match numeral_value x with
              | S754_infinity sg => (SF2Prim (S754_infinity sg), Some ErrRange)
              | v => (SF2Prim v, None)
              end
          | String _ _ => (0%float, Some ErrSyntax)
          end
      end
  end.

(** [strconv.FormatInt(i, 10)], also [fmt.Sprintf("%d", i)]. *)
Definition FormatInt (i : Z) : string := NilZero.string_of_int (Z.to_int i).

(** [strconv.Itoa(i)]: [FormatInt(int64(i), 10)]. *)
Definition Itoa (i : Z) : string := FormatInt i.

End strconv.

(** * Package fmt: the float verbs the order path uses *)

Module fmt.

(** [fmt.Sprintf("%.8f", x)]: the exact value of [x] rounded half-even to
    eight decimals. *)
Definition Sprintf_f8 (x : float) : string :=
  match Prim2SF x with
  | S754_nan => "NaN"
  | S754_infinity sg => if sg then "-Inf" else "+Inf"
  | S754_zero sg => (if sg then "-" else "") +:+ "0.00000000"
  | S754_finite sg m e =>
      let n := Z.pos m * 10 ^ 8 in
      let scaled :=
        if 0 <=? e then n * 2 ^ e
        else
          let d := 2 ^ (- e) in
          let q := n / d in
          match 2 * (n mod d) ?= d with
          | Lt => q
          | Gt => q + 1
          | Eq => if Z.even q then q else q + 1
          end in
      (if sg then "-" else "")
      +:+ strconv.FormatInt (scaled / 10 ^ 8) +:+ "."
      +:+ String.substring 1 8 (strconv.FormatInt (10 ^ 8 + scaled mod 10 ^ 8))
  end.

(** The decimal digits of a positive integer, most significant first. *)
Definition digits (n : Z) : string := strconv.FormatInt n.

Definition zeros (n : Z) : string := string_of_list_ascii (repeat "0"%char (Z.to_nat n)).

Fixpoint dropZeros (rev_digits : list ascii) : list ascii :=
  match rev_digits with
  | c :: t => if ascii_eqb c "0" then dropZeros t else rev_digits
  | [] => []
  end.

(** Without its trailing zeros. *)
Definition trimmed (s : string) : string :=
  string_of_list_ascii (rev (dropZeros (rev (list_ascii_of_string s)))).

(** The number of digits before the decimal point of [n / d]: the [dp]
    with [10 ^ (dp - 1) <= n / d < 10 ^ dp]. *)
Definition pointOf (n d : Z) : Z :=
  let below (k : Z) := (* n / d < 10 ^ k *)
    if 0 <=? k then n <? d * 10 ^ k else n * 10 ^ (- k) <? d in
  let guess := (Z.log2 n - Z.log2 d) * 30103 / 100000 in
  let k := foldl (fun k _ => if below k then k else k + 1) (guess - 2) (seq 0 6) in
  k.

(** The shortest decimal that reads back as the positive float [m * 2 ^ e]:
    its digits, and the position [dp] of the point before them. When both
    neighbours with that many digits read back, the nearer is taken, the
    even one on a tie. *)
Definition shortest (m : positive) (e : Z) : string * Z :=
  let '(n, d) := if 0 <=? e then (Z.pos m * 2 ^ e, 1) else (Z.pos m, 2 ^ (- e)) in
  let x := SF2Prim (S754_finite false m e) in
  let dp := pointOf n d in
  let readsBack (a : Z) (k : Z) : bool := (* a * 10 ^ k rounds to x *)
    let v := if 0 <=? k then strconv.round_ratio false (a * 10 ^ k) 1
             else strconv.round_ratio false a (10 ^ (- k)) in
    (SF2Prim v =? x)%float in
  let try (nd : Z) : option Z :=
    let k := dp - nd in
    let '(num, den) := if 0 <=? k then (n, d * 10 ^ k) else (n * 10 ^ (- k), d) in
    let lo := num / den in
    let r := num mod den in
    let down := readsBack lo k in
    let up := readsBack (lo + 1) k in
    if down && up then
      match 2 * r ?= den with
      | Lt => Some lo
      | Gt => Some (lo + 1)
      | Eq => Some (if Z.even lo then lo else lo + 1)
      end
    else if down then Some lo
    else if up then Some (lo + 1)
    else None in
  let found :=
    foldl (fun acc nd => match acc with
                         | Some _ => acc
                         | None => (fun a => (a, Z.of_nat nd)) <$> try (Z.of_nat nd)
                         end)
          None (seq 1 17) in
  match found with
  | Some (a, nd) =>
      if a =? 10 ^ nd then ("1", dp + 1) else (trimmed (digits a), dp)
  | None => (trimmed (digits (Z.pos m)), dp)
  end.

(** [%e] with the digits [ds]: [d.ddde±xx]. *)
Definition fmtE (ds : string) (dp : Z) : string :=
  let exp := dp - 1 in
  let tail := String.substring 1 (String.length ds - 1) ds in
  String.substring 0 1 ds +:+ (if 0 <? strlen tail then "." +:+ tail else "")
  +:+ "e" +:+ (if exp <? 0 then "-" else "+")
  +:+ (if Z.abs exp <? 10 then "0" else "") +:+ strconv.FormatInt (Z.abs exp).

(** [%f] with the digits [ds] and as many decimals as they need. *)
Definition fmtF (ds : string) (dp : Z) : string :=
  let nd := strlen ds in
  let int := if 0 <? dp
             then String.substring 0 (Z.to_nat dp) ds +:+ zeros (dp - nd)
             else "0" in
  let frac := if dp <? nd
              then zeros (- dp) +:+ String.substring (Z.to_nat dp) (Z.to_nat (nd - dp)) ds
              else "" in
  int +:+ (if 0 <? strlen frac then "." +:+ frac else "").

(** [fmt.Sprintf("%g", x)]: the shortest decimal that reads back as [x], in
    exponent form when the decimal exponent is below -4 or at least 6. *)
Definition Sprintf_g (x : float) : string :=
  match Prim2SF x with
  | S754_nan => "NaN"
  | S754_infinity sg => if sg then "-Inf" else "+Inf"
  | S754_zero sg => if sg then "-0" else "0"
  | S754_finite sg m e =>
      let '(ds, dp) := shortest m e in
      let exp := dp - 1 in
      (if sg then "-" else "")
      +:+ (if (exp <? -4) || (6 <=? exp) then fmtE ds dp else fmtF ds dp)
  end.

End fmt.

(** The conversion [int(x)] of a float64: truncation toward zero. Outside the
    range of [int], and for NaN, Go leaves the result to the implementation;
    amd64 yields the least int64. *)
Definition int_of_float64 (x : float) : Z :=
  let least := - 2 ^ 63 in
  match Prim2SF x with
  | S754_zero _ => 0
  | S754_finite sg m e =>
      let a := if 0 <=? e then Z.pos m * 2 ^ e else Z.pos m / 2 ^ (- e) in
      let v := if sg then - a else a in
      if (least <=? v) && (v <? 2 ^ 63) then v else least
  | _ => least
  end.

(** * Go errors

    The [error] interface with the implementations this program meets:
    [errors.New] and [fmt.Errorf] values, errors wrapped with [%w],
    [*strconv.NumError] and the package's own [*broker.BrokerError]. *)
#[warnings="-register-all"]
Inductive error : Type :=
  | errorString (s : string)
  | wrapError (msg : string) (err : error)
  | NumError (Func Num : string) (Err : strconv.Err)
  | BrokerError (Broker Code Message : string) (Err : option error).

(** [strconv.Quote] on the bytes a numeral can hold: the quote and the
    backslash are escaped, a control byte is written [\xNN]; other bytes
    stand for themselves. *)
Fixpoint quoted (s : string) : string :=
  match s with
  | EmptyString => EmptyString
  | String c t =>
      if ascii_eqb c (ascii_of_nat 34) || ascii_eqb c (ascii_of_nat 92)
      then String (ascii_of_nat 92) (String c (quoted t))
      else if (code c <? 32) || (code c =? 127)
      then String (ascii_of_nat 92)
             (String "x" (String (default "0"%char (String.get (Z.to_nat (code c / 16)) "0123456789abcdef"))
                (String (default "0"%char (String.get (Z.to_nat (code c mod 16)) "0123456789abcdef"))
                   (quoted t))))
      else String c (quoted t)
  end.

(** The [Error()] method. *)
Fixpoint Error (e : error) : string :=
  match e with
  | errorString s => s
  | wrapError msg err => msg +:+ Error err
  | NumError Func Num Err =>
      "strconv." +:+ Func +:+ ": parsing "
      +:+ String (ascii_of_nat 34) (quoted Num) +:+ String (ascii_of_nat 34) ": "
      +:+ match Err with
          | strconv.ErrSyntax => "invalid syntax"
          | strconv.ErrRange => "value out of range"
          end
  | BrokerError Broker Code Message _ =>
      Broker +:+ " error [" +:+ Code +:+ "]: " +:+ Message
  end.

(** A call that returns [(T, error)] with a nil [T] next to an error. *)
Inductive result (A : Type) : Type :=
  | Ok (a : A)
  | Err (e : error).
Arguments Ok {A} a.
Arguments Err {A} e.

(** [v, err := f(); if err != nil { return nil, err }; ...] *)
#[global] Instance result_bind : MBind result := fun A B k r =>
  match r with
  | Ok a => k a
  | Err e => Err e
  end.

(** [strconv.ParseFloat] with its error as a Go [error]. *)
Definition ParseFloat (s : string) : float * option error :=
  let '(f, e) := strconv.ParseFloat s in
  (f, NumError "ParseFloat" s <$> e).

(** * Package errors

    Go compares two errors with [==]: for the pointer types met here, that
    is the identity of the error value. An error is modelled by its content,
    so [error_eqb] also holds of two values built apart with the same
    content: it holds whenever Go's [==] does, and is an upper bound of it.
    What is proved with it is therefore that a match is absent, that an
    error matches the value it wraps, or that one match follows from
    another; never that two errors built apart are the same. The sentinel
    errors of [broker] and [strconv] have texts of their own, which tells
    them apart. *)

Definition Err_eqb (x y : strconv.Err) : bool :=
  match x, y with
  | strconv.ErrSyntax, strconv.ErrSyntax => true
  | strconv.ErrRange, strconv.ErrRange => true
  | _, _ => false
  end.

Fixpoint error_eqb (x y : error) : bool :=
  match x, y with
  | errorString s, errorString t => bool_decide (s = t)
  | wrapError m e, wrapError m' e' => bool_decide (m = m') && error_eqb e e'
  | NumError f n k, NumError f' n' k' =>
      bool_decide (f = f') && bool_decide (n = n') && Err_eqb k k'
  | BrokerError b c m o, BrokerError b' c' m' o' =>
      bool_decide (b = b') && bool_decide (c = c') && bool_decide (m = m')
      && match o, o' with
         | Some e, Some e' => error_eqb e e'
         | None, None => true
         | _, _ => false
         end
  | _, _ => false
  end.

Module errors.

(** [strconv.ErrSyntax] and [strconv.ErrRange], the [errors.New] values a
    [*strconv.NumError] holds. *)
Definition ofNumError (k : strconv.Err) : error :=
  match k with
  | strconv.ErrSyntax => errorString "invalid syntax"
  | strconv.ErrRange => errorString "value out of range"
  end.

(** [errors.Unwrap]: the result of the [Unwrap] method of the types that
    have one ([fmt.Errorf] with [%w], [*strconv.NumError],
    [*broker.BrokerError]), nil otherwise. *)
Definition Unwrap (err : error) : option error :=
  match err with
  | errorString _ => None
  | wrapError _ e => Some e
  | NumError _ _ k => Some (ofNumError k)
  | BrokerError _ _ _ o => o
  end.

(** [errors.Is(err, target)] for two errors that are not nil: [err], or an
    error of its [Unwrap] chain, is [target]. None of the types has an [Is]
    method. *)
Fixpoint Is (err target : error) : bool :=
  error_eqb err target
  || match err with
     | errorString _ => false
     | wrapError _ e => Is e target
     | NumError _ _ k => error_eqb (ofNumError k) target
     | BrokerError _ _ _ (Some e) => Is e target
     | BrokerError _ _ _ None => false
     end.

End errors.

(** * Package time: an instant is its Unix time in nanoseconds *)

Module time.

Definition Time : Type := Z.

Definition UnixMilli (t : Time) : Z := t / 1000000.

Definition Unix (sec nsec : Z) : Time := sec * 1000000000 + nsec.

End time.

(** * Package encoding/json, as far as the decoder is concerned *)

Module json.

(** A JSON text by its shape; a number keeps its literal. *)
#[warnings="-register-all"]
Inductive Value : Type :=
  | JNull
  | JBool (b : bool)
  | JNumber (lit : string)
  | JString (s : string)
  | JArray (vs : list Value)
  | JObject (kvs : list (string * Value)).

(** A [json.RawMessage] field: the JSON text the response held for the
    field, or nothing when the response had no such field. *)
Definition RawMessage : Type := option Value.

(** [json.Unmarshal(data, &s)] for a fresh [var s string]: the decoded string
    when the call returns a nil error. A [null] leaves [s] as it is and is no
    error; any other shape is an [UnmarshalTypeError], and an empty [data] a
    syntax error. *)
Definition Unmarshal_string (data : RawMessage) : option string :=
  match data with
  | Some (JString s) => Some s
  | Some JNull => Some ""
  | _ => None
  end.

(** [json.Unmarshal(data, &f)] for a fresh [var f float64]: a number literal
    is read with [strconv.ParseFloat], whose failure is an
    [UnmarshalTypeError]. *)
Definition Unmarshal_float64 (data : RawMessage) : option float :=
  match data with
  | Some (JNumber lit) =>
      match strconv.ParseFloat lit with
      | (f, None) => Some f
      | (_, Some _) => None
      end
  | Some JNull => Some 0%float
  | _ => None
  end.

Definition quote : string := String (ascii_of_nat 34) EmptyString.

Definition join (sep : string) (l : list string) : string :=
  match l with
  | [] => ""
  | x :: l' => foldl (fun acc y => acc +:+ sep +:+ y) x l'
  end.

(** The bytes of a raw message, for [string(raw)] in an error text: the
    compact rendering of the value. *)
Fixpoint text (v : Value) : string :=
  match v with
  | JNull => "null"
  | JBool b => if b then "true" else "false"
  | JNumber lit => lit
  | JString s => quote +:+ s +:+ quote
  | JArray vs => "[" +:+ join "," (map text vs) +:+ "]"
  | JObject kvs =>
      "{" +:+ join "," (map (fun kv => quote +:+ fst kv +:+ quote +:+ ":" +:+ text (snd kv)) kvs)
      +:+ "}"
  end.

Definition raw_text (data : RawMessage) : string :=
  match data with
  | Some v => text v
  | None => ""
  end.

End json.

(** * Packages encoding/hex, crypto/sha256 and crypto/hmac *)

Definition bytes_of (s : string) : list Z := map code (list_ascii_of_string s).

Definition string_of_bytes (l : list Z) : string :=
  string_of_list_ascii (map (fun b => ascii_of_N (Z.to_N b)) l).

Module hex.

Definition hextable : string := "0123456789abcdef".

Definition digit (n : Z) : ascii :=
  default "0"%char (String.get (Z.to_nat n) hextable).

(** [hex.EncodeToString]: two lower-case digits a byte. *)
Fixpoint EncodeToString (src : string) : string :=
  match src with
  | EmptyString => EmptyString
  | String c t =>
      String (digit (Z.shiftr (code c) 4)) (String (digit (Z.land (code c) 15)) (EncodeToString t))
  end.

End hex.

Module sha256.

Definition w32 (x : Z) : Z := Z.land x 0xFFFFFFFF.

Definition add32 (x y : Z) : Z := w32 (x + y).

Definition rotr (n x : Z) : Z := Z.lor (Z.shiftr x n) (w32 (Z.shiftl x (32 - n))).

Definition Ch (x y z : Z) : Z := Z.lxor (Z.land x y) (Z.land (Z.lxor x 0xFFFFFFFF) z).

Definition Maj (x y z : Z) : Z := Z.lxor (Z.lxor (Z.land x y) (Z.land x z)) (Z.land y z).

Definition Sigma0 (x : Z) : Z := Z.lxor (Z.lxor (rotr 2 x) (rotr 13 x)) (rotr 22 x).

Definition Sigma1 (x : Z) : Z := Z.lxor (Z.lxor (rotr 6 x) (rotr 11 x)) (rotr 25 x).

Definition sigma0 (x : Z) : Z := Z.lxor (Z.lxor (rotr 7 x) (rotr 18 x)) (Z.shiftr x 3).

Definition sigma1 (x : Z) : Z := Z.lxor (Z.lxor (rotr 17 x) (rotr 19 x)) (Z.shiftr x 10).

(** The first sixty-four primes. *)
Definition primes : list Z :=
  Eval vm_compute in
    List.filter (fun p => forallb (fun d => negb (p mod d =? 0) || (p <=? d))
                            (map Z.of_nat (seq 2 16)))
                (map Z.of_nat (seq 2 310)).

(** The integer cube root of a number below [2 ^ 108]. *)
Definition cbrt (n : Z) : Z :=
  foldl (fun r i => let r' := r + 2 ^ Z.of_nat (35 - i) in if r' ^ 3 <=? n then r' else r)
        0 (seq 0 36).

(** The round constants: the first 32 bits of the fractional parts of the
    cube roots of the primes. *)
Definition K : list Z :=
  Eval vm_compute in map (fun p => cbrt (p * 2 ^ 96) mod 2 ^ 32) primes.

(** The eight working words. *)
Record state : Type := {
  ha : Z; hb : Z; hc : Z; hd : Z; he : Z; hf : Z; hg : Z; hh : Z
}.

(** The initial hash value: the first 32 bits of the fractional parts of the
    square roots of the first eight primes. *)
Definition frac_sqrt (i : nat) : Z := Z.sqrt (default 0 (primes !! i) * 2 ^ 64) mod 2 ^ 32.

Definition init : state :=
  Eval vm_compute in
    {| ha := frac_sqrt 0; hb := frac_sqrt 1; hc := frac_sqrt 2; hd := frac_sqrt 3;
       he := frac_sqrt 4; hf := frac_sqrt 5; hg := frac_sqrt 6; hh := frac_sqrt 7 |}.

(** The message, a [1] bit, zeros, and the length in bits as 64 bits, to a
    multiple of 64 bytes. *)
Definition pad (msg : list Z) : list Z :=
  let len := Z.of_nat (length msg) in
  let bits := 8 * len in
  msg ++ [128] ++ repeat 0 (Z.to_nat ((55 - len) mod 64))
      ++ map (fun i => Z.land (Z.shiftr bits (8 * (7 - Z.of_nat i))) 255) (seq 0 8).

Fixpoint words (bytes : list Z) : list Z :=
  match bytes with
  | b0 :: b1 :: b2 :: b3 :: t =>
      Z.lor (Z.lor (Z.shiftl b0 24) (Z.shiftl b1 16)) (Z.lor (Z.shiftl b2 8) b3) :: words t
  | _ => []
  end.

Definition word (w : list Z) (i : nat) : Z := default 0 (w !! i).

(** The sixty-four words of the schedule of one block. *)
Definition schedule (block : list Z) : list Z :=
  foldl (fun w t =>
           w ++ [add32 (add32 (sigma1 (word w (t - 2))) (word w (t - 7)))
                       (add32 (sigma0 (word w (t - 15))) (word w (t - 16)))])
        block (seq 16 48).

Definition round (s : state) (kw : Z * Z) : state :=
  let t1 := add32 (add32 (add32 (hh s) (Sigma1 (he s))) (Ch (he s) (hf s) (hg s)))
                  (add32 (fst kw) (snd kw)) in
  let t2 := add32 (Sigma0 (ha s)) (Maj (ha s) (hb s) (hc s)) in
  {| ha := add32 t1 t2; hb := ha s; hc := hb s; hd := hc s;
     he := add32 (hd s) t1; hf := he s; hg := hf s; hh := hg s |}.

Definition compress (s : state) (block : list Z) : state :=
  let r := foldl round s (combine K (schedule block)) in
  {| ha := add32 (ha s) (ha r); hb := add32 (hb s) (hb r);
     hc := add32 (hc s) (hc r); hd := add32 (hd s) (hd r);
     he := add32 (he s) (he r); hf := add32 (hf s) (hf r);
     hg := add32 (hg s) (hg r); hh := add32 (hh s) (hh r) |}.

Fixpoint blocks (n : nat) (ws : list Z) : list (list Z) :=
  match n with
  | O => []
  | S n' => take 16 ws :: blocks n' (drop 16 ws)
  end.

Definition word_bytes (w : Z) : list Z :=
  [Z.land (Z.shiftr w 24) 255; Z.land (Z.shiftr w 16) 255; Z.land (Z.shiftr w 8) 255; Z.land w 255].

(** [sha256.Sum256]: the digest, 32 bytes. *)
Definition Sum256 (msg : string) : string :=
  let ws := words (pad (bytes_of msg)) in
  let s := foldl compress init (blocks (length ws / 16) ws) in
  string_of_bytes
    (word_bytes (ha s) ++ word_bytes (hb s) ++ word_bytes (hc s) ++ word_bytes (hd s)
     ++ word_bytes (he s) ++ word_bytes (hf s) ++ word_bytes (hg s) ++ word_bytes (hh s)).

End sha256.

Module hmac.

Definition xor_pad (p : Z) (key : list Z) : string :=
  string_of_bytes (map (Z.lxor p) key).

(** [hmac.New(sha256.New, key)], [Write(msg)], [Sum(nil)]. *)
Definition SHA256 (key msg : string) : string :=
  let key := if 64 <? strlen key then sha256.Sum256 key else key in
  let k := bytes_of key ++ repeat 0 (64 - String.length key) in
  sha256.Sum256 (xor_pad 0x5c k +:+ sha256.Sum256 (xor_pad 0x36 k +:+ msg)).

End hmac.

(** * Package net/url *)

Module url.

(** [shouldEscape(c, encodeQueryComponent)]: everything but letters, digits
    and [-_.~] is escaped. *)
Definition shouldEscape (c : ascii) : bool :=
  negb (is_lower c || is_upper c || is_digit c
        || ascii_eqb c "-" || ascii_eqb c "_" || ascii_eqb c "." || ascii_eqb c "~").

Definition upperhex : string := "0123456789ABCDEF".

Definition hexdigit (n : Z) : ascii :=
  default "0"%char (String.get (Z.to_nat n) upperhex).

(** [url.QueryEscape]: a space becomes [+], an escaped byte [%XX]. *)
Fixpoint QueryEscape (s : string) : string :=
  match s with
  | EmptyString => EmptyString
  | String c t =>
      if ascii_eqb c " " then String "+" (QueryEscape t)
      else if shouldEscape c then
        String "%" (String (hexdigit (Z.shiftr (code c) 4))
                      (String (hexdigit (Z.land (code c) 15)) (QueryEscape t)))
      else String c (QueryEscape t)
  end.

(** [url.Values]: [map[string][]string]. *)
Abbreviation Values := (gmap string (list string)).

(** [v.Set(key, value)]. *)
Definition Set_ (v : Values) (key value : string) : Values := <[key := [value]]> v.

(** One step of the inner loop of [Encode]: an [&] unless the buffer is
    empty, then [key=value], both escaped. *)
Definition writePair (keyEscaped : string) (buf : string) (value : string) : string :=
  (if 0 <? strlen buf then buf +:+ "&" else buf) +:+ keyEscaped +:+ "=" +:+ QueryEscape value.

(** [Encode], given the order [keys] in which the map yields its keys: the
    keys are sorted before anything is written. *)
Definition Encode_from (keys : list string) (v : Values) : string :=
  if decide (size v = 0%nat) then ""
  else
    foldl (fun buf k => foldl (writePair (QueryEscape k)) buf (default [] (v !! k)))
          "" (merge_sort String.le keys).

(** [v.Encode()]. *)
Definition Encode (v : Values) : string := Encode_from (map_to_list v).*1 v.

End url.

(** * Package broker *)

Module broker.

(** [type Side string], [type OrderType string], [type OrderStatus string],
    [type TimeInForce string], [type WorkingType string]. *)
Definition Side : Type := string.
Definition OrderType : Type := string.
Definition OrderStatus : Type := string.
Definition TimeInForce : Type := string.
Definition WorkingType : Type := string.

Definition SideLong : Side := "LONG".
Definition SideShort : Side := "SHORT".

Definition OrderTypeMarket : OrderType := "MARKET".
Definition OrderTypeLimit : OrderType := "LIMIT".
Definition OrderTypeStop : OrderType := "STOP".
Definition OrderTypeTakeProfit : OrderType := "TAKE_PROFIT".
Definition OrderTypeTrailingStop : OrderType := "TRAILING_STOP_MARKET".

Definition OrderStatusNew : OrderStatus := "NEW".
Definition OrderStatusPartiallyFilled : OrderStatus := "PARTIALLY_FILLED".
Definition OrderStatusFilled : OrderStatus := "FILLED".
Definition OrderStatusCanceled : OrderStatus := "CANCELED".
Definition OrderStatusRejected : OrderStatus := "REJECTED".
Definition OrderStatusExpired : OrderStatus := "EXPIRED".

Definition TimeInForceGTC : TimeInForce := "GTC".
Definition TimeInForceIOC : TimeInForce := "IOC".
Definition TimeInForceFOK : TimeInForce := "FOK".

Definition ErrPositionNotFound : error := errorString "position not found".
Definition ErrOrderNotFound : error := errorString "order not found".
Definition ErrInvalidSymbol : error := errorString "invalid symbol".
Definition ErrInvalidPrice : error := errorString "invalid price".
Definition ErrInvalidQuantity : error := errorString "invalid quantity".
Definition ErrInsufficientBalance : error := errorString "insufficient balance".
Definition ErrLeverageTooHigh : error := errorString "leverage exceeds maximum".
Definition ErrAuthFailed : error := errorString "authentication failed".
Definition ErrRateLimited : error := errorString "rate limited".
Definition ErrAPIError : error := errorString "API error".

(** [NewBrokerError(broker, code, message, err)]. *)
Definition NewBrokerError (broker code message : string) (err : option error) : error :=
  BrokerError broker code message err.

Module Balance.
Record t : Type := {
  Asset : string;
  Total : float;
  Available : float;
  InUse : float;
  UnrealizedPnL : float;
  RealizedPnL : float;
  Timestamp : time.Time
}.
End Balance.

Module Position.
Record t : Type := {
  Symbol : string;
  Side : broker.Side;
  Size : float;
  EntryPrice : float;
  MarkPrice : float;
  LiquidationPrice : float;
  Leverage : Z;
  UnrealizedPnL : float;
  RealizedPnL : float;
  Margin : float;
  MaintenanceMargin : float;
  Timestamp : time.Time
}.
End Position.

Module Order.
Record t : Type := {
  ID : string;
  ClientOrderID : string;
  Symbol : string;
  Side : broker.Side;
  Type_ : OrderType;
  Status : OrderStatus;
  Size : float;
  Price : float;
  StopPrice : float;
  FilledSize : float;
  AveragePrice : float;
  ReduceOnly : bool;
  TimeInForce : broker.TimeInForce;
  CreatedAt : time.Time;
  UpdatedAt : time.Time
}.
End Order.

Module StopLossConfig.
Record t : Type := {
  TriggerPrice : float;
  OrderPrice : float;
  WorkingType : broker.WorkingType
}.
End StopLossConfig.

Module TakeProfitConfig.
Record t : Type := {
  TriggerPrice : float;
  OrderPrice : float;
  WorkingType : broker.WorkingType
}.
End TakeProfitConfig.

Module TrailingConfig.
Record t : Type := {
  ActivationPrice : float;
  CallbackRate : float
}.
End TrailingConfig.

Module OrderRequest.
Record t : Type := {
  Symbol : string;
  Side : broker.Side;
  Type_ : OrderType;
  Size : float;
  Price : float;
  StopPrice : float;
  TimeInForce : broker.TimeInForce;
  ReduceOnly : bool;
  StopLoss : option StopLossConfig.t;
  TakeProfit : option TakeProfitConfig.t;
  Trailing : option TrailingConfig.t
}.
End OrderRequest.

(** A nil [Side] pointer is [None]: every side. *)
Module PositionFilter.
Record t : Type := {
  Symbol : string;
  Side : option broker.Side
}.
End PositionFilter.

(** Both optional fields are [*OrderStatus] in the source, [Side] too. *)
Module OrderFilter.
Record t : Type := {
  Symbol : string;
  Side : option OrderStatus;
  Status : option OrderStatus
}.
End OrderFilter.

(** What a broker can do. *)
Module Features.
Record t : Type := {
  TrailingStop : bool;
  MultipleTP : bool;
  BracketOrders : bool;
  MaxLeverage : Z;
  ReduceOnlyOrders : bool
}.
End Features.

End broker.

(** * The environment of one operation

    Every operation is one signed round trip. What lies outside the program
    is an argument: the wall clock, the HTTP exchange, and what
    [json.Unmarshal] makes of the body for the response type [A] of the
    endpoint. *)

Module http.

Record Request : Type := {
  Method : string;
  URL : string;
  Header : gmap string string
}.

(** A body: its bytes, and the outcome of [json.Unmarshal(body, &response)]
    on them. *)
Record Body (A : Type) : Type := {
  bytes : string;
  decoded : result A
}.
Arguments bytes {A} _.
Arguments decoded {A} _.

(** The ways [makeRequest] can go once the URL is built:
    [http.NewRequestWithContext] fails, [httpClient.Do] fails, [io.ReadAll]
    fails, or a status and a body come back. *)
Inductive RoundTrip (A : Type) : Type :=
  | NewRequestFails (err : error)
  | DoFails (err : error)
  | ReadFails (err : error)
  | Response (StatusCode : Z) (body : Body A).
Arguments NewRequestFails {A} err.
Arguments DoFails {A} err.
Arguments ReadFails {A} err.
Arguments Response {A} StatusCode body.

Definition StatusOK : Z := 200.

End http.

(** [Now n] is the [n]-th reading of [time.Now()] during the call, [Do] the
    exchange's answer to a request. *)
Record Env (A : Type) : Type := {
  Now : nat -> time.Time;
  Do : http.Request -> http.RoundTrip A
}.
Arguments Now {A} _ _.
Arguments Do {A} _ _.

(** * Package bingx: wire types *)

Module bingx.

Definition BaseURLProd : string := "https://open-api.bingx.com".
Definition BaseURLDemo : string := "https://open-api-vst.bingx.com".
Definition EndpointBalance : string := "/openApi/swap/v3/user/balance".
Definition EndpointPositions : string := "/openApi/swap/v2/user/positions".
Definition EndpointPlaceOrder : string := "/openApi/swap/v2/trade/order".
Definition EndpointOpenOrders : string := "/openApi/swap/v2/trade/openOrders".
Definition EndpointCancelAll : string := "/openApi/swap/v2/trade/allOpenOrders".
Definition EndpointLeverage : string := "/openApi/swap/v2/trade/leverage".
Definition EndpointServerTime : string := "/openApi/swap/v2/server/time".
Definition EndpointPrice : string := "/openApi/swap/v1/ticker/price".
Definition APISuccessCode : Z := 0.

Module BalanceData.
Record t : Type := {
  UserId : string;
  Asset : string;
  Balance : string;
  Equity : string;
  UnrealizedProfit : string;
  RealisedProfit : string;
  AvailableMargin : string;
  UsedMargin : string;
  FreezedMargin : string;
  ShortUid : string
}.
End BalanceData.

Module BalanceResponse.
Record t : Type := {
  Code : Z;
  Data : list BalanceData.t;
  Msg : string
}.
End BalanceResponse.

Module PositionData.
Record t : Type := {
  Symbol : string;
  PositionSide : string;
  PositionAmt : string;
  AvailableAmt : string;
  UnrealizedProfit : string;
  RealisedProfit : string;
  InitialMargin : string;
  MaintenanceMargin : string;
  PositionValue : string;
  Leverage : json.RawMessage;
  IsolatedMargin : string;
  AvgPrice : string;
  MaxNotionalValue : string;
  BidNotional : string;
  AskNotional : string;
  LiquidationPrice : json.RawMessage;
  MarkPrice : string
}.
End PositionData.

Module PositionsResponse.
Record t : Type := {
  Code : Z;
  Data : list PositionData.t;
  Msg : string
}.
End PositionsResponse.

Module OrderData.
Record t : Type := {
  OrderId : Z;
  Symbol : string;
  Side : string;
  PositionSide : string;
  Type_ : string;
  Quantity : string;
  Price : string;
  Status : string
}.
End OrderData.

Module OrderResponse.
Record t : Type := {
  Code : Z;
  Data : OrderData.t;
  Msg : string
}.
End OrderResponse.

Module OpenOrderData.
Record t : Type := {
  OrderId : Z;
  Symbol : string;
  Side : string;
  PositionSide : string;
  Type_ : string;
  Quantity : string;
  Price : string;
  StopPrice : string;
  ExecutedQty : string;
  AvgPrice : string;
  Status : string;
  TimeInForce : string;
  ClientOrderID : string;
  WorkingType : string;
  Time_ : Z;
  UpdateTime : Z
}.
End OpenOrderData.

Module OpenOrdersData.
Record t : Type := {
  Orders : list OpenOrderData.t
}.
End OpenOrdersData.

Module OpenOrdersResponse.
Record t : Type := {
  Code : Z;
  Data : OpenOrdersData.t;
  Msg : string
}.
End OpenOrdersResponse.

Module PriceData.
Record t : Type := {
  Symbol : string;
  Price : string
}.
End PriceData.

Module PriceResponse.
Record t : Type := {
  Code : Z;
  Data : PriceData.t;
  Msg : string
}.
End PriceResponse.

Module LeverageData.
Record t : Type := {
  Symbol : string;
  Leverage : string
}.
End LeverageData.

Module LeverageResponse.
Record t : Type := {
  Code : Z;
  Data : LeverageData.t;
  Msg : string
}.
End LeverageResponse.

(** The anonymous [struct { Code int; Msg string }] the two cancel
    operations decode their answer into. *)
Module CancelResponse.
Record t : Type := {
  Code : Z;
  Msg : string
}.
End CancelResponse.

(** ** The numeric-ambiguity decoder (types.go) *)

(** [GetLeverageFloat]: the leverage as a float64, from a string or a
    number. *)
Definition GetLeverageFloat (p : PositionData.t) : float * option error :=
  match json.Unmarshal_string (PositionData.Leverage p) with
  | Some leverageStr => ParseFloat leverageStr
  | None =>
      match json.Unmarshal_float64 (PositionData.Leverage p) with
      | Some leverageFloat => (leverageFloat, None)
      | None =>
          (0%float,
           Some (errorString ("unable to parse leverage: "
                              +:+ json.raw_text (PositionData.Leverage p))))
      end
  end.

(** [GetLiquidationPriceFloat]: the same for the liquidation price, with the
    empty string read as 0. *)
Definition GetLiquidationPriceFloat (p : PositionData.t) : float * option error :=
  match json.Unmarshal_string (PositionData.LiquidationPrice p) with
  | Some priceStr =>
      if decide (priceStr = "") then (0%float, None) else ParseFloat priceStr
  | None =>
      match json.Unmarshal_float64 (PositionData.LiquidationPrice p) with
      | Some priceFloat => (priceFloat, None)
      | None =>
          (0%float,
           Some (errorString ("unable to parse liquidation price: "
                              +:+ json.raw_text (PositionData.LiquidationPrice p))))
      end
  end.

(** ** The client and the signed request (client.go) *)

(** The [httpClient] field is the [Do] of the environment. *)
Record Client : Type := {
  apiKey : string;
  secretKey : string;
  baseURL : string
}.

Definition NewClient (apiKey secretKey : string) (demoMode : bool) : Client :=
  let baseURL := if demoMode then BaseURLDemo else BaseURLProd in
  {| apiKey := apiKey; secretKey := secretKey; baseURL := baseURL |}.

Definition Name (c : Client) : string := "bingx".

Definition SupportedFeatures (c : Client) : broker.Features.t :=
  {| broker.Features.TrailingStop := true;
     broker.Features.MultipleTP := true;
     broker.Features.BracketOrders := true;
     broker.Features.MaxLeverage := 125;
     broker.Features.ReduceOnlyOrders := true |}.

(** [sign]: the HMAC-SHA256 of [params] under the secret key, in hex. *)
Definition sign (c : Client) (params : string) : string :=
  let signature := hex.EncodeToString (hmac.SHA256 (secretKey c) params) in
  signature.

(** The loop [for key, value := range params { values.Set(key, value) }],
    [entries] being the pairs in the order the map yields them. *)
Definition rangeSet (entries : list (string * string)) : url.Values :=
  foldl (fun values kv => url.Set_ values (fst kv) (snd kv)) ∅ entries.

(** The parameters once the timestamp is added. *)
Definition stamped (params : gmap string string) (now : time.Time) : gmap string string :=
  let timestamp := time.UnixMilli now in
  <["timestamp" := strconv.FormatInt timestamp]> params.

(** The string [makeRequest] signs. *)
Definition queryString (params : gmap string string) (now : time.Time) : string :=
  url.Encode (rangeSet (map_to_list (stamped params now))).

(** The request [makeRequest] hands to the HTTP client. *)
Definition newRequest (c : Client) (method endpoint : string)
    (params : gmap string string) (now : time.Time) : http.Request :=
  let queryString := queryString params now in
  let signature := sign c queryString in
  let fullURL :=
    baseURL c +:+ endpoint +:+ "?" +:+ queryString +:+ "&signature=" +:+ signature in
  {| http.Method := method;
     http.URL := fullURL;
     http.Header := <["Content-Type" := "application/json"]>
                      (<["X-BX-APIKEY" := apiKey c]> ∅) |}.

(** [makeRequest]: the body of the answer, on status 200. *)
Definition makeRequest {A : Type} (c : Client) (env : Env A) (method endpoint : string)
    (params : gmap string string) : result (http.Body A) :=
  match Do env (newRequest c method endpoint params (Now env 0)) with
  | http.NewRequestFails err => Err (wrapError "failed to create request: " err)
  | http.DoFails err =>
      Err (broker.NewBrokerError "bingx" "REQUEST_FAILED" "HTTP request failed" (Some err))
  | http.ReadFails err =>
      Err (broker.NewBrokerError "bingx" "READ_FAILED" "Failed to read response" (Some err))
  | http.Response StatusCode body =>
      if decide (StatusCode ≠ http.StatusOK) then
        Err (broker.NewBrokerError "bingx" "HTTP_ERROR"
               ("HTTP " +:+ strconv.FormatInt StatusCode +:+ ": " +:+ http.bytes body) None)
      else Ok body
  end.

(** [broker.NewBrokerError("bingx", fmt.Sprintf("API_%d", code), msg, nil)]. *)
Definition apiError (code : Z) (msg : string) : error :=
  broker.NewBrokerError "bingx" ("API_" +:+ strconv.FormatInt code) msg None.

(** [params := make(map[string]string)] and
    [if filter != nil && filter.Symbol != "" { params["symbol"] = filter.Symbol }]. *)
Definition symbolParams (symbol : option string) : gmap string string :=
  match symbol with
  | Some sym => if decide (sym ≠ "") then <["symbol" := sym]> ∅ else ∅
  | None => ∅
  end.

(** ** GetBalance (balance.go) *)

Definition GetBalance (c : Client) (env : Env BalanceResponse.t) : result broker.Balance.t :=
  body ← makeRequest c env "GET" EndpointBalance ∅;
  match http.decoded body with
  | Err err =>
      Err (broker.NewBrokerError "bingx" "PARSE_ERROR" "Failed to parse balance response"
             (Some err))
  | Ok response =>
      if decide (BalanceResponse.Code response ≠ APISuccessCode) then
        Err (apiError (BalanceResponse.Code response) (BalanceResponse.Msg response))
      else
        match BalanceResponse.Data response with
        | [] => Err (broker.NewBrokerError "bingx" "NO_DATA" "No balance data returned" None)
        | data :: _ =>
            let total := fst (ParseFloat (BalanceData.Equity data)) in
            let available := fst (ParseFloat (BalanceData.AvailableMargin data)) in
            let inUse := fst (ParseFloat (BalanceData.UsedMargin data)) in
            let unrealizedPnL := fst (ParseFloat (BalanceData.UnrealizedProfit data)) in
            let realizedPnL := fst (ParseFloat (BalanceData.RealisedProfit data)) in
            Ok {| broker.Balance.Asset := BalanceData.Asset data;
                  broker.Balance.Total := total;
                  broker.Balance.Available := available;
                  broker.Balance.InUse := inUse;
                  broker.Balance.UnrealizedPnL := unrealizedPnL;
                  broker.Balance.RealizedPnL := realizedPnL;
                  broker.Balance.Timestamp := Now env 1 |}
        end
  end.

(** ** GetPositions, GetPosition (positions.go) *)

(** The direction of a position: ["LONG"] is long, anything else short. *)
Definition sideOf (positionSide : string) : broker.Side :=
  if decide (positionSide = "LONG") then broker.SideLong else broker.SideShort.

(** [filter != nil && filter.Side != nil && *filter.Side != side]. *)
Definition sideFiltered (filter : option broker.PositionFilter.t) (side : broker.Side) : bool :=
  match filter with
  | Some f =>
      match broker.PositionFilter.Side f with
      | Some s => bool_decide (s ≠ side)
      | None => false
      end
  | None => false
  end.

(** The record one payload entry becomes, [now] being the clock's reading
    when it is appended. *)
Definition toPosition (pos : PositionData.t) (now : time.Time) : broker.Position.t :=
  let size := fst (ParseFloat (PositionData.PositionAmt pos)) in
  let side := sideOf (PositionData.PositionSide pos) in
  let entryPrice := fst (ParseFloat (PositionData.AvgPrice pos)) in
  let markPrice := fst (ParseFloat (PositionData.MarkPrice pos)) in
  let unrealizedPnL := fst (ParseFloat (PositionData.UnrealizedProfit pos)) in
  let realizedPnL := fst (ParseFloat (PositionData.RealisedProfit pos)) in
  let margin := fst (ParseFloat (PositionData.InitialMargin pos)) in
  let maintenanceMargin := fst (ParseFloat (PositionData.MaintenanceMargin pos)) in
  let leverage :=
    match GetLeverageFloat pos with
    | (leverage, None) => leverage
    | (_, Some _) => 0%float
    end in
  let liquidationPrice :=
    match GetLiquidationPriceFloat pos with
    | (liquidationPrice, None) => liquidationPrice
    | (_, Some _) => 0%float
    end in
  {| broker.Position.Symbol := PositionData.Symbol pos;
     broker.Position.Side := side;
     broker.Position.Size := size;
     broker.Position.EntryPrice := entryPrice;
     broker.Position.MarkPrice := markPrice;
     broker.Position.LiquidationPrice := liquidationPrice;
     broker.Position.Leverage := int_of_float64 leverage;
     broker.Position.UnrealizedPnL := unrealizedPnL;
     broker.Position.RealizedPnL := realizedPnL;
     broker.Position.Margin := margin;
     broker.Position.MaintenanceMargin := maintenanceMargin;
     broker.Position.Timestamp := now |}.

(** One turn of the loop over [response.Data]: the positions so far and the
    number of clock readings made; the two [continue]s leave both as they
    are. *)
Definition appendPosition {A : Type} (env : Env A) (filter : option broker.PositionFilter.t)
    (st : list broker.Position.t * nat) (pos : PositionData.t)
    : list broker.Position.t * nat :=
  let '(positions, tick) := st in
  let size := fst (ParseFloat (PositionData.PositionAmt pos)) in
  if (size =? 0)%float then st
  else
    let side := sideOf (PositionData.PositionSide pos) in
    if sideFiltered filter side then st
    else (positions ++ [toPosition pos (Now env tick)], S tick).

Definition GetPositions (c : Client) (env : Env PositionsResponse.t)
    (filter : option broker.PositionFilter.t) : result (list broker.Position.t) :=
  let params := symbolParams (broker.PositionFilter.Symbol <$> filter) in
  body ← makeRequest c env "GET" EndpointPositions params;
  match http.decoded body with
  | Err err =>
      Err (broker.NewBrokerError "bingx" "PARSE_ERROR" "Failed to parse positions response"
             (Some err))
  | Ok response =>
      if decide (PositionsResponse.Code response ≠ APISuccessCode) then
        Err (apiError (PositionsResponse.Code response) (PositionsResponse.Msg response))
      else
        Ok (fst (foldl (appendPosition env filter) ([], 1%nat)
                       (PositionsResponse.Data response)))
  end.

Definition GetPosition (c : Client) (env : Env PositionsResponse.t) (symbol : string)
    : result broker.Position.t :=
  let filter :=
    {| broker.PositionFilter.Symbol := symbol; broker.PositionFilter.Side := None |} in
  positions ← GetPositions c env (Some filter);
  match positions with
  | [] => Err broker.ErrPositionNotFound
  | p :: _ => Ok p
  end.

(** ** PlaceOrder, GetOrders (orders.go)

    The sources hold two revisions of this file. The one embedded here
    imports the repository's own module path, defines [mapBingXStatus] and
    [isReduceOnly], and ranges over [response.Data.Orders], as
    [OpenOrdersResponse] of types.go has it; the other one predates the
    nested [orders] list: it ranges over [response.Data] and copies the raw
    status. *)

(** [mapBingXStatus]: for a trigger order, ["NEW"] means that it waits for
    its trigger. *)
Definition mapBingXStatus (bingxStatus orderType : string) : broker.OrderStatus :=
  let triggerTypes : gmap string bool :=
    <["STOP" := true]> (<["STOP_MARKET" := true]>
      (<["TAKE_PROFIT" := true]> (<["TAKE_PROFIT_MARKET" := true]> ∅))) in
  if default false (triggerTypes !! orderType) && bool_decide (bingxStatus = "NEW")
  then "PENDING"
  else bingxStatus.

(** [isReduceOnly]: SELL on LONG and BUY on SHORT close a position. *)
Definition isReduceOnly (side positionSide : string) : bool :=
  (bool_decide (side = "SELL") && bool_decide (positionSide = "LONG"))
  || (bool_decide (side = "BUY") && bool_decide (positionSide = "SHORT")).

(** [filter != nil && filter.Side != nil && *filter.Side != broker.OrderStatus(o.Status)]. *)
Definition orderFiltered (filter : option broker.OrderFilter.t) (o : OpenOrderData.t) : bool :=
  match filter with
  | Some f =>
      match broker.OrderFilter.Side f with
      | Some s => bool_decide (s ≠ OpenOrderData.Status o)
      | None => false
      end
  | None => false
  end.

(** The order one entry of the listing becomes. *)
Definition toOrder (o : OpenOrderData.t) : broker.Order.t :=
  let side := sideOf (OpenOrderData.PositionSide o) in
  let reduceOnly := isReduceOnly (OpenOrderData.Side o) (OpenOrderData.PositionSide o) in
  let size := fst (ParseFloat (OpenOrderData.Quantity o)) in
  let price := fst (ParseFloat (OpenOrderData.Price o)) in
  let stopPrice := fst (ParseFloat (OpenOrderData.StopPrice o)) in
  let filledSize := fst (ParseFloat (OpenOrderData.ExecutedQty o)) in
  let avgPrice := fst (ParseFloat (OpenOrderData.AvgPrice o)) in
  let status := mapBingXStatus (OpenOrderData.Status o) (OpenOrderData.Type_ o) in
  {| broker.Order.ID := strconv.FormatInt (OpenOrderData.OrderId o);
     broker.Order.ClientOrderID := OpenOrderData.ClientOrderID o;
     broker.Order.Symbol := OpenOrderData.Symbol o;
     broker.Order.Side := side;
     broker.Order.Type_ := OpenOrderData.Type_ o;
     broker.Order.Status := status;
     broker.Order.Size := size;
     broker.Order.Price := price;
     broker.Order.StopPrice := stopPrice;
     broker.Order.FilledSize := filledSize;
     broker.Order.AveragePrice := avgPrice;
     broker.Order.ReduceOnly := reduceOnly;
     broker.Order.TimeInForce := OpenOrderData.TimeInForce o;
     broker.Order.CreatedAt := time.Unix (Z.quot (OpenOrderData.Time_ o) 1000) 0;
     broker.Order.UpdatedAt := time.Unix (Z.quot (OpenOrderData.UpdateTime o) 1000) 0 |}.

(** One turn of the loop over [response.Data.Orders]. *)
Definition appendOrder (filter : option broker.OrderFilter.t)
    (orders : list broker.Order.t) (o : OpenOrderData.t) : list broker.Order.t :=
  if orderFiltered filter o then orders else orders ++ [toOrder o].

Definition GetOrders (c : Client) (env : Env OpenOrdersResponse.t)
    (filter : option broker.OrderFilter.t) : result (list broker.Order.t) :=
  let params := symbolParams (broker.OrderFilter.Symbol <$> filter) in
  body ← makeRequest c env "GET" EndpointOpenOrders params;
  match http.decoded body with
  | Err err =>
      Err (broker.NewBrokerError "bingx" "PARSE_ERROR"
             ("Failed to parse orders response: " +:+ Error err +:+ ". Body: "
              +:+ http.bytes body)
             (Some err))
  | Ok response =>
      if decide (OpenOrdersResponse.Code response ≠ APISuccessCode) then
        Err (apiError (OpenOrdersResponse.Code response) (OpenOrdersResponse.Msg response))
      else
        Ok (foldl (appendOrder filter) []
                  (OpenOrdersData.Orders (OpenOrdersResponse.Data response)))
  end.

Section PlaceOrder.

(** Modelled from the spec: [makeRequestWithPayload] is called by
    [PlaceOrder] and is not among the sources; section 4.4 has it send the
    same parameters by a distinct encoding routine when a stop-loss or
    take-profit leg is attached. It is taken as it comes. *)
Variable makeRequestWithPayload :
  Client -> Env OrderResponse.t -> string -> string -> gmap string string ->
  result (http.Body OrderResponse.t).

(** The JSON text of an attached leg:
    [{"type":T,"stopPrice":%g,"price":%g,"workingType":"MARK_PRICE"}]. *)
Definition legJSON (type : string) (stopPrice price : float) : string :=
  let q := json.quote in
  "{" +:+ q +:+ "type" +:+ q +:+ ":" +:+ q +:+ type +:+ q +:+ ","
  +:+ q +:+ "stopPrice" +:+ q +:+ ":" +:+ fmt.Sprintf_g stopPrice +:+ ","
  +:+ q +:+ "price" +:+ q +:+ ":" +:+ fmt.Sprintf_g price +:+ ","
  +:+ q +:+ "workingType" +:+ q +:+ ":" +:+ q +:+ "MARK_PRICE" +:+ q +:+ "}".

(** The parameters of the order request. *)
Definition orderParams (order : broker.OrderRequest.t) : gmap string string :=
  let '(side, positionSide) :=
    if decide (broker.OrderRequest.Side order = broker.SideShort)
    then ("SELL", "SHORT") else ("BUY", "LONG") in
  let params : gmap string string :=
    <["symbol" := broker.OrderRequest.Symbol order]>
      (<["side" := side]>
         (<["positionSide" := positionSide]>
            (<["type" := broker.OrderRequest.Type_ order]>
               (<["quantity" := fmt.Sprintf_f8 (broker.OrderRequest.Size order)]> ∅)))) in
  let params :=
    if (0 <? broker.OrderRequest.Price order)%float
    then <["price" := fmt.Sprintf_f8 (broker.OrderRequest.Price order)]> params
    else params in
  let params :=
    if (0 <? broker.OrderRequest.StopPrice order)%float
    then <["stopPrice" := fmt.Sprintf_f8 (broker.OrderRequest.StopPrice order)]> params
    else params in
  let params :=
    if decide (broker.OrderRequest.TimeInForce order ≠ "")
    then <["timeInForce" := broker.OrderRequest.TimeInForce order]> params
    else if decide (broker.OrderRequest.Type_ order = broker.OrderTypeLimit)
    then <["timeInForce" := "GTC"]> params
    else params in
  let params :=
    if broker.OrderRequest.ReduceOnly order
    then <["reduceOnly" := "true"]> params
    else params in
  let params :=
    match broker.OrderRequest.StopLoss order with
    | Some sl =>
        <["stopLoss" := legJSON "STOP" (broker.StopLossConfig.TriggerPrice sl)
                                (broker.StopLossConfig.TriggerPrice sl)]> params
    | None => params
    end in
  match broker.OrderRequest.TakeProfit order with
  | Some tp =>
      <["takeProfit" := legJSON "TAKE_PROFIT" (broker.TakeProfitConfig.TriggerPrice tp)
                                  (broker.TakeProfitConfig.OrderPrice tp)]> params
  | None => params
  end.

(** The order the acknowledgement becomes. *)
Definition toPlacedOrder (data : OrderData.t) (created updated : time.Time) : broker.Order.t :=
  let price := fst (ParseFloat (OrderData.Price data)) in
  let size := fst (ParseFloat (OrderData.Quantity data)) in
  let brokerSide := sideOf (OrderData.PositionSide data) in
  {| broker.Order.ID := strconv.FormatInt (OrderData.OrderId data);
     broker.Order.ClientOrderID := "";
     broker.Order.Symbol := OrderData.Symbol data;
     broker.Order.Side := brokerSide;
     broker.Order.Type_ := OrderData.Type_ data;
     broker.Order.Status := OrderData.Status data;
     broker.Order.Size := size;
     broker.Order.Price := price;
     broker.Order.StopPrice := 0%float;
     broker.Order.FilledSize := 0%float;
     broker.Order.AveragePrice := 0%float;
     broker.Order.ReduceOnly := false;
     broker.Order.TimeInForce := "";
     broker.Order.CreatedAt := created;
     broker.Order.UpdatedAt := updated |}.

Definition PlaceOrder (c : Client) (env : Env OrderResponse.t) (order : broker.OrderRequest.t)
    : result broker.Order.t :=
  let params := orderParams order in
  body ←
    (if bool_decide (broker.OrderRequest.StopLoss order ≠ None)
        || bool_decide (broker.OrderRequest.TakeProfit order ≠ None)
     then makeRequestWithPayload c env "POST" EndpointPlaceOrder params
     else makeRequest c env "POST" EndpointPlaceOrder params);
  match http.decoded body with
  | Err err =>
      Err (broker.NewBrokerError "bingx" "PARSE_ERROR" "Failed to parse order response"
             (Some err))
  | Ok response =>
      if decide (OrderResponse.Code response ≠ APISuccessCode) then
        Err (apiError (OrderResponse.Code response) (OrderResponse.Msg response))
      else Ok (toPlacedOrder (OrderResponse.Data response) (Now env 1) (Now env 2))
  end.

End PlaceOrder.

(** [CancelOrder]: nil when the exchange acknowledges with code 0. *)
Definition CancelOrder (c : Client) (env : Env CancelResponse.t) (symbol orderID : string)
    : option error :=
  let params : gmap string string :=
    <["symbol" := symbol]> (<["orderId" := orderID]> ∅) in
  match makeRequest c env "DELETE" EndpointPlaceOrder params with
  | Err err => Some err
  | Ok body =>
      match http.decoded body with
      | Err err =>
          Some (broker.NewBrokerError "bingx" "PARSE_ERROR" "Failed to parse cancel response"
                  (Some err))
      | Ok response =>
          if decide (CancelResponse.Code response ≠ APISuccessCode) then
            Some (apiError (CancelResponse.Code response) (CancelResponse.Msg response))
          else None
      end
  end.

(** [CancelAllOrders]: the orders of [symbol], of every symbol when it is
    empty. *)
Definition CancelAllOrders (c : Client) (env : Env CancelResponse.t) (symbol : string)
    : option error :=
  let params : gmap string string :=
    if decide (symbol ≠ "") then <["symbol" := symbol]> ∅ else ∅ in
  match makeRequest c env "DELETE" EndpointCancelAll params with
  | Err err => Some err
  | Ok body =>
      match http.decoded body with
      | Err err =>
          Some (broker.NewBrokerError "bingx" "PARSE_ERROR"
                  "Failed to parse cancel all response" (Some err))
      | Ok response =>
          if decide (CancelResponse.Code response ≠ APISuccessCode) then
            Some (apiError (CancelResponse.Code response) (CancelResponse.Msg response))
          else None
      end
  end.

(** ** GetCurrentPrice (market.go) *)

Definition GetCurrentPrice (c : Client) (env : Env PriceResponse.t) (symbol : string)
    : result float :=
  let params : gmap string string := <["symbol" := symbol]> ∅ in
  body ← makeRequest c env "GET" EndpointPrice params;
  match http.decoded body with
  | Err err =>
      Err (broker.NewBrokerError "bingx" "PARSE_ERROR" "Failed to parse price response"
             (Some err))
  | Ok response =>
      if decide (PriceResponse.Code response ≠ APISuccessCode) then
        Err (apiError (PriceResponse.Code response) (PriceResponse.Msg response))
      else
        match ParseFloat (PriceData.Price (PriceResponse.Data response)) with
        | (_, Some err) =>
            Err (broker.NewBrokerError "bingx" "PARSE_ERROR" "Failed to parse price value"
                   (Some err))
        | (price, None) => Ok price
        end
  end.

(** ** SetLeverage (market.go) *)

Definition SetLeverage (c : Client) (env : Env LeverageResponse.t) (symbol side : string)
    (leverage : Z) : option error :=
  let params : gmap string string :=
    <["symbol" := symbol]> (<["side" := side]> (<["leverage" := strconv.Itoa leverage]> ∅)) in
  match makeRequest c env "POST" EndpointLeverage params with
  | Err err => Some err
  | Ok body =>
      match http.decoded body with
      | Err err =>
          Some (broker.NewBrokerError "bingx" "PARSE_ERROR" "Failed to parse leverage response"
                  (Some err))
      | Ok response =>
          if decide (LeverageResponse.Code response ≠ APISuccessCode) then
            Some (apiError (LeverageResponse.Code response) (LeverageResponse.Msg response))
          else None
      end
  end.

End bingx.

(** * Package context, and the retry test of examples/error_handling.go *)

Module context.

(** [context.DeadlineExceeded], by its text. *)
Definition DeadlineExceeded : error := errorString "context deadline exceeded".

End context.

Module error_handling.

Definition isRetryable (err : error) : bool :=
  errors.Is err broker.ErrAPIError
  || errors.Is err broker.ErrRateLimited
  || errors.Is err context.DeadlineExceeded.

End error_handling.

(** * Auxiliary definitions for the statements *)

(** The payload entry [p] with its [leverage] field replaced. *)
Definition withLeverage (raw : json.RawMessage) (p : bingx.PositionData.t)
    : bingx.PositionData.t :=
  {| bingx.PositionData.Symbol := bingx.PositionData.Symbol p;
     bingx.PositionData.PositionSide := bingx.PositionData.PositionSide p;
     bingx.PositionData.PositionAmt := bingx.PositionData.PositionAmt p;
     bingx.PositionData.AvailableAmt := bingx.PositionData.AvailableAmt p;
     bingx.PositionData.UnrealizedProfit := bingx.PositionData.UnrealizedProfit p;
     bingx.PositionData.RealisedProfit := bingx.PositionData.RealisedProfit p;
     bingx.PositionData.InitialMargin := bingx.PositionData.InitialMargin p;
     bingx.PositionData.MaintenanceMargin := bingx.PositionData.MaintenanceMargin p;
     bingx.PositionData.PositionValue := bingx.PositionData.PositionValue p;
     bingx.PositionData.Leverage := raw;
     bingx.PositionData.IsolatedMargin := bingx.PositionData.IsolatedMargin p;
     bingx.PositionData.AvgPrice := bingx.PositionData.AvgPrice p;
     bingx.PositionData.MaxNotionalValue := bingx.PositionData.MaxNotionalValue p;
     bingx.PositionData.BidNotional := bingx.PositionData.BidNotional p;
     bingx.PositionData.AskNotional := bingx.PositionData.AskNotional p;
     bingx.PositionData.LiquidationPrice := bingx.PositionData.LiquidationPrice p;
     bingx.PositionData.MarkPrice := bingx.PositionData.MarkPrice p |}.

(** The payload entry [p] with its [liquidationPrice] field replaced. *)
Definition withLiquidationPrice (raw : json.RawMessage) (p : bingx.PositionData.t)
    : bingx.PositionData.t :=
  {| bingx.PositionData.Symbol := bingx.PositionData.Symbol p;
     bingx.PositionData.PositionSide := bingx.PositionData.PositionSide p;
     bingx.PositionData.PositionAmt := bingx.PositionData.PositionAmt p;
     bingx.PositionData.AvailableAmt := bingx.PositionData.AvailableAmt p;
     bingx.PositionData.UnrealizedProfit := bingx.PositionData.UnrealizedProfit p;
     bingx.PositionData.RealisedProfit := bingx.PositionData.RealisedProfit p;
     bingx.PositionData.InitialMargin := bingx.PositionData.InitialMargin p;
     bingx.PositionData.MaintenanceMargin := bingx.PositionData.MaintenanceMargin p;
     bingx.PositionData.PositionValue := bingx.PositionData.PositionValue p;
     bingx.PositionData.Leverage := bingx.PositionData.Leverage p;
     bingx.PositionData.IsolatedMargin := bingx.PositionData.IsolatedMargin p;
     bingx.PositionData.AvgPrice := bingx.PositionData.AvgPrice p;
     bingx.PositionData.MaxNotionalValue := bingx.PositionData.MaxNotionalValue p;
     bingx.PositionData.BidNotional := bingx.PositionData.BidNotional p;
     bingx.PositionData.AskNotional := bingx.PositionData.AskNotional p;
     bingx.PositionData.LiquidationPrice := raw;
     bingx.PositionData.MarkPrice := bingx.PositionData.MarkPrice p |}.

(** A decoding that ends in an error. *)
Definition fails (r : float * option error) : Prop := snd r <> None.

(** What the decoders make of a number literal: the float it spells, or the
    final error when [encoding/json] rejects it as out of range. *)
Definition ofNumber (what lit : string) : float * option error :=
  match strconv.ParseFloat lit with
  | (f, None) => (f, None)
  | (_, Some _) => (0%float, Some (errorString (what +:+ lit)))
  end.

(** The four trigger order types. *)
Definition isTriggerType (orderType : string) : bool :=
  bool_decide (orderType = "STOP") || bool_decide (orderType = "STOP_MARKET")
  || bool_decide (orderType = "TAKE_PROFIT") || bool_decide (orderType = "TAKE_PROFIT_MARKET").

(** The entries the loop of [GetPositions] does not skip. *)
Definition keepsPosition (filter : option broker.PositionFilter.t) (pos : bingx.PositionData.t)
    : bool :=
  negb (fst (ParseFloat (bingx.PositionData.PositionAmt pos)) =? 0)%float
  && negb (bingx.sideFiltered filter (bingx.sideOf (bingx.PositionData.PositionSide pos))).

(** The positions made of [kept], the first stamped with the clock's
    reading number [tick]. *)
Definition stampedPositions {A : Type} (env : Env A) (kept : list bingx.PositionData.t)
    (tick : nat) : list broker.Position.t :=
  zip_with (fun pos i => bingx.toPosition pos (Now env i)) kept (seq tick (length kept)).

(** The errors of [makeRequest]: a wrapped error or a [BrokerError], never a
    bare [errors.New] value. *)
Definition fromRequestPath (e : error) : Prop :=
  match e with
  | errorString _ => False
  | _ => True
  end.

(** The error of [GetBalance] on an empty data list. *)
Definition noDataError : error :=
  broker.NewBrokerError "bingx" "NO_DATA" "No balance data returned" None.

(** The value of a hexadecimal digit of [url.QueryEscape]. *)
Definition unhex (c : ascii) : Z :=
  if is_digit c then code c - 48 else code c - 55.

(** The inverse of [url.QueryEscape] on what it writes ([url.QueryUnescape]
    on well-formed input). *)
Fixpoint unescape (s : string) : string :=
  match s with
  | EmptyString => EmptyString
  | String c t =>
      if ascii_eqb c "+" then String " " (unescape t)
      else if ascii_eqb c "%" then
        match t with
        | String h (String l t') =>
            String (ascii_of_N (Z.to_N (16 * unhex h + unhex l))) (unescape t')
        | _ => EmptyString
        end
      else String c (unescape t)
  end.

(** The keys of the parameters, sorted. *)
Definition sortedKeys (params : gmap string string) : list string :=
  merge_sort String.le (map_to_list params).*1.

(** What [Encode] writes for the keys [ks] onto [buf]. *)
Definition written (params : gmap string string) (ks : list string) (buf : string) : string :=
  foldl (fun buf k =>
           match params !! k with
           | Some v => url.writePair (url.QueryEscape k) buf v
           | None => buf
           end) buf ks.

(** What follows a buffer that is not empty. *)
Definition suffix (params : gmap string string) (ks : list string) : string :=
  foldr (fun k t =>
           match params !! k with
           | Some v => "&" +:+ url.QueryEscape k +:+ "=" +:+ url.QueryEscape v +:+ t
           | None => t
           end) "" ks.

(** A lower-case hexadecimal digit. *)
Definition is_lower_hex (c : ascii) : bool :=
  is_digit c || ((97 <=? code c) && (code c <=? 102)).

(** The ten sentinel errors of package [broker]. *)
Definition sentinels : list error :=
  [broker.ErrInvalidSymbol; broker.ErrInvalidPrice; broker.ErrInvalidQuantity;
   broker.ErrInsufficientBalance; broker.ErrPositionNotFound; broker.ErrOrderNotFound;
   broker.ErrLeverageTooHigh; broker.ErrAuthFailed; broker.ErrRateLimited;
   broker.ErrAPIError].

(** An error that [errors.Is] matches with none of the sentinel errors. *)
Definition matchesNoSentinel (e : error) : Prop :=
  Forall (fun s => errors.Is e s = false) sentinels.

(** The error of [makeRequest] on a status other than 200. *)
Definition httpError (status : Z) (body : string) : error :=
  broker.NewBrokerError "bingx" "HTTP_ERROR"
    ("HTTP " +:+ strconv.FormatInt status +:+ ": " +:+ body) None.

(** The exchange answered, and the body decoded into the response type. *)
Definition answered {A : Type} (rt : http.RoundTrip A) : Prop :=
  match rt with
  | http.Response _ body =>
      match http.decoded body with
      | Ok _ => True
      | Err _ => False
      end
  | _ => False
  end.

(** An exchange that goes the same way [rt] whatever the request. *)
Definition always {A : Type} (now : nat -> time.Time) (rt : http.RoundTrip A) : Env A :=
  {| Now := now; Do := fun _ => rt |}.

(** The clock's reading as the [timestamp] parameter carries it. *)
Definition millis (now : time.Time) : string := strconv.FormatInt (time.UnixMilli now).

(** A position filter on a side, and the entries [GetPositions] keeps under
    it: those with an amount that is not 0 and that side. *)
Definition sideFilter (symbol : string) (side : broker.Side) : option broker.PositionFilter.t :=
  Some {| broker.PositionFilter.Symbol := symbol; broker.PositionFilter.Side := Some side |}.

Definition onSide (side : broker.Side) (pos : bingx.PositionData.t) : bool :=
  negb (fst (ParseFloat (bingx.PositionData.PositionAmt pos)) =? 0)%float
  && bool_decide (bingx.sideOf (bingx.PositionData.PositionSide pos) = side).

(** The keys [PlaceOrder] can send. *)
Definition orderKeys : list string :=
  ["symbol"; "side"; "positionSide"; "type"; "quantity"; "price"; "stopPrice";
   "timeInForce"; "reduceOnly"; "stopLoss"; "takeProfit"].

(** The request with the fields [PlaceOrder] does not read replaced: the
    trailing configuration, the limit price and the working type of the
    stop-loss leg, the working type of the take-profit leg. *)
Definition withUnread (trailing : option broker.TrailingConfig.t) (slPrice : float)
    (slWorking tpWorking : broker.WorkingType) (order : broker.OrderRequest.t)
    : broker.OrderRequest.t :=
  {| broker.OrderRequest.Symbol := broker.OrderRequest.Symbol order;
     broker.OrderRequest.Side := broker.OrderRequest.Side order;
     broker.OrderRequest.Type_ := broker.OrderRequest.Type_ order;
     broker.OrderRequest.Size := broker.OrderRequest.Size order;
     broker.OrderRequest.Price := broker.OrderRequest.Price order;
     broker.OrderRequest.StopPrice := broker.OrderRequest.StopPrice order;
     broker.OrderRequest.TimeInForce := broker.OrderRequest.TimeInForce order;
     broker.OrderRequest.ReduceOnly := broker.OrderRequest.ReduceOnly order;
     broker.OrderRequest.StopLoss :=
       (fun sl => {| broker.StopLossConfig.TriggerPrice := broker.StopLossConfig.TriggerPrice sl;
                     broker.StopLossConfig.OrderPrice := slPrice;
                     broker.StopLossConfig.WorkingType := slWorking |})
       <$> broker.OrderRequest.StopLoss order;
     broker.OrderRequest.TakeProfit :=
       (fun tp => {| broker.TakeProfitConfig.TriggerPrice :=
                       broker.TakeProfitConfig.TriggerPrice tp;
                     broker.TakeProfitConfig.OrderPrice := broker.TakeProfitConfig.OrderPrice tp;
                     broker.TakeProfitConfig.WorkingType := tpWorking |})
       <$> broker.OrderRequest.TakeProfit order;
     broker.OrderRequest.Trailing := trailing |}.

(** [if c { params[k] = v }], and the same under [if o != nil] with a value
    made of what [o] points to. *)
Definition addIf (c : bool) (k v : string) (params : gmap string string)
    : gmap string string :=
  if c then <[k := v]> params else params.

Definition addOpt {X : Type} (o : option X) (k : string) (f : X -> string)
    (params : gmap string string) : gmap string string :=
  match o with
  | Some x => <[k := f x]> params
  | None => params
  end.

(** The time in force [PlaceOrder] sends: the one asked for, [GTC] for a
    limit order that asks for none. *)
Definition timeInForceSent (order : broker.OrderRequest.t) : option string :=
  if decide (broker.OrderRequest.TimeInForce order = "")
  then if decide (broker.OrderRequest.Type_ order = broker.OrderTypeLimit)
       then Some "GTC" else None
  else Some (broker.OrderRequest.TimeInForce order).

(** The two bytes that separate the pairs of a query string, and a key from
    its value. *)
Definition separator (c : ascii) : bool := ascii_eqb c "&" || ascii_eqb c "=".

(** A string that holds no separator. *)
Fixpoint free (s : string) : bool :=
  match s with
  | EmptyString => true
  | String c t => negb (separator c) && free t
  end.

(** A string that is empty or starts with a separator. *)
Definition stops (s : string) : bool :=
  match s with
  | EmptyString => true
  | String c _ => separator c
  end.

(** The pairs a list of keys stands for. *)
Definition pairsOf (params : gmap string string) (ks : list string)
    : list (string * option string) :=
  map (fun k => (k, params !! k)) ks.

(** An entry with no amount: one that [GetPositions] skips. *)
Definition isFlat (pos : bingx.PositionData.t) : bool :=
  (fst (ParseFloat (bingx.PositionData.PositionAmt pos)) =? 0)%float.

(** * Fixtures: the payloads of the package's tests and of the scenarios *)

(** The position of the package's own tests: BTC-USDT, 0.1 long at 10x. *)
Definition btcLong : bingx.PositionData.t :=
  {| bingx.PositionData.Symbol := "BTC-USDT";
     bingx.PositionData.PositionSide := "LONG";
     bingx.PositionData.PositionAmt := "0.1";
     bingx.PositionData.AvailableAmt := "0.1";
     bingx.PositionData.UnrealizedProfit := "50.00";
     bingx.PositionData.RealisedProfit := "0";
     bingx.PositionData.InitialMargin := "450.00";
     bingx.PositionData.MaintenanceMargin := "22.50";
     bingx.PositionData.PositionValue := "4500.00";
     bingx.PositionData.Leverage := Some (json.JString "10");
     bingx.PositionData.IsolatedMargin := "0";
     bingx.PositionData.AvgPrice := "45000.00";
     bingx.PositionData.MaxNotionalValue := "1000000";
     bingx.PositionData.BidNotional := "0";
     bingx.PositionData.AskNotional := "0";
     bingx.PositionData.LiquidationPrice := Some (json.JString "42000.50");
     bingx.PositionData.MarkPrice := "45500.00" |}.

(** An environment in which the exchange answers every request with status
    200 and the body [body]. *)
Definition answering {A : Type} (now : nat -> time.Time) (body : http.Body A) : Env A :=
  {| Now := now; Do := fun _ => http.Response http.StatusOK body |}.

(** A clock that starts on 2023-11-14 22:13:20 UTC and advances a
    millisecond a reading. *)
Definition clock (n : nat) : time.Time := 1700000000000000000 + 1000000 * Z.of_nat n.

(** The client of the examples: demo keys, the demo host. *)
Definition demoClient : bingx.Client := bingx.NewClient "demo-key" "demo-secret" true.

(** The wire form of a position entry. *)
Definition positionJSON (p : bingx.PositionData.t) : json.Value :=
  json.JObject
    ([("symbol", json.JString (bingx.PositionData.Symbol p));
      ("positionSide", json.JString (bingx.PositionData.PositionSide p));
      ("positionAmt", json.JString (bingx.PositionData.PositionAmt p));
      ("availableAmt", json.JString (bingx.PositionData.AvailableAmt p));
      ("unrealizedProfit", json.JString (bingx.PositionData.UnrealizedProfit p));
      ("realisedProfit", json.JString (bingx.PositionData.RealisedProfit p));
      ("initialMargin", json.JString (bingx.PositionData.InitialMargin p));
      ("maintenanceMargin", json.JString (bingx.PositionData.MaintenanceMargin p));
      ("positionValue", json.JString (bingx.PositionData.PositionValue p))]
     ++ match bingx.PositionData.Leverage p with
        | Some v => [("leverage", v)]
        | None => []
        end
     ++ [("isolatedMargin", json.JString (bingx.PositionData.IsolatedMargin p));
         ("avgPrice", json.JString (bingx.PositionData.AvgPrice p));
         ("maxNotionalValue", json.JString (bingx.PositionData.MaxNotionalValue p));
         ("bidNotional", json.JString (bingx.PositionData.BidNotional p));
         ("askNotional", json.JString (bingx.PositionData.AskNotional p))]
     ++ match bingx.PositionData.LiquidationPrice p with
        | Some v => [("liquidationPrice", v)]
        | None => []
        end
     ++ [("markPrice", json.JString (bingx.PositionData.MarkPrice p))]).

(** The body that carries the envelope [resp], and an exchange that answers
    with it. *)
Definition positionsBody (resp : bingx.PositionsResponse.t)
    : http.Body bingx.PositionsResponse.t :=
  {| http.bytes :=
       json.text
         (json.JObject
            [("code", json.JNumber (strconv.FormatInt (bingx.PositionsResponse.Code resp)));
             ("msg", json.JString (bingx.PositionsResponse.Msg resp));
             ("data", json.JArray (map positionJSON (bingx.PositionsResponse.Data resp)))]);
     http.decoded := Ok resp |}.

Definition positionsEnv (resp : bingx.PositionsResponse.t) : Env bingx.PositionsResponse.t :=
  answering clock (positionsBody resp).

(** Scenario B: a short ETH position whose leverage is the number 25, and an
    entry with amount ["0"]. *)
Definition ethShort : bingx.PositionData.t :=
  {| bingx.PositionData.Symbol := "ETH-USDT";
     bingx.PositionData.PositionSide := "SHORT";
     bingx.PositionData.PositionAmt := "1.5";
     bingx.PositionData.AvailableAmt := "1.5";
     bingx.PositionData.UnrealizedProfit := "-12.25";
     bingx.PositionData.RealisedProfit := "0";
     bingx.PositionData.InitialMargin := "180.00";
     bingx.PositionData.MaintenanceMargin := "9.00";
     bingx.PositionData.PositionValue := "4500.00";
     bingx.PositionData.Leverage := Some (json.JNumber "25");
     bingx.PositionData.IsolatedMargin := "0";
     bingx.PositionData.AvgPrice := "3000.00";
     bingx.PositionData.MaxNotionalValue := "1000000";
     bingx.PositionData.BidNotional := "0";
     bingx.PositionData.AskNotional := "0";
     bingx.PositionData.LiquidationPrice := Some (json.JNumber "3400.5");
     bingx.PositionData.MarkPrice := "3008.17" |}.

Definition flat : bingx.PositionData.t :=
  {| bingx.PositionData.Symbol := "SOL-USDT";
     bingx.PositionData.PositionSide := "LONG";
     bingx.PositionData.PositionAmt := "0";
     bingx.PositionData.AvailableAmt := "0";
     bingx.PositionData.UnrealizedProfit := "0";
     bingx.PositionData.RealisedProfit := "0";
     bingx.PositionData.InitialMargin := "0";
     bingx.PositionData.MaintenanceMargin := "0";
     bingx.PositionData.PositionValue := "0";
     bingx.PositionData.Leverage := Some (json.JString "5");
     bingx.PositionData.IsolatedMargin := "0";
     bingx.PositionData.AvgPrice := "0";
     bingx.PositionData.MaxNotionalValue := "1000000";
     bingx.PositionData.BidNotional := "0";
     bingx.PositionData.AskNotional := "0";
     bingx.PositionData.LiquidationPrice := Some (json.JString "");
     bingx.PositionData.MarkPrice := "98.40" |}.

Definition scenarioB : bingx.PositionsResponse.t :=
  {| bingx.PositionsResponse.Code := 0;
     bingx.PositionsResponse.Data := [btcLong; flat; ethShort];
     bingx.PositionsResponse.Msg := "" |}.

Definition scenarioB_positions : list broker.Position.t :=
  [ {| broker.Position.Symbol := "BTC-USDT";
       broker.Position.Side := "LONG";
       broker.Position.Size := 0.1;
       broker.Position.EntryPrice := 45000;
       broker.Position.MarkPrice := 45500;
       broker.Position.LiquidationPrice := 42000.5;
       broker.Position.Leverage := 10;
       broker.Position.UnrealizedPnL := 50;
       broker.Position.RealizedPnL := 0;
       broker.Position.Margin := 450;
       broker.Position.MaintenanceMargin := 22.5;
       broker.Position.Timestamp := clock 1 |};
    {| broker.Position.Symbol := "ETH-USDT";
       broker.Position.Side := "SHORT";
       broker.Position.Size := 1.5;
       broker.Position.EntryPrice := 3000;
       broker.Position.MarkPrice := 3008.17;
       broker.Position.LiquidationPrice := 3400.5;
       broker.Position.Leverage := 25;
       broker.Position.UnrealizedPnL := -12.25;
       broker.Position.RealizedPnL := 0;
       broker.Position.Margin := 180;
       broker.Position.MaintenanceMargin := 9;
       broker.Position.Timestamp := clock 2 |} ].

Definition balanceJSON (d : bingx.BalanceData.t) : json.Value :=
  json.JObject
    [("userId", json.JString (bingx.BalanceData.UserId d));
     ("asset", json.JString (bingx.BalanceData.Asset d));
     ("balance", json.JString (bingx.BalanceData.Balance d));
     ("equity", json.JString (bingx.BalanceData.Equity d));
     ("unrealizedProfit", json.JString (bingx.BalanceData.UnrealizedProfit d));
     ("realisedProfit", json.JString (bingx.BalanceData.RealisedProfit d));
     ("availableMargin", json.JString (bingx.BalanceData.AvailableMargin d));
     ("usedMargin", json.JString (bingx.BalanceData.UsedMargin d));
     ("freezedMargin", json.JString (bingx.BalanceData.FreezedMargin d));
     ("shortUid", json.JString (bingx.BalanceData.ShortUid d))].

Definition balanceBody (resp : bingx.BalanceResponse.t) : http.Body bingx.BalanceResponse.t :=
  {| http.bytes :=
       json.text
         (json.JObject
            [("code", json.JNumber (strconv.FormatInt (bingx.BalanceResponse.Code resp)));
             ("msg", json.JString (bingx.BalanceResponse.Msg resp));
             ("data", json.JArray (map balanceJSON (bingx.BalanceResponse.Data resp)))]);
     http.decoded := Ok resp |}.

Definition balanceEnv (resp : bingx.BalanceResponse.t) : Env bingx.BalanceResponse.t :=
  answering clock (balanceBody resp).

(** The balance entry of scenario A, with [equity] as given. *)
Definition usdt (equity : string) : bingx.BalanceData.t :=
  {| bingx.BalanceData.UserId := "";
     bingx.BalanceData.Asset := "USDT";
     bingx.BalanceData.Balance := "1000.00";
     bingx.BalanceData.Equity := equity;
     bingx.BalanceData.UnrealizedProfit := "50.00";
     bingx.BalanceData.RealisedProfit := "";
     bingx.BalanceData.AvailableMargin := "950.00";
     bingx.BalanceData.UsedMargin := "100.00";
     bingx.BalanceData.FreezedMargin := "";
     bingx.BalanceData.ShortUid := "" |}.

Definition balanceEnvelope (data : list bingx.BalanceData.t) : bingx.BalanceResponse.t :=
  {| bingx.BalanceResponse.Code := 0;
     bingx.BalanceResponse.Data := data;
     bingx.BalanceResponse.Msg := "" |}.

Definition orderJSON (o : bingx.OpenOrderData.t) : json.Value :=
  json.JObject
    [("orderId", json.JNumber (strconv.FormatInt (bingx.OpenOrderData.OrderId o)));
     ("symbol", json.JString (bingx.OpenOrderData.Symbol o));
     ("side", json.JString (bingx.OpenOrderData.Side o));
     ("positionSide", json.JString (bingx.OpenOrderData.PositionSide o));
     ("type", json.JString (bingx.OpenOrderData.Type_ o));
     ("origQty", json.JString (bingx.OpenOrderData.Quantity o));
     ("price", json.JString (bingx.OpenOrderData.Price o));
     ("stopPrice", json.JString (bingx.OpenOrderData.StopPrice o));
     ("executedQty", json.JString (bingx.OpenOrderData.ExecutedQty o));
     ("avgPrice", json.JString (bingx.OpenOrderData.AvgPrice o));
     ("status", json.JString (bingx.OpenOrderData.Status o));
     ("timeInForce", json.JString (bingx.OpenOrderData.TimeInForce o));
     ("clientOrderId", json.JString (bingx.OpenOrderData.ClientOrderID o));
     ("workingType", json.JString (bingx.OpenOrderData.WorkingType o));
     ("time", json.JNumber (strconv.FormatInt (bingx.OpenOrderData.Time_ o)));
     ("updateTime", json.JNumber (strconv.FormatInt (bingx.OpenOrderData.UpdateTime o)))].

Definition ordersBody (resp : bingx.OpenOrdersResponse.t)
    : http.Body bingx.OpenOrdersResponse.t :=
  {| http.bytes :=
       json.text
         (json.JObject
            [("code", json.JNumber (strconv.FormatInt (bingx.OpenOrdersResponse.Code resp)));
             ("msg", json.JString (bingx.OpenOrdersResponse.Msg resp));
             ("data",
              json.JObject
                [("orders",
                  json.JArray
                    (map orderJSON
                       (bingx.OpenOrdersData.Orders (bingx.OpenOrdersResponse.Data resp))))])]);
     http.decoded := Ok resp |}.

Definition ordersEnv (resp : bingx.OpenOrdersResponse.t) : Env bingx.OpenOrdersResponse.t :=
  answering clock (ordersBody resp).

(** Scenario C: a sell order on the long BTC position, of the given type and
    raw status. *)
Definition sellOnLong (id : Z) (type status : string) : bingx.OpenOrderData.t :=
  {| bingx.OpenOrderData.OrderId := id;
     bingx.OpenOrderData.Symbol := "BTC-USDT";
     bingx.OpenOrderData.Side := "SELL";
     bingx.OpenOrderData.PositionSide := "LONG";
     bingx.OpenOrderData.Type_ := type;
     bingx.OpenOrderData.Quantity := "0.1";
     bingx.OpenOrderData.Price := "47000";
     bingx.OpenOrderData.StopPrice := "44000";
     bingx.OpenOrderData.ExecutedQty := "0";
     bingx.OpenOrderData.AvgPrice := "0";
     bingx.OpenOrderData.Status := status;
     bingx.OpenOrderData.TimeInForce := "GTC";
     bingx.OpenOrderData.ClientOrderID := "";
     bingx.OpenOrderData.WorkingType := "MARK_PRICE";
     bingx.OpenOrderData.Time_ := 1700000000123;
     bingx.OpenOrderData.UpdateTime := 1700000000456 |}.

Definition scenarioC : bingx.OpenOrdersResponse.t :=
  {| bingx.OpenOrdersResponse.Code := 0;
     bingx.OpenOrdersResponse.Data :=
       {| bingx.OpenOrdersData.Orders :=
            [sellOnLong 1 "STOP_MARKET" "NEW"; sellOnLong 2 "LIMIT" "NEW";
             sellOnLong 3 "LIMIT" "PARTIALLY_FILLED"] |};
     bingx.OpenOrdersResponse.Msg := "" |}.

Definition statusFilter (symbol : string) (side status : option broker.OrderStatus)
    : option broker.OrderFilter.t :=
  Some {| broker.OrderFilter.Symbol := symbol;
          broker.OrderFilter.Side := side;
          broker.OrderFilter.Status := status |}.

(** The acknowledgement of a placed order, with [price] as given. *)
Definition ack (price : string) : bingx.OrderResponse.t :=
  {| bingx.OrderResponse.Code := 0;
     bingx.OrderResponse.Data :=
       {| bingx.OrderData.OrderId := 1735812345;
          bingx.OrderData.Symbol := "BTC-USDT";
          bingx.OrderData.Side := "BUY";
          bingx.OrderData.PositionSide := "LONG";
          bingx.OrderData.Type_ := "LIMIT";
          bingx.OrderData.Quantity := "0.001";
          bingx.OrderData.Price := price;
          bingx.OrderData.Status := "NEW" |};
     bingx.OrderResponse.Msg := "" |}.

Definition ackBody (resp : bingx.OrderResponse.t) : http.Body bingx.OrderResponse.t :=
  {| http.bytes :=
       json.text
         (json.JObject
            [("code", json.JNumber (strconv.FormatInt (bingx.OrderResponse.Code resp)));
             ("msg", json.JString (bingx.OrderResponse.Msg resp));
             ("data",
              let d := bingx.OrderResponse.Data resp in
              json.JObject
                [("orderId", json.JNumber (strconv.FormatInt (bingx.OrderData.OrderId d)));
                 ("symbol", json.JString (bingx.OrderData.Symbol d));
                 ("side", json.JString (bingx.OrderData.Side d));
                 ("positionSide", json.JString (bingx.OrderData.PositionSide d));
                 ("type", json.JString (bingx.OrderData.Type_ d));
                 ("origQty", json.JString (bingx.OrderData.Quantity d));
                 ("price", json.JString (bingx.OrderData.Price d));
                 ("status", json.JString (bingx.OrderData.Status d))])]);
     http.decoded := Ok resp |}.

(** A limit buy of 0.001 BTC at 45000, no legs attached. *)
Definition limitBuy : broker.OrderRequest.t :=
  {| broker.OrderRequest.Symbol := "BTC-USDT";
     broker.OrderRequest.Side := broker.SideLong;
     broker.OrderRequest.Type_ := broker.OrderTypeLimit;
     broker.OrderRequest.Size := 0.001;
     broker.OrderRequest.Price := 45000;
     broker.OrderRequest.StopPrice := 0;
     broker.OrderRequest.TimeInForce := "";
     broker.OrderRequest.ReduceOnly := false;
     broker.OrderRequest.StopLoss := None;
     broker.OrderRequest.TakeProfit := None;
     broker.OrderRequest.Trailing := None |}.

(** The parameters of a market buy, as two callers may have built them. *)
Definition buyParams : gmap string string :=
  <["symbol" := "BTC-USDT"]> (<["side" := "BUY"]> ∅).

(** The leverage [GetPositions] reports for a raw [leverage] field. *)
Definition leverageReported (raw : json.RawMessage) : Z :=
  broker.Position.Leverage (bingx.toPosition (withLeverage raw btcLong) 0).

(** A gateway page instead of an answer. *)
Definition maintenance : string := "<html>502 Bad Gateway</html>".

Definition gatewayBody : http.Body bingx.BalanceResponse.t :=
  {| http.bytes := maintenance;
     http.decoded :=
       Err (errorString "invalid character '<' looking for beginning of value") |}.

(** The exchange's refusal of an unknown symbol. *)
Definition unknownSymbol : bingx.PriceResponse.t :=
  {| bingx.PriceResponse.Code := 109400;
     bingx.PriceResponse.Data := {| bingx.PriceData.Symbol := ""; bingx.PriceData.Price := "" |};
     bingx.PriceResponse.Msg := "symbol not exist" |}.

Definition priceBody (resp : bingx.PriceResponse.t) : http.Body bingx.PriceResponse.t :=
  {| http.bytes :=
       json.text
         (json.JObject
            [("code", json.JNumber (strconv.FormatInt (bingx.PriceResponse.Code resp)));
             ("msg", json.JString (bingx.PriceResponse.Msg resp));
             ("data",
              json.JObject
                [("symbol",
                  json.JString (bingx.PriceData.Symbol (bingx.PriceResponse.Data resp)));
                 ("price",
                  json.JString (bingx.PriceData.Price (bingx.PriceResponse.Data resp)))])]);
     http.decoded := Ok resp |}.

(** The parameters of [buyParams], set in the other order. *)
Definition buyParams' : gmap string string :=
  <["side" := "BUY"]> (<["symbol" := "BTC-USDT"]> ∅).

(** The short positions of scenario B. *)
Definition scenarioB_shorts : list broker.Position.t :=
  [ {| broker.Position.Symbol := "ETH-USDT";
       broker.Position.Side := "SHORT";
       broker.Position.Size := 1.5;
       broker.Position.EntryPrice := 3000;
       broker.Position.MarkPrice := 3008.17;
       broker.Position.LiquidationPrice := 3400.5;
       broker.Position.Leverage := 25;
       broker.Position.UnrealizedPnL := -12.25;
       broker.Position.RealizedPnL := 0;
       broker.Position.Margin := 180;
       broker.Position.MaintenanceMargin := 9;
       broker.Position.Timestamp := clock 1 |} ].

(** The exchange's answer to a client that asks too often. *)
Definition rateLimited : bingx.BalanceResponse.t :=
  {| bingx.BalanceResponse.Code := 100410;
     bingx.BalanceResponse.Data := [];
     bingx.BalanceResponse.Msg := "rate limited" |}.

(** A stop order that closes a short position, and its acknowledgement. *)
Definition stopShort : broker.OrderRequest.t :=
  {| broker.OrderRequest.Symbol := "BTC-USDT";
     broker.OrderRequest.Side := broker.SideShort;
     broker.OrderRequest.Type_ := broker.OrderTypeStop;
     broker.OrderRequest.Size := 0.001;
     broker.OrderRequest.Price := 0;
     broker.OrderRequest.StopPrice := 44000;
     broker.OrderRequest.TimeInForce := "";
     broker.OrderRequest.ReduceOnly := true;
     broker.OrderRequest.StopLoss := None;
     broker.OrderRequest.TakeProfit := None;
     broker.OrderRequest.Trailing := None |}.

Definition stopAck : bingx.OrderResponse.t :=
  {| bingx.OrderResponse.Code := 0;
     bingx.OrderResponse.Data :=
       {| bingx.OrderData.OrderId := 1735812399;
          bingx.OrderData.Symbol := "BTC-USDT";
          bingx.OrderData.Side := "SELL";
          bingx.OrderData.PositionSide := "SHORT";
          bingx.OrderData.Type_ := "STOP";
          bingx.OrderData.Quantity := "0.001";
          bingx.OrderData.Price := "0";
          bingx.OrderData.Status := "NEW" |};
     bingx.OrderResponse.Msg := "" |}.

(** * Properties *)


(** ** The decoder *)

(** C1, as stated, fails on two inputs: a liquidation price [null] does not
    fail, it decodes to 0 with no error (the package's test "Null price (no
    liquidation set)" expects that); and an empty leverage string does not
    decode to 0, it is a syntax error of [ParseFloat]. *)
Lemma decoder_null_and_empty_counterexample :
  bingx.GetLiquidationPriceFloat (withLiquidationPrice (Some json.JNull) btcLong)
    = (0%float, None)
  /\ bingx.GetLeverageFloat (withLeverage (Some (json.JString "")) btcLong)
    = (0%float, Some (NumError "ParseFloat" "" strconv.ErrSyntax)).
Proof. split; vm_compute; reflexivity. Qed.

(** C1, amended: the decoders by the shape of the raw value.
    [GetLiquidationPriceFloat]: the empty string and [null] give 0 with no
    error; any other string is parsed by [ParseFloat], value and error; a
    number gives the float it spells; a boolean, an array, an object and an
    absent field fail. [GetLeverageFloat]: every string is parsed by
    [ParseFloat], so the empty string fails, and so does [null]; numbers and
    the other shapes as for the liquidation price. *)
Theorem decoder_by_shape (p : bingx.PositionData.t) :
  let liq raw := bingx.GetLiquidationPriceFloat (withLiquidationPrice raw p) in
  let lev raw := bingx.GetLeverageFloat (withLeverage raw p) in
  (liq (Some (json.JString "")) = (0%float, None)
   /\ liq (Some json.JNull) = (0%float, None)
   /\ (forall c s, liq (Some (json.JString (String c s))) = ParseFloat (String c s))
   /\ (forall lit, liq (Some (json.JNumber lit))
                   = ofNumber "unable to parse liquidation price: " lit)
   /\ (forall b, fails (liq (Some (json.JBool b))))
   /\ (forall vs, fails (liq (Some (json.JArray vs))))
   /\ (forall kvs, fails (liq (Some (json.JObject kvs))))
   /\ fails (liq None))
  /\ (fails (lev (Some (json.JString "")))
      /\ fails (lev (Some json.JNull))
      /\ (forall s, lev (Some (json.JString s)) = ParseFloat s)
      /\ (forall lit, lev (Some (json.JNumber lit)) = ofNumber "unable to parse leverage: " lit)
      /\ (forall b, fails (lev (Some (json.JBool b))))
      /\ (forall vs, fails (lev (Some (json.JArray vs))))
      /\ (forall kvs, fails (lev (Some (json.JObject kvs))))
      /\ fails (lev None)).
Proof.
  intros liq lev. unfold liq, lev, fails, ofNumber.
  unfold bingx.GetLiquidationPriceFloat, bingx.GetLeverageFloat. cbn.
  repeat split; try discriminate; intros;
    try (destruct (strconv.ParseFloat lit) as [f [e|]]; reflexivity).
Qed.

(** The tables of the package's tests of the two decoders: every case
    comes out as the test expects. *)
Example TestPositionData_GetLeverageFloat :
  map (fun raw => bingx.GetLeverageFloat (withLeverage (Some raw) btcLong))
      [json.JString "10"; json.JNumber "25"; json.JString "50.5"; json.JNumber "125.0";
       json.JString "125"]
  = [(10%float, None); (25%float, None); (50.5%float, None); (125%float, None);
     (125%float, None)]
  /\ Forall (fun raw => fails (bingx.GetLeverageFloat (withLeverage (Some raw) btcLong)))
            [json.JString "invalid"; json.JNull; json.JBool true].
Proof. split; [vm_compute; reflexivity|]. repeat constructor; discriminate. Qed.

Example TestPositionData_GetLiquidationPriceFloat :
  map (fun raw => bingx.GetLiquidationPriceFloat (withLiquidationPrice (Some raw) btcLong))
      [json.JString "45000.50"; json.JNumber "42000.0"; json.JString "50000";
       json.JNumber "48000"; json.JString ""; json.JString "999999.99"; json.JString "0.01";
       json.JNull]
  = [(45000.5%float, None); (42000%float, None); (50000%float, None); (48000%float, None);
     (0%float, None); (999999.99%float, None); (0.01%float, None); (0%float, None)]
  /\ Forall (fun raw =>
               fails (bingx.GetLiquidationPriceFloat (withLiquidationPrice (Some raw) btcLong)))
            [json.JString "invalid"; json.JBool false].
Proof. split; [vm_compute; reflexivity|]. repeat constructor; discriminate. Qed.

(** ** Order status and reduce-only inference *)

Lemma mapBingXStatus_cases (bingxStatus orderType : string) :
  bingx.mapBingXStatus bingxStatus orderType
  = if isTriggerType orderType && bool_decide (bingxStatus = "NEW")
    then "PENDING" else bingxStatus.
Proof.
  unfold bingx.mapBingXStatus, isTriggerType.
  rewrite !lookup_insert, lookup_empty.
  destruct (decide ("STOP" = orderType)) as [<-|n1]; [reflexivity|].
  destruct (decide ("STOP_MARKET" = orderType)) as [<-|n2]; [reflexivity|].
  destruct (decide ("TAKE_PROFIT" = orderType)) as [<-|n3]; [reflexivity|].
  destruct (decide ("TAKE_PROFIT_MARKET" = orderType)) as [<-|n4]; [reflexivity|].
  rewrite !(bool_decide_eq_false_2 (orderType = _)) by (intros ->; contradiction).
  reflexivity.
Qed.

(** The orders the listing loop has appended. *)
Lemma orders_loop (filter : option broker.OrderFilter.t) (data : list bingx.OpenOrderData.t)
    (acc : list broker.Order.t) :
  foldl (bingx.appendOrder filter) acc data
  = acc ++ map bingx.toOrder (List.filter (fun o => negb (bingx.orderFiltered filter o)) data).
Proof.
  revert acc. induction data as [|o data IH]; intros acc; cbn.
  - by rewrite app_nil_r.
  - rewrite IH. unfold bingx.appendOrder.
    destruct (bingx.orderFiltered filter o); cbn; [done|].
    by rewrite <- app_assoc.
Qed.

(** [GetOrders] on a success envelope. *)
Lemma GetOrders_success (c : bingx.Client) (env : Env bingx.OpenOrdersResponse.t)
    (filter : option broker.OrderFilter.t) (body : http.Body bingx.OpenOrdersResponse.t)
    (resp : bingx.OpenOrdersResponse.t) :
  bingx.makeRequest c env "GET" bingx.EndpointOpenOrders
    (bingx.symbolParams (broker.OrderFilter.Symbol <$> filter)) = Ok body ->
  http.decoded body = Ok resp ->
  bingx.OpenOrdersResponse.Code resp = bingx.APISuccessCode ->
  bingx.GetOrders c env filter
  = Ok (map bingx.toOrder
          (List.filter (fun o => negb (bingx.orderFiltered filter o))
             (bingx.OpenOrdersData.Orders (bingx.OpenOrdersResponse.Data resp)))).
Proof.
  intros Hreq Hdec Hcode. unfold bingx.GetOrders. rewrite Hreq. cbn. rewrite Hdec.
  case_decide; [done|]. by rewrite orders_loop.
Qed.

(** C3: a trigger order (STOP, STOP_MARKET, TAKE_PROFIT, TAKE_PROFIT_MARKET)
    whose raw status is NEW is listed as PENDING; every other pair of type
    and raw status keeps the raw status. On a success answer [GetOrders]
    lists the orders of the response that the filter lets through, all of
    them when there is no filter, each converted, in the order of the
    response: a trigger order that is NEW is in the list with the status
    PENDING, every other order with its raw status. *)
Theorem trigger_order_new_is_pending :
  (forall orderType,
      orderType ∈ ["STOP"; "STOP_MARKET"; "TAKE_PROFIT"; "TAKE_PROFIT_MARKET"] ->
      bingx.mapBingXStatus "NEW" orderType = "PENDING")
  /\ (forall bingxStatus orderType,
         ~ (orderType ∈ ["STOP"; "STOP_MARKET"; "TAKE_PROFIT"; "TAKE_PROFIT_MARKET"]
            /\ bingxStatus = "NEW") ->
         bingx.mapBingXStatus bingxStatus orderType = bingxStatus)
  /\ (forall o, broker.Order.Status (bingx.toOrder o)
                = bingx.mapBingXStatus (bingx.OpenOrderData.Status o) (bingx.OpenOrderData.Type_ o))
  /\ (forall c env filter body resp,
         bingx.makeRequest c env "GET" bingx.EndpointOpenOrders
           (bingx.symbolParams (broker.OrderFilter.Symbol <$> filter)) = Ok body ->
         http.decoded body = Ok resp ->
         bingx.OpenOrdersResponse.Code resp = bingx.APISuccessCode ->
         let orders := bingx.OpenOrdersData.Orders (bingx.OpenOrdersResponse.Data resp) in
         let listed := List.filter (fun o => negb (bingx.orderFiltered filter o)) orders in
         bingx.GetOrders c env filter = Ok (map bingx.toOrder listed)
         /\ (forall o, o ∈ listed <-> o ∈ orders /\ bingx.orderFiltered filter o = false)
         /\ (forall o,
               o ∈ listed ->
               bingx.OpenOrderData.Type_ o
               ∈ ["STOP"; "STOP_MARKET"; "TAKE_PROFIT"; "TAKE_PROFIT_MARKET"] ->
               bingx.OpenOrderData.Status o = "NEW" ->
               bingx.toOrder o ∈ map bingx.toOrder listed
               /\ broker.Order.Status (bingx.toOrder o) = "PENDING")
         /\ (forall o,
               o ∈ listed ->
               ~ (bingx.OpenOrderData.Type_ o
                  ∈ ["STOP"; "STOP_MARKET"; "TAKE_PROFIT"; "TAKE_PROFIT_MARKET"]
                  /\ bingx.OpenOrderData.Status o = "NEW") ->
               bingx.toOrder o ∈ map bingx.toOrder listed
               /\ broker.Order.Status (bingx.toOrder o) = bingx.OpenOrderData.Status o))
  /\ (forall c env body resp,
         bingx.makeRequest c env "GET" bingx.EndpointOpenOrders ∅ = Ok body ->
         http.decoded body = Ok resp ->
         bingx.OpenOrdersResponse.Code resp = bingx.APISuccessCode ->
         bingx.GetOrders c env None
         = Ok (map bingx.toOrder
                 (bingx.OpenOrdersData.Orders (bingx.OpenOrdersResponse.Data resp)))).
Proof.
  assert (Hpending : forall orderType,
             orderType ∈ ["STOP"; "STOP_MARKET"; "TAKE_PROFIT"; "TAKE_PROFIT_MARKET"] ->
             bingx.mapBingXStatus "NEW" orderType = "PENDING").
  { intros ty Hty. rewrite mapBingXStatus_cases. unfold isTriggerType.
    set_unfold. destruct Hty as [->|[->|[->|[->|[]]]]]; reflexivity. }
  assert (Hsame : forall bingxStatus orderType,
             ~ (orderType ∈ ["STOP"; "STOP_MARKET"; "TAKE_PROFIT"; "TAKE_PROFIT_MARKET"]
                /\ bingxStatus = "NEW") ->
             bingx.mapBingXStatus bingxStatus orderType = bingxStatus).
  { intros st ty Hn. rewrite mapBingXStatus_cases. unfold isTriggerType.
    destruct (_ && _) eqn:E; [|done]. exfalso. apply Hn.
    apply andb_prop in E as [Ht Hs]. apply bool_decide_eq_true in Hs.
    split; [|done]. set_unfold.
    repeat (apply orb_prop in Ht as [Ht|Ht]); apply bool_decide_eq_true in Ht; auto 6. }
  split; [exact Hpending|]. split; [exact Hsame|]. split; [reflexivity|]. split.
  - intros c env filter body resp Hreq Hdec Hcode orders listed.
    split; [by eapply GetOrders_success|]. split; [|split].
    + intros o. unfold listed. rewrite !list_elem_of_In, filter_In, negb_true_iff. tauto.
    + intros o Ho Hty Hst. split; [by apply list_elem_of_fmap_2|].
      cbn [bingx.toOrder broker.Order.Status]. rewrite Hst. by apply Hpending.
    + intros o Ho Hn. split; [by apply list_elem_of_fmap_2|].
      cbn [bingx.toOrder broker.Order.Status]. by apply Hsame.
  - intros c env body resp Hreq Hdec Hcode.
    rewrite (GetOrders_success c env None body resp Hreq Hdec Hcode). do 2 f_equal.
    induction (bingx.OpenOrdersData.Orders _) as [|o l IH]; [done|].
    cbn [List.filter bingx.orderFiltered negb]. by f_equal.
Qed.

(** C7: the reduce-only inference is true for (SELL, LONG) and (BUY, SHORT),
    false for (BUY, LONG) and (SELL, SHORT), and false for every other
    pair. *)
Theorem isReduceOnly_table :
  bingx.isReduceOnly "SELL" "LONG" = true
  /\ bingx.isReduceOnly "BUY" "SHORT" = true
  /\ bingx.isReduceOnly "BUY" "LONG" = false
  /\ bingx.isReduceOnly "SELL" "SHORT" = false
  /\ forall side positionSide,
       bingx.isReduceOnly side positionSide = true <->
       (side = "SELL" /\ positionSide = "LONG") \/ (side = "BUY" /\ positionSide = "SHORT").
Proof.
  repeat split; try reflexivity.
  - unfold bingx.isReduceOnly. intros H.
    apply orb_prop in H as [H|H]; apply andb_prop in H as [H1 H2];
      apply bool_decide_eq_true in H1, H2; auto.
  - unfold bingx.isReduceOnly. intros [[-> ->]|[-> ->]]; reflexivity.
Qed.

(** ** Positions *)

Lemma appendPosition_step {A : Type} (env : Env A) (filter : option broker.PositionFilter.t)
    (acc : list broker.Position.t) (tick : nat) (pos : bingx.PositionData.t) :
  bingx.appendPosition env filter (acc, tick) pos
  = if keepsPosition filter pos
    then (acc ++ [bingx.toPosition pos (Now env tick)], S tick)
    else (acc, tick).
Proof.
  unfold bingx.appendPosition, keepsPosition.
  destruct (fst (ParseFloat _) =? 0)%float; cbn [negb andb]; [done|].
  by destruct (bingx.sideFiltered _ _).
Qed.

Lemma positions_loop {A : Type} (env : Env A) (filter : option broker.PositionFilter.t)
    (data : list bingx.PositionData.t) (acc : list broker.Position.t) (tick : nat) :
  foldl (bingx.appendPosition env filter) (acc, tick) data
  = (acc ++ stampedPositions env (List.filter (keepsPosition filter) data) tick,
     (tick + length (List.filter (keepsPosition filter) data))%nat).
Proof.
  revert acc tick. induction data as [|pos data IH]; intros acc tick;
    cbn [foldl List.filter].
  - unfold stampedPositions. cbn. rewrite app_nil_r. f_equal. lia.
  - rewrite appendPosition_step. destruct (keepsPosition filter pos); [|apply IH].
    rewrite IH. unfold stampedPositions. cbn [length seq zip_with].
    rewrite <- app_assoc. cbn [app]. f_equal. lia.
Qed.

Lemma GetPositions_success (c : bingx.Client) (env : Env bingx.PositionsResponse.t)
    (filter : option broker.PositionFilter.t) (body : http.Body bingx.PositionsResponse.t)
    (resp : bingx.PositionsResponse.t) :
  bingx.makeRequest c env "GET" bingx.EndpointPositions
    (bingx.symbolParams (broker.PositionFilter.Symbol <$> filter)) = Ok body ->
  http.decoded body = Ok resp ->
  bingx.PositionsResponse.Code resp = bingx.APISuccessCode ->
  bingx.GetPositions c env filter
  = Ok (stampedPositions env
          (List.filter (keepsPosition filter) (bingx.PositionsResponse.Data resp)) 1).
Proof.
  intros Hreq Hdec Hcode. unfold bingx.GetPositions. rewrite Hreq. cbn. rewrite Hdec.
  case_decide; [done|]. by rewrite positions_loop.
Qed.

Lemma GetPositions_Ok_inv (c : bingx.Client) (env : Env bingx.PositionsResponse.t)
    (filter : option broker.PositionFilter.t) (ps : list broker.Position.t) :
  bingx.GetPositions c env filter = Ok ps ->
  exists body resp,
    bingx.makeRequest c env "GET" bingx.EndpointPositions
      (bingx.symbolParams (broker.PositionFilter.Symbol <$> filter)) = Ok body
    /\ http.decoded body = Ok resp
    /\ bingx.PositionsResponse.Code resp = bingx.APISuccessCode
    /\ ps = stampedPositions env
              (List.filter (keepsPosition filter) (bingx.PositionsResponse.Data resp)) 1.
Proof.
  intros H. unfold bingx.GetPositions in H.
  destruct (bingx.makeRequest _ _ _ _ _) as [body|e] eqn:Hreq; [|discriminate].
  cbn in H. destruct (http.decoded body) as [resp|e] eqn:Hdec; [|discriminate].
  case_decide as Hc; [discriminate|].
  exists body, resp. rewrite positions_loop in H. cbn in H. by injection H as <-.
Qed.

Lemma makeRequest_Err {A : Type} (c : bingx.Client) (env : Env A) (method endpoint : string)
    (params : gmap string string) (e : error) :
  bingx.makeRequest c env method endpoint params = Err e -> fromRequestPath e.
Proof.
  unfold bingx.makeRequest. destruct (Do env _); try case_decide; intros Heq;
    try discriminate; injection Heq as <-; exact I.
Qed.

Lemma GetPositions_Err (c : bingx.Client) (env : Env bingx.PositionsResponse.t)
    (filter : option broker.PositionFilter.t) (e : error) :
  bingx.GetPositions c env filter = Err e -> fromRequestPath e.
Proof.
  unfold bingx.GetPositions.
  destruct (bingx.makeRequest _ _ _ _ _) as [body|e'] eqn:Hreq; cbn.
  - destruct (http.decoded body); [case_decide|]; intros Heq; try discriminate;
      injection Heq as <-; exact I.
  - intros Heq. injection Heq as <-. by eapply makeRequest_Err.
Qed.

Lemma filter_sublist_of {X : Type} (f : X -> bool) (l : list X) : sublist (List.filter f l) l.
Proof.
  induction l as [|x l IH]; cbn; [constructor|].
  destruct (f x); by constructor.
Qed.

Lemma stampedPositions_Forall {A : Type} (env : Env A) (P : broker.Position.t -> Prop)
    (Q : bingx.PositionData.t -> Prop) (kept : list bingx.PositionData.t) (tick : nat) :
  (forall pos now, Q pos -> P (bingx.toPosition pos now)) ->
  Forall Q kept -> Forall P (stampedPositions env kept tick).
Proof.
  intros HPQ HQ. revert tick. unfold stampedPositions.
  induction HQ as [|pos kept Hpos _ IH]; intros tick; cbn; constructor; auto.
Qed.

(** C4: whatever the response and the filter, every record [GetPositions]
    returns has a non-zero size, and the records are those of the payload
    entries the loop keeps, in their order, none of which has an amount that
    decodes to 0. *)
Theorem zero_size_positions_excluded (c : bingx.Client)
    (env : Env bingx.PositionsResponse.t) (filter : option broker.PositionFilter.t)
    (ps : list broker.Position.t) :
  bingx.GetPositions c env filter = Ok ps ->
  Forall (fun p => (broker.Position.Size p =? 0)%float = false) ps
  /\ exists body resp kept,
       bingx.makeRequest c env "GET" bingx.EndpointPositions
         (bingx.symbolParams (broker.PositionFilter.Symbol <$> filter)) = Ok body
       /\ http.decoded body = Ok resp
       /\ sublist kept (bingx.PositionsResponse.Data resp)
       /\ Forall (fun pos =>
                    (fst (ParseFloat (bingx.PositionData.PositionAmt pos)) =? 0)%float = false)
                 kept
       /\ (forall pos, pos ∈ bingx.PositionsResponse.Data resp ->
             (fst (ParseFloat (bingx.PositionData.PositionAmt pos)) =? 0)%float = true ->
             pos ∉ kept)
       /\ ps = stampedPositions env kept 1.
Proof.
  intros H. apply GetPositions_Ok_inv in H as (body & resp & Hreq & Hdec & Hcode & ->).
  assert (Hkept : Forall (fun pos =>
            (fst (ParseFloat (bingx.PositionData.PositionAmt pos)) =? 0)%float = false)
            (List.filter (keepsPosition filter) (bingx.PositionsResponse.Data resp))).
  { apply Forall_forall. intros pos Hin. apply list_elem_of_In, filter_In in Hin as [_ Hk].
    unfold keepsPosition in Hk. apply andb_prop in Hk as [Hk _].
    by apply negb_true_iff in Hk. }
  split.
  - eapply stampedPositions_Forall; [|exact Hkept]. intros pos now Hz. exact Hz.
  - exists body, resp, (List.filter (keepsPosition filter) (bingx.PositionsResponse.Data resp)).
    repeat split; auto using filter_sublist_of.
    intros pos _ Hz Hin. rewrite Forall_forall in Hkept. apply Hkept in Hin. congruence.
Qed.

Lemma scenarioB_runs :
  bingx.GetPositions demoClient (positionsEnv scenarioB) None = Ok scenarioB_positions.
Proof. vm_compute. reflexivity. Qed.

Lemma zero_size_positions_excluded_witness :
  bingx.GetPositions demoClient (positionsEnv scenarioB) None = Ok scenarioB_positions
  /\ Forall (fun p => (broker.Position.Size p =? 0)%float = false) scenarioB_positions.
Proof.
  assert (H : bingx.GetPositions demoClient (positionsEnv scenarioB) None
              = Ok scenarioB_positions) by (vm_compute; reflexivity).
  split; [exact H|].
  exact (proj1 (zero_size_positions_excluded demoClient (positionsEnv scenarioB) None
                  scenarioB_positions H)).
Defined.

(** C6: the direction string of a position maps to Long when it is ["LONG"]
    and to Short for every other string, the empty one included; the side of
    every record [GetPositions] returns is one of the two, and no direction
    string makes the call fail: on a success envelope it returns a list. *)
Theorem position_side_is_long_or_short :
  bingx.sideOf "LONG" = broker.SideLong
  /\ (forall s, s <> "LONG" -> bingx.sideOf s = broker.SideShort)
  /\ (forall pos now,
         broker.Position.Side (bingx.toPosition pos now)
         = bingx.sideOf (bingx.PositionData.PositionSide pos))
  /\ (forall c env filter ps,
         bingx.GetPositions c env filter = Ok ps ->
         Forall (fun p => broker.Position.Side p = broker.SideLong
                          \/ broker.Position.Side p = broker.SideShort) ps)
  /\ (forall c env filter body resp,
         bingx.makeRequest c env "GET" bingx.EndpointPositions
           (bingx.symbolParams (broker.PositionFilter.Symbol <$> filter)) = Ok body ->
         http.decoded body = Ok resp ->
         bingx.PositionsResponse.Code resp = bingx.APISuccessCode ->
         exists ps, bingx.GetPositions c env filter = Ok ps).
Proof.
  split; [reflexivity|]. split.
  { intros s Hs. unfold bingx.sideOf. by case_decide. }
  split; [reflexivity|]. split.
  - intros c env filter ps H.
    apply GetPositions_Ok_inv in H as (body & resp & _ & _ & _ & ->).
    apply stampedPositions_Forall with (Q := fun _ => True); [|by apply Forall_forall].
    intros pos now _. cbn. unfold bingx.sideOf. case_decide; auto.
  - intros c env filter body resp Hreq Hdec Hcode. eexists.
    by eapply GetPositions_success.
Qed.

Lemma position_side_is_long_or_short_witness :
  bingx.GetPositions demoClient (positionsEnv scenarioB) None = Ok scenarioB_positions
  /\ Forall (fun p => broker.Position.Side p = broker.SideLong
                      \/ broker.Position.Side p = broker.SideShort) scenarioB_positions.
Proof.
  assert (H : bingx.GetPositions demoClient (positionsEnv scenarioB) None
              = Ok scenarioB_positions) by (vm_compute; reflexivity).
  split; [exact H|].
  exact (proj1 (proj2 (proj2 (proj2 position_side_is_long_or_short))) _ _ _ _ H).
Defined.

(** C8: [GetPosition] fails with [ErrPositionNotFound] exactly when the list
    [GetPositions] returns for the symbol is empty; on a non-empty list it
    returns the first element as it is, and an error of [GetPositions] is
    passed on. *)
Theorem GetPosition_first_or_not_found (c : bingx.Client)
    (env : Env bingx.PositionsResponse.t) (symbol : string) :
  let listed :=
    bingx.GetPositions c env
      (Some {| broker.PositionFilter.Symbol := symbol; broker.PositionFilter.Side := None |}) in
  (bingx.GetPosition c env symbol = Err broker.ErrPositionNotFound <-> listed = Ok [])
  /\ bingx.GetPosition c env symbol
     = match listed with
       | Ok [] => Err broker.ErrPositionNotFound
       | Ok (p :: _) => Ok p
       | Err e => Err e
       end.
Proof.
  intros listed. unfold bingx.GetPosition. fold listed.
  destruct listed as [[|p ps]|e] eqn:Hl; cbn; (split; [|reflexivity]).
  - split; reflexivity.
  - split; intros H; discriminate.
  - split; intros H; [|discriminate]. injection H as ->.
    apply GetPositions_Err in Hl. destruct Hl.
Qed.

(** ** Balance *)

Lemma makeRequest_Err_not_noData {A : Type} (c : bingx.Client) (env : Env A)
    (method endpoint : string) (params : gmap string string) (e : error) :
  bingx.makeRequest c env method endpoint params = Err e -> e <> noDataError.
Proof.
  unfold bingx.makeRequest, noDataError, broker.NewBrokerError.
  destruct (Do env _); try case_decide; intros Heq;
    try discriminate; injection Heq as <-; intros Hn; discriminate Hn.
Qed.

Lemma Err_eq {A : Type} (e e' : error) : @Err A e = Err e' -> e = e'.
Proof. intros H. by injection H. Qed.

Lemma apiError_not_noData (code : Z) (msg : string) : bingx.apiError code msg <> noDataError.
Proof.
  unfold bingx.apiError, noDataError, broker.NewBrokerError.
  intros H. injection H as H _. discriminate H.
Qed.

(** C9: [GetBalance] fails with the NO_DATA error exactly when the exchange
    answers 200 with an envelope that decodes, has code 0 and an empty data
    list. A non-zero code gives the API error of that code, a body that does
    not decode gives PARSE_ERROR, a failed round trip gives its own error:
    none of them is the NO_DATA error. *)
Theorem GetBalance_no_data_exactly (c : bingx.Client) (env : Env bingx.BalanceResponse.t) :
  (bingx.GetBalance c env = Err noDataError <->
   exists body resp,
     bingx.makeRequest c env "GET" bingx.EndpointBalance ∅ = Ok body
     /\ http.decoded body = Ok resp
     /\ bingx.BalanceResponse.Code resp = bingx.APISuccessCode
     /\ bingx.BalanceResponse.Data resp = [])
  /\ (forall body resp,
         bingx.makeRequest c env "GET" bingx.EndpointBalance ∅ = Ok body ->
         http.decoded body = Ok resp ->
         bingx.BalanceResponse.Code resp <> bingx.APISuccessCode ->
         bingx.GetBalance c env
         = Err (bingx.apiError (bingx.BalanceResponse.Code resp) (bingx.BalanceResponse.Msg resp))
         /\ bingx.apiError (bingx.BalanceResponse.Code resp) (bingx.BalanceResponse.Msg resp)
            <> noDataError)
  /\ (forall body err,
         bingx.makeRequest c env "GET" bingx.EndpointBalance ∅ = Ok body ->
         http.decoded body = Err err ->
         bingx.GetBalance c env
         = Err (broker.NewBrokerError "bingx" "PARSE_ERROR" "Failed to parse balance response"
                  (Some err)))
  /\ (forall e,
         bingx.makeRequest c env "GET" bingx.EndpointBalance ∅ = Err e ->
         bingx.GetBalance c env = Err e /\ e <> noDataError).
Proof.
  split; [split|split; [|split]].
  - (* only a success envelope with no data gives NO_DATA *)
    unfold bingx.GetBalance.
    destruct (bingx.makeRequest c env "GET" bingx.EndpointBalance ∅) as [body|e] eqn:Hreq;
      cbn.
    + destruct (http.decoded body) as [resp|err] eqn:Hdec; [|discriminate].
      case_decide as Hcode.
      * intros H. apply Err_eq in H. by apply apiError_not_noData in H.
      * destruct (bingx.BalanceResponse.Data resp) eqn:Hdata; [|discriminate].
        intros _. by exists body, resp.
    + intros H. apply Err_eq in H. by apply makeRequest_Err_not_noData in Hreq.
  - intros (body & resp & Hreq & Hdec & Hcode & Hdata).
    unfold bingx.GetBalance. rewrite Hreq. cbn. rewrite Hdec, Hdata.
    by case_decide.
  - intros body resp Hreq Hdec Hcode. split; [|apply apiError_not_noData].
    unfold bingx.GetBalance. rewrite Hreq. cbn. rewrite Hdec. by case_decide.
  - intros body err Hreq Hdec. unfold bingx.GetBalance. rewrite Hreq. cbn. by rewrite Hdec.
  - intros e Hreq. split.
    + unfold bingx.GetBalance. by rewrite Hreq.
    + by eapply makeRequest_Err_not_noData.
Qed.

Example scenarioA_runs :
  bingx.GetBalance demoClient (balanceEnv (balanceEnvelope [usdt "1050.00"]))
  = Ok {| broker.Balance.Asset := "USDT";
          broker.Balance.Total := 1050;
          broker.Balance.Available := 950;
          broker.Balance.InUse := 100;
          broker.Balance.UnrealizedPnL := 50;
          broker.Balance.RealizedPnL := 0;
          broker.Balance.Timestamp := clock 1 |}.
Proof. vm_compute. reflexivity. Qed.

Lemma GetBalance_no_data_exactly_witness :
  bingx.makeRequest demoClient (balanceEnv (balanceEnvelope [])) "GET" bingx.EndpointBalance ∅
  = Ok (balanceBody (balanceEnvelope []))
  /\ bingx.GetBalance demoClient (balanceEnv (balanceEnvelope [])) = Err noDataError.
Proof.
  assert (H : bingx.makeRequest demoClient (balanceEnv (balanceEnvelope [])) "GET"
                bingx.EndpointBalance ∅
              = Ok (balanceBody (balanceEnvelope []))) by reflexivity.
  split; [exact H|].
  apply (proj1 (GetBalance_no_data_exactly demoClient (balanceEnv (balanceEnvelope [])))).
  exists (balanceBody (balanceEnvelope [])), (balanceEnvelope []).
  split; [exact H|]. repeat split.
Defined.

(** Scenario D: an envelope with code 100400 gives the API error of that
    code, and an HTTP 500 with a body that is no JSON gives HTTP_ERROR. *)
Example scenarioD_runs :
  bingx.GetBalance demoClient
    (balanceEnv {| bingx.BalanceResponse.Code := 100400;
                   bingx.BalanceResponse.Data := [];
                   bingx.BalanceResponse.Msg := "Invalid parameters" |})
  = Err (BrokerError "bingx" "API_100400" "Invalid parameters" None)
  /\ bingx.GetBalance demoClient
       {| Now := clock;
          Do := fun _ =>
            http.Response 500
              {| http.bytes := "upstream timed out";
                 http.decoded := Err (errorString "invalid character 'u' looking for beginning of value") |} |}
     = Err (BrokerError "bingx" "HTTP_ERROR" "HTTP 500: upstream timed out" None).
Proof. split; vm_compute; reflexivity. Qed.

(** ** Orders *)

Example scenarioC_runs :
  (fun os => map (fun o => (broker.Order.ID o, broker.Order.Status o, broker.Order.ReduceOnly o)) os)
    <$> match bingx.GetOrders demoClient (ordersEnv scenarioC) None with
        | Ok os => Some os
        | Err _ => None
        end
  = Some [("1", "PENDING", true); ("2", "NEW", true); ("3", "PARTIALLY_FILLED", true)].
Proof. vm_compute. reflexivity. Qed.

(** C10: with the [Side] field of the filter set to [st], the orders
    [GetOrders] lists are those whose raw status is [st], each normalised, in
    the order of the response: an order is kept exactly when [st] equals its
    raw [status] string; neither its [side], nor its [positionSide], nor the
    status it is listed with (PENDING for a trigger order that is NEW), nor
    the [Status] field of the filter has a say. *)
Theorem order_filter_side_is_raw_status (c : bingx.Client)
    (env : Env bingx.OpenOrdersResponse.t) (symbol : string) (st : broker.OrderStatus)
    (status : option broker.OrderStatus) (body : http.Body bingx.OpenOrdersResponse.t)
    (resp : bingx.OpenOrdersResponse.t) :
  let orders := bingx.OpenOrdersData.Orders (bingx.OpenOrdersResponse.Data resp) in
  let kept := List.filter (fun o => bool_decide (bingx.OpenOrderData.Status o = st)) orders in
  bingx.makeRequest c env "GET" bingx.EndpointOpenOrders (bingx.symbolParams (Some symbol))
  = Ok body ->
  http.decoded body = Ok resp ->
  bingx.OpenOrdersResponse.Code resp = bingx.APISuccessCode ->
  bingx.GetOrders c env (statusFilter symbol (Some st) status) = Ok (map bingx.toOrder kept)
  /\ (forall o, o ∈ kept <-> o ∈ orders /\ st = bingx.OpenOrderData.Status o)
  /\ (forall o, o ∈ kept ->
        broker.Order.Status (bingx.toOrder o)
        = bingx.mapBingXStatus st (bingx.OpenOrderData.Type_ o)).
Proof.
  intros orders kept Hreq Hdec Hcode. split; [|split].
  - erewrite GetOrders_success; [|exact Hreq|exact Hdec|exact Hcode].
    do 2 f_equal. unfold kept, orders. apply filter_ext. intros o.
    unfold bingx.orderFiltered. cbn.
    repeat case_bool_decide; subst; try reflexivity; congruence.
  - intros o. unfold kept. rewrite !list_elem_of_In, filter_In, bool_decide_eq_true.
    split; intros [? ?]; split; auto.
  - intros o Ho. unfold kept in Ho.
    apply list_elem_of_In, filter_In in Ho as [_ Ho]. apply bool_decide_eq_true in Ho.
    cbn. by rewrite Ho.
Qed.

Lemma order_filter_side_is_raw_status_witness :
  bingx.GetOrders demoClient (ordersEnv scenarioC) (statusFilter "BTC-USDT" (Some "NEW") None)
  = Ok (map bingx.toOrder [sellOnLong 1 "STOP_MARKET" "NEW"; sellOnLong 2 "LIMIT" "NEW"])
  /\ map (fun o => broker.Order.Status (bingx.toOrder o))
         [sellOnLong 1 "STOP_MARKET" "NEW"; sellOnLong 2 "LIMIT" "NEW"]
     = ["PENDING"; "NEW"].
Proof.
  split; [|reflexivity].
  exact (proj1 (order_filter_side_is_raw_status demoClient (ordersEnv scenarioC)
                  "BTC-USDT" "NEW" None (ordersBody scenarioC) scenarioC
                  eq_refl eq_refl eq_refl)).
Defined.

(** ** Numeric fields that do not decode *)

Lemma ParseFloat_syntax_zero (s : string) :
  snd (strconv.ParseFloat s) = Some strconv.ErrSyntax -> fst (ParseFloat s) = 0%float.
Proof.
  unfold ParseFloat, strconv.ParseFloat.
  destruct (strconv.special s) as [[f n]|].
  - destruct (n =? strlen s); cbn; [discriminate|reflexivity].
  - destruct (strconv.readFloat s) as [x|]; [|reflexivity].
    destruct (strconv.rest x); [|reflexivity].
    destruct (strconv.numeral_value x); cbn; intros H; discriminate H.
Qed.

Lemma GetBalance_success (c : bingx.Client) (env : Env bingx.BalanceResponse.t)
    (body : http.Body bingx.BalanceResponse.t) (resp : bingx.BalanceResponse.t)
    (data : bingx.BalanceData.t) (rest : list bingx.BalanceData.t) :
  bingx.makeRequest c env "GET" bingx.EndpointBalance ∅ = Ok body ->
  http.decoded body = Ok resp ->
  bingx.BalanceResponse.Code resp = bingx.APISuccessCode ->
  bingx.BalanceResponse.Data resp = data :: rest ->
  bingx.GetBalance c env
  = Ok {| broker.Balance.Asset := bingx.BalanceData.Asset data;
          broker.Balance.Total := fst (ParseFloat (bingx.BalanceData.Equity data));
          broker.Balance.Available := fst (ParseFloat (bingx.BalanceData.AvailableMargin data));
          broker.Balance.InUse := fst (ParseFloat (bingx.BalanceData.UsedMargin data));
          broker.Balance.UnrealizedPnL :=
            fst (ParseFloat (bingx.BalanceData.UnrealizedProfit data));
          broker.Balance.RealizedPnL := fst (ParseFloat (bingx.BalanceData.RealisedProfit data));
          broker.Balance.Timestamp := Now env 1 |}.
Proof.
  intros Hreq Hdec Hcode Hdata. unfold bingx.GetBalance. rewrite Hreq. cbn.
  rewrite Hdec, Hdata. by case_decide.
Qed.

Lemma PlaceOrder_success
    (makeRequestWithPayload :
       bingx.Client -> Env bingx.OrderResponse.t -> string -> string -> gmap string string ->
       result (http.Body bingx.OrderResponse.t))
    (c : bingx.Client) (env : Env bingx.OrderResponse.t) (order : broker.OrderRequest.t)
    (body : http.Body bingx.OrderResponse.t) (resp : bingx.OrderResponse.t) :
  (if bool_decide (broker.OrderRequest.StopLoss order <> None)
      || bool_decide (broker.OrderRequest.TakeProfit order <> None)
   then makeRequestWithPayload c env "POST" bingx.EndpointPlaceOrder (bingx.orderParams order)
   else bingx.makeRequest c env "POST" bingx.EndpointPlaceOrder (bingx.orderParams order))
  = Ok body ->
  http.decoded body = Ok resp ->
  bingx.OrderResponse.Code resp = bingx.APISuccessCode ->
  bingx.PlaceOrder makeRequestWithPayload c env order
  = Ok (bingx.toPlacedOrder (bingx.OrderResponse.Data resp) (Now env 1) (Now env 2)).
Proof.
  intros Hreq Hdec Hcode. unfold bingx.PlaceOrder. rewrite Hreq. cbn. rewrite Hdec.
  by case_decide.
Qed.

(** C2, as stated, fails: a balance whose [equity] is no numeral
    (["1,050.00"], which [ParseFloat] rejects) does not make [GetBalance]
    fail, it comes back with [Total] 0; and a position whose leverage is no
    numeral (["10x"]) comes back with [Leverage] 0. *)
Lemma malformed_numbers_counterexample :
  (snd (strconv.ParseFloat "1,050.00") = Some strconv.ErrSyntax
   /\ bingx.GetBalance demoClient (balanceEnv (balanceEnvelope [usdt "1,050.00"]))
      = Ok {| broker.Balance.Asset := "USDT";
              broker.Balance.Total := 0;
              broker.Balance.Available := 950;
              broker.Balance.InUse := 100;
              broker.Balance.UnrealizedPnL := 50;
              broker.Balance.RealizedPnL := 0;
              broker.Balance.Timestamp := clock 1 |})
  /\ (snd (bingx.GetLeverageFloat (withLeverage (Some (json.JString "10x")) btcLong))
      = Some (NumError "ParseFloat" "10x" strconv.ErrSyntax)
      /\ (fun ps => map (fun p => (broker.Position.Symbol p, broker.Position.Leverage p)) ps)
           <$> match bingx.GetPositions demoClient
                       (positionsEnv
                          {| bingx.PositionsResponse.Code := 0;
                             bingx.PositionsResponse.Data :=
                               [withLeverage (Some (json.JString "10x")) btcLong];
                             bingx.PositionsResponse.Msg := "" |}) None with
               | Ok ps => Some ps
               | Err _ => None
               end
         = Some [("BTC-USDT", 0)]).
Proof. repeat split; vm_compute; reflexivity. Qed.

(** C2, amended: a numeric field that does not decode never makes
    [GetBalance], [GetPositions], [GetOrders] or [PlaceOrder] fail. On an
    envelope that decodes with code 0 each of them succeeds ([GetBalance]
    when the data list is not empty); a field read with [ParseFloat] takes
    the value [ParseFloat] returned next to the dropped error, which is 0 for
    a malformed numeral; leverage and liquidation price become 0 when their
    decoder fails; and a position whose amount decodes to 0 is skipped. Only
    [GetCurrentPrice] reports the parse failure of its price. *)
Theorem numeric_decode_failures_are_dropped :
  (forall s, snd (strconv.ParseFloat s) = Some strconv.ErrSyntax ->
             fst (ParseFloat s) = 0%float)
  /\ (forall pos now,
         snd (bingx.GetLeverageFloat pos) <> None ->
         broker.Position.Leverage (bingx.toPosition pos now) = 0)
  /\ (forall pos now,
         snd (bingx.GetLiquidationPriceFloat pos) <> None ->
         broker.Position.LiquidationPrice (bingx.toPosition pos now) = 0%float)
  /\ (forall pos now,
         broker.Position.Size (bingx.toPosition pos now)
         = fst (ParseFloat (bingx.PositionData.PositionAmt pos))
         /\ broker.Position.EntryPrice (bingx.toPosition pos now)
            = fst (ParseFloat (bingx.PositionData.AvgPrice pos))
         /\ broker.Position.MarkPrice (bingx.toPosition pos now)
            = fst (ParseFloat (bingx.PositionData.MarkPrice pos)))
  /\ (forall o,
         broker.Order.Size (bingx.toOrder o) = fst (ParseFloat (bingx.OpenOrderData.Quantity o))
         /\ broker.Order.Price (bingx.toOrder o) = fst (ParseFloat (bingx.OpenOrderData.Price o))
         /\ broker.Order.StopPrice (bingx.toOrder o)
            = fst (ParseFloat (bingx.OpenOrderData.StopPrice o)))
  /\ (forall data created updated,
         broker.Order.Size (bingx.toPlacedOrder data created updated)
         = fst (ParseFloat (bingx.OrderData.Quantity data))
         /\ broker.Order.Price (bingx.toPlacedOrder data created updated)
            = fst (ParseFloat (bingx.OrderData.Price data)))
  /\ (forall c env body resp data rest,
         bingx.makeRequest c env "GET" bingx.EndpointBalance ∅ = Ok body ->
         http.decoded body = Ok resp ->
         bingx.BalanceResponse.Code resp = bingx.APISuccessCode ->
         bingx.BalanceResponse.Data resp = data :: rest ->
         bingx.GetBalance c env
         = Ok {| broker.Balance.Asset := bingx.BalanceData.Asset data;
                 broker.Balance.Total := fst (ParseFloat (bingx.BalanceData.Equity data));
                 broker.Balance.Available :=
                   fst (ParseFloat (bingx.BalanceData.AvailableMargin data));
                 broker.Balance.InUse := fst (ParseFloat (bingx.BalanceData.UsedMargin data));
                 broker.Balance.UnrealizedPnL :=
                   fst (ParseFloat (bingx.BalanceData.UnrealizedProfit data));
                 broker.Balance.RealizedPnL :=
                   fst (ParseFloat (bingx.BalanceData.RealisedProfit data));
                 broker.Balance.Timestamp := Now env 1 |})
  /\ (forall c env filter body resp,
         bingx.makeRequest c env "GET" bingx.EndpointPositions
           (bingx.symbolParams (broker.PositionFilter.Symbol <$> filter)) = Ok body ->
         http.decoded body = Ok resp ->
         bingx.PositionsResponse.Code resp = bingx.APISuccessCode ->
         bingx.GetPositions c env filter
         = Ok (stampedPositions env
                 (List.filter (keepsPosition filter) (bingx.PositionsResponse.Data resp)) 1))
  /\ (forall c env filter body resp,
         bingx.makeRequest c env "GET" bingx.EndpointOpenOrders
           (bingx.symbolParams (broker.OrderFilter.Symbol <$> filter)) = Ok body ->
         http.decoded body = Ok resp ->
         bingx.OpenOrdersResponse.Code resp = bingx.APISuccessCode ->
         bingx.GetOrders c env filter
         = Ok (map bingx.toOrder
                 (List.filter (fun o => negb (bingx.orderFiltered filter o))
                    (bingx.OpenOrdersData.Orders (bingx.OpenOrdersResponse.Data resp)))))
  /\ (forall makeRequestWithPayload c env order body resp,
         (if bool_decide (broker.OrderRequest.StopLoss order <> None)
             || bool_decide (broker.OrderRequest.TakeProfit order <> None)
          then makeRequestWithPayload c env "POST" bingx.EndpointPlaceOrder
                 (bingx.orderParams order)
          else bingx.makeRequest c env "POST" bingx.EndpointPlaceOrder
                 (bingx.orderParams order))
         = Ok body ->
         http.decoded body = Ok resp ->
         bingx.OrderResponse.Code resp = bingx.APISuccessCode ->
         bingx.PlaceOrder makeRequestWithPayload c env order
         = Ok (bingx.toPlacedOrder (bingx.OrderResponse.Data resp) (Now env 1) (Now env 2)))
  /\ (forall c env symbol body resp,
         bingx.makeRequest c env "GET" bingx.EndpointPrice (<["symbol" := symbol]> ∅)
         = Ok body ->
         http.decoded body = Ok resp ->
         bingx.PriceResponse.Code resp = bingx.APISuccessCode ->
         snd (ParseFloat (bingx.PriceData.Price (bingx.PriceResponse.Data resp))) <> None ->
         exists err,
           bingx.GetCurrentPrice c env symbol
           = Err (broker.NewBrokerError "bingx" "PARSE_ERROR" "Failed to parse price value"
                    (Some err))).
Proof.
  split; [exact ParseFloat_syntax_zero|]. split.
  { intros pos now H. unfold bingx.toPosition. cbn.
    destruct (bingx.GetLeverageFloat pos) as [f [e|]]; [reflexivity|by destruct H]. }
  split.
  { intros pos now H. unfold bingx.toPosition. cbn.
    destruct (bingx.GetLiquidationPriceFloat pos) as [f [e|]]; [reflexivity|by destruct H]. }
  split; [by intros|]. split; [by intros|]. split; [by intros|].
  split; [exact GetBalance_success|]. split; [exact GetPositions_success|].
  split; [exact GetOrders_success|]. split; [exact PlaceOrder_success|].
  intros c env symbol body resp Hreq Hdec Hcode Hfail.
  unfold bingx.GetCurrentPrice. rewrite Hreq. cbn. rewrite Hdec. case_decide; [done|].
  destruct (ParseFloat _) as [price [err|]]; [by exists err|by destruct Hfail].
Qed.

Lemma numeric_decode_failures_are_dropped_witness :
  fst (ParseFloat "1,050.00") = 0%float
  /\ bingx.GetBalance demoClient (balanceEnv (balanceEnvelope [usdt "1,050.00"]))
     = Ok {| broker.Balance.Asset := "USDT";
             broker.Balance.Total := fst (ParseFloat "1,050.00");
             broker.Balance.Available := fst (ParseFloat "950.00");
             broker.Balance.InUse := fst (ParseFloat "100.00");
             broker.Balance.UnrealizedPnL := fst (ParseFloat "50.00");
             broker.Balance.RealizedPnL := fst (ParseFloat "");
             broker.Balance.Timestamp := clock 1 |}
  /\ bingx.PlaceOrder bingx.makeRequest demoClient (answering clock (ackBody (ack "n/a")))
       limitBuy
     = Ok (bingx.toPlacedOrder (bingx.OrderResponse.Data (ack "n/a")) (clock 1) (clock 2)).
Proof.
  destruct numeric_decode_failures_are_dropped
    as (Hzero & _ & _ & _ & _ & _ & Hbalance & _ & _ & Hplace & _).
  split; [apply Hzero; vm_compute; reflexivity|]. split.
  - apply (Hbalance demoClient (balanceEnv (balanceEnvelope [usdt "1,050.00"]))
             (balanceBody (balanceEnvelope [usdt "1,050.00"]))
             (balanceEnvelope [usdt "1,050.00"]) (usdt "1,050.00") []); reflexivity.
  - apply (Hplace bingx.makeRequest demoClient (answering clock (ackBody (ack "n/a")))
             limitBuy (ackBody (ack "n/a")) (ack "n/a")); reflexivity.
Defined.

(** ** Signing *)

Lemma unescape_QueryEscape (s : string) : unescape (url.QueryEscape s) = s.
Proof.
  induction s as [|c s IH]; [reflexivity|].
  destruct c as [[] [] [] [] [] [] [] []]; cbn [url.QueryEscape]; simpl;
    rewrite IH; reflexivity.
Qed.

Lemma QueryEscape_inj (s t : string) : url.QueryEscape s = url.QueryEscape t -> s = t.
Proof.
  intros H. rewrite <- (unescape_QueryEscape s), <- (unescape_QueryEscape t). by rewrite H.
Qed.

Lemma FormatInt_inj (a b : Z) : strconv.FormatInt a = strconv.FormatInt b -> a = b.
Proof.
  unfold strconv.FormatInt. intros H.
  assert (Hnn : forall z, Z.to_int z <> Decimal.Pos Decimal.Nil
                          /\ Z.to_int z <> Decimal.Neg Decimal.Nil).
  { intros [|p|p]; cbn; split; try discriminate; intros [= Hp];
      by apply DecimalPos.Unsigned.to_uint_nonnil in Hp. }
  apply (f_equal NilZero.int_of_string) in H.
  rewrite !NilZero.isi in H by apply Hnn.
  injection H as H. apply (f_equal Z.of_int) in H. by rewrite !DecimalZ.of_to in H.
Qed.

(** Strings as lists of bytes. *)
Lemma string_app_cons (x : ascii) (a b : string) : String x a +:+ b = String x (a +:+ b).
Proof. reflexivity. Qed.

Lemma string_app_assoc (a b c : string) : (a +:+ b) +:+ c = a +:+ (b +:+ c).
Proof. induction a as [|x a IH]; [done|]. by rewrite !string_app_cons, IH. Qed.

Lemma string_app_length (a b : string) :
  String.length (a +:+ b) = (String.length a + String.length b)%nat.
Proof. induction a as [|x a IH]; [done|]. rewrite string_app_cons. cbn. by rewrite IH. Qed.

Lemma string_app_inv_tail (a b t : string) : a +:+ t = b +:+ t -> a = b.
Proof.
  revert b. induction a as [|x a IH]; intros [|y b] H.
  - done.
  - apply (f_equal String.length) in H. rewrite !string_app_length in H. cbn in H. lia.
  - apply (f_equal String.length) in H. rewrite !string_app_length in H. cbn in H. lia.
  - rewrite !string_app_cons in H. injection H as -> H. f_equal. by apply IH.
Qed.

Lemma foldl_agree {A B : Type} (f g : A -> B -> A) (l : list B) (a : A) :
  (forall a b, b ∈ l -> f a b = g a b) -> foldl f a l = foldl g a l.
Proof.
  revert a. induction l as [|b l IH]; intros a H; cbn; [done|].
  rewrite H by apply list_elem_of_here. apply IH. intros a' b' Hb'. apply H.
  by apply list_elem_of_further.
Qed.

(** The loop over the parameters builds the map of one-element lists,
    whatever the order of the iteration. *)
Lemma rangeSet_reverse (entries : list (string * string)) :
  bingx.rangeSet entries
  = (fun v => [v]) <$> (list_to_map (reverse entries) : gmap string string).
Proof.
  induction entries as [|[k v] entries IH] using rev_ind.
  { symmetry. apply (fmap_empty (M := gmap string)). }
  unfold bingx.rangeSet in *. rewrite foldl_snoc, IH, reverse_snoc. cbn.
  unfold url.Set_. by rewrite fmap_insert.
Qed.

Lemma rangeSet_any_order (params : gmap string string) (entries : list (string * string)) :
  entries ≡ₚ map_to_list params ->
  bingx.rangeSet entries = (fun v => [v]) <$> params.
Proof.
  intros Hp. rewrite rangeSet_reverse. f_equal.
  rewrite <- (list_to_map_to_list params). apply list_to_map_proper.
  - rewrite reverse_Permutation, Hp. apply NoDup_fst_map_to_list.
  - by rewrite reverse_Permutation.
Qed.

(** Sorting forgets the order of its input. *)
Lemma merge_sort_any_order (l1 l2 : list string) :
  l1 ≡ₚ l2 -> merge_sort String.le l1 = merge_sort String.le l2.
Proof.
  intros Hp. apply (Sorted_unique String.le).
  - apply Sorted_merge_sort, _.
  - apply Sorted_merge_sort, _.
  - by rewrite !merge_sort_Permutation.
Qed.

Lemma Encode_any_order (params : gmap string string) (entries : list (string * string))
    (keys : list string) :
  entries ≡ₚ map_to_list params ->
  keys ≡ₚ (map_to_list (bingx.rangeSet entries)).*1 ->
  url.Encode_from keys (bingx.rangeSet entries)
  = url.Encode (bingx.rangeSet (map_to_list params)).
Proof.
  intros He Hk. rewrite (rangeSet_any_order params entries He) in *.
  rewrite (rangeSet_any_order params (map_to_list params)) by done.
  unfold url.Encode, url.Encode_from. by rewrite (merge_sort_any_order _ _ Hk).
Qed.

Lemma keys_of_map (params : gmap string string) (k : string) :
  k ∈ (map_to_list params).*1 <-> is_Some (params !! k).
Proof.
  rewrite list_elem_of_fmap. split.
  - intros ([k' v] & -> & Hin). apply elem_of_map_to_list in Hin. by exists v.
  - intros [v Hv]. exists (k, v). split; [done|]. by apply elem_of_map_to_list.
Qed.

Lemma Encode_written (params : gmap string string) :
  url.Encode (bingx.rangeSet (map_to_list params)) = written params (sortedKeys params) "".
Proof.
  rewrite (rangeSet_any_order params (map_to_list params)) by done.
  unfold url.Encode, url.Encode_from.
  assert (Hk : merge_sort String.le (map_to_list ((fun v => [v]) <$> params)).*1
               = sortedKeys params).
  { apply merge_sort_any_order. rewrite map_to_list_fmap.
    induction (map_to_list params) as [|[k v] l IHl]; [done|]. cbn. by rewrite IHl. }
  rewrite Hk. case_decide as Hs.
  - apply map_size_empty_inv, fmap_empty_inv in Hs. subst params.
    unfold sortedKeys. by rewrite map_to_list_empty.
  - unfold written. apply foldl_agree. intros buf k _. rewrite lookup_fmap.
    by destruct (params !! k).
Qed.

Lemma writePair_nonempty (keyEscaped buf value : string) :
  0 < strlen (url.writePair keyEscaped buf value).
Proof.
  unfold url.writePair, strlen. rewrite !string_app_length. cbn. lia.
Qed.

Lemma string_app_nil_r (s : string) : s +:+ "" = s.
Proof. induction s as [|x s IH]; [done|]. by rewrite string_app_cons, IH. Qed.

Lemma written_cons (params : gmap string string) (k : string) (ks : list string)
    (buf : string) :
  written params (k :: ks) buf
  = written params ks match params !! k with
                      | Some v => url.writePair (url.QueryEscape k) buf v
                      | None => buf
                      end.
Proof. reflexivity. Qed.

Lemma written_nonempty (params : gmap string string) (ks : list string) (buf : string) :
  0 < strlen buf -> written params ks buf = buf +:+ suffix params ks.
Proof.
  revert buf. induction ks as [|k ks IH]; intros buf Hb.
  - cbn. by rewrite string_app_nil_r.
  - rewrite written_cons. cbn [suffix foldr]. fold (suffix params ks).
    destruct (params !! k) as [v|]; [|by apply IH].
    rewrite IH by apply writePair_nonempty.
    unfold url.writePair. apply Z.ltb_lt in Hb. rewrite Hb.
    by rewrite !string_app_assoc.
Qed.

Lemma written_agree (p1 p2 : gmap string string) (ks : list string) (buf : string) :
  (forall k, k ∈ ks -> p1 !! k = p2 !! k) -> written p1 ks buf = written p2 ks buf.
Proof.
  intros H. unfold written. apply foldl_agree. intros a k Hk. by rewrite (H k Hk).
Qed.

Lemma written_app (params : gmap string string) (l1 l2 : list string) (buf : string) :
  written params (l1 ++ l2) buf = written params l2 (written params l1 buf).
Proof. unfold written. by rewrite foldl_app. Qed.

(** Two parameter maps that differ in the value of one key, and agree on the
    other keys of [ks], are written differently. *)
Lemma written_differs (p1 p2 : gmap string string) (ks : list string) (k v1 v2 : string) :
  NoDup ks -> k ∈ ks ->
  p1 !! k = Some v1 -> p2 !! k = Some v2 -> v1 <> v2 ->
  (forall k', k' <> k -> p1 !! k' = p2 !! k') ->
  written p1 ks "" <> written p2 ks "".
Proof.
  intros Hnd Hin H1 H2 Hne Hagree Heq.
  apply list_elem_of_split in Hin as (l1 & l2 & ->).
  apply NoDup_app in Hnd as (_ & Hl1 & Hl2). apply NoDup_cons in Hl2 as [Hl2 _].
  rewrite !written_app, !written_cons, H1, H2 in Heq.
  rewrite (written_agree p1 p2 l1) in Heq.
  2:{ intros k' Hk'. apply Hagree. intros ->. eapply Hl1; [exact Hk'|]. apply list_elem_of_here. }
  set (b := written p2 l1 "") in Heq.
  rewrite (written_agree p1 p2 l2) in Heq.
  2:{ intros k' Hk'. apply Hagree. by intros ->. }
  rewrite !written_nonempty in Heq by apply writePair_nonempty.
  apply string_app_inv_tail in Heq. unfold url.writePair in Heq.
  do 3 apply (inj (String.append _)) in Heq.
  by apply QueryEscape_inj in Heq.
Qed.

Lemma hex_digits_lower (c : ascii) :
  is_lower_hex (hex.digit (Z.shiftr (code c) 4)) = true
  /\ is_lower_hex (hex.digit (Z.land (code c) 15)) = true.
Proof. destruct c as [[] [] [] [] [] [] [] []]; split; reflexivity. Qed.

Lemma EncodeToString_lower (src : string) :
  String.length (hex.EncodeToString src) = (2 * String.length src)%nat
  /\ forallb is_lower_hex (list_ascii_of_string (hex.EncodeToString src)) = true.
Proof.
  induction src as [|c src [IHl IHf]]; [done|].
  destruct (hex_digits_lower c) as [Hh Hl]. cbn [hex.EncodeToString String.length
    list_ascii_of_string forallb]. rewrite IHl, Hh, Hl, IHf. split; [lia|done].
Qed.

Lemma string_of_bytes_length (l : list Z) : String.length (string_of_bytes l) = length l.
Proof.
  unfold string_of_bytes. induction l as [|b l IH]; [done|]. cbn. by rewrite IH.
Qed.

Lemma Sum256_length (msg : string) : String.length (sha256.Sum256 msg) = 32%nat.
Proof. unfold sha256.Sum256. by rewrite string_of_bytes_length. Qed.

(** The signature is 64 lower-case hexadecimal digits. *)
Lemma sign_lower_hex (c : bingx.Client) (params : string) :
  String.length (bingx.sign c params) = 64%nat
  /\ forallb is_lower_hex (list_ascii_of_string (bingx.sign c params)) = true.
Proof.
  unfold bingx.sign, hmac.SHA256. cbv zeta.
  match goal with
  | |- context [hex.EncodeToString ?digest] =>
      destruct (EncodeToString_lower digest) as [Hl Hf]
  end.
  rewrite Sum256_length in Hl. split; assumption.
Qed.

Lemma sortedKeys_spec (params : gmap string string) (k : string) :
  k ∈ sortedKeys params <-> is_Some (params !! k).
Proof. unfold sortedKeys. by rewrite merge_sort_Permutation, keys_of_map. Qed.

Lemma sortedKeys_NoDup (params : gmap string string) : NoDup (sortedKeys params).
Proof. unfold sortedKeys. rewrite merge_sort_Permutation. apply NoDup_fst_map_to_list. Qed.

Lemma sortedKeys_insert (params : gmap string string) (k v v' : string) :
  params !! k = Some v -> sortedKeys (<[k := v']> params) = sortedKeys params.
Proof.
  intros Hk. apply merge_sort_any_order. apply NoDup_Permutation.
  - apply NoDup_fst_map_to_list.
  - apply NoDup_fst_map_to_list.
  - intros k'. rewrite !keys_of_map, lookup_insert. case_decide; [subst|done].
    rewrite Hk. split; eauto.
Qed.

(** Changing the value of one parameter changes the encoded string. *)
Lemma Encode_value_change (params : gmap string string) (k v v' : string) :
  params !! k = Some v -> v' <> v ->
  url.Encode (bingx.rangeSet (map_to_list (<[k := v']> params)))
  <> url.Encode (bingx.rangeSet (map_to_list params)).
Proof.
  intros Hk Hne. rewrite !Encode_written, (sortedKeys_insert params k v v' Hk).
  apply (written_differs _ _ _ k v' v).
  - apply sortedKeys_NoDup.
  - apply sortedKeys_spec. eauto.
  - apply lookup_insert_eq.
  - done.
  - done.
  - intros k' Hk'. by apply lookup_insert_ne.
Qed.

(** C5: signing is deterministic. (1) Whatever the order in which the
    parameter map and the value map yield their entries, the string that is
    signed is the same, and so is the signature. (2) Changing the value of a
    parameter of the signed set, the timestamp included, changes the signed
    string: for a parameter of the caller, and for the clock's reading in
    milliseconds. (3) The URL is the signed string followed by
    [&signature=] and the signature: the signature is computed from the
    string and appended to it, and is no part of what is signed. (4) The
    signature is 64 lower-case hexadecimal digits, the HMAC-SHA256 of the
    signed string under the secret key. *)
Theorem signing_is_deterministic (c : bingx.Client) :
  (forall (params : gmap string string) (now : time.Time) entries keys,
      entries ≡ₚ map_to_list (bingx.stamped params now) ->
      keys ≡ₚ (map_to_list (bingx.rangeSet entries)).*1 ->
      url.Encode_from keys (bingx.rangeSet entries) = bingx.queryString params now
      /\ bingx.sign c (url.Encode_from keys (bingx.rangeSet entries))
         = bingx.sign c (bingx.queryString params now))
  /\ (forall (p1 p2 : gmap string string) (now : time.Time),
         (forall k, p1 !! k = p2 !! k) ->
         bingx.queryString p1 now = bingx.queryString p2 now
         /\ bingx.sign c (bingx.queryString p1 now) = bingx.sign c (bingx.queryString p2 now))
  /\ (forall (params : gmap string string) (now : time.Time) k v v',
         bingx.stamped params now !! k = Some v -> v' <> v ->
         url.Encode (bingx.rangeSet (map_to_list (<[k := v']> (bingx.stamped params now))))
         <> bingx.queryString params now)
  /\ (forall (params : gmap string string) (now : time.Time) k v v',
         k <> "timestamp" -> params !! k = Some v -> v' <> v ->
         bingx.queryString (<[k := v']> params) now <> bingx.queryString params now)
  /\ (forall (params : gmap string string) (now now' : time.Time),
         time.UnixMilli now' <> time.UnixMilli now ->
         bingx.queryString params now' <> bingx.queryString params now)
  /\ (forall method endpoint (params : gmap string string) (now : time.Time),
         http.URL (bingx.newRequest c method endpoint params now)
         = bingx.baseURL c +:+ endpoint +:+ "?" +:+ bingx.queryString params now
           +:+ "&signature=" +:+ bingx.sign c (bingx.queryString params now))
  /\ (forall signed,
         String.length (bingx.sign c signed) = 64%nat
         /\ forallb is_lower_hex (list_ascii_of_string (bingx.sign c signed)) = true).
Proof.
  split; [|split; [|split; [|split; [|split; [|split; [|exact (sign_lower_hex c)]]]]]].
  - intros params now entries keys He Hk.
    assert (Heq : url.Encode_from keys (bingx.rangeSet entries) = bingx.queryString params now)
      by (by apply Encode_any_order).
    by rewrite Heq.
  - intros p1 p2 now Hsame. by rewrite (map_eq p1 p2 Hsame).
  - intros params now k v v' Hk Hne. by apply (Encode_value_change _ k v v').
  - intros params now k v v' Hts Hk Hne. unfold bingx.queryString, bingx.stamped.
    rewrite insert_insert_ne by done.
    apply (Encode_value_change _ k v v'); [|done]. by rewrite lookup_insert_ne.
  - intros params now now' Hne. unfold bingx.queryString, bingx.stamped.
    rewrite <- (insert_insert_eq params "timestamp"
                  (strconv.FormatInt (time.UnixMilli now'))
                  (strconv.FormatInt (time.UnixMilli now))).
    apply (Encode_value_change _ "timestamp" (strconv.FormatInt (time.UnixMilli now))).
    + apply lookup_insert_eq.
    + intros H. by apply FormatInt_inj in H.
  - reflexivity.
Qed.

Lemma signing_is_deterministic_witness :
  url.Encode_from ["timestamp"; "symbol"; "side"]
    (bingx.rangeSet [("timestamp", "1700000000000"); ("side", "BUY"); ("symbol", "BTC-USDT")])
  = "side=BUY&symbol=BTC-USDT&timestamp=1700000000000"
  /\ bingx.sign demoClient
       (url.Encode_from ["timestamp"; "symbol"; "side"]
          (bingx.rangeSet
             [("timestamp", "1700000000000"); ("side", "BUY"); ("symbol", "BTC-USDT")]))
     = "5fdc41a2c0d54899bb38af7b9b7babca5971508f9ea635bc5b93e1c30ff91b8f".
Proof.
  assert (Hq : bingx.queryString buyParams (clock 0)
               = "side=BUY&symbol=BTC-USDT&timestamp=1700000000000")
    by (vm_compute; reflexivity).
  assert (Hs : bingx.sign demoClient (bingx.queryString buyParams (clock 0))
               = "5fdc41a2c0d54899bb38af7b9b7babca5971508f9ea635bc5b93e1c30ff91b8f")
    by (vm_compute; reflexivity).
  rewrite <- Hq, <- Hs.
  apply (proj1 (signing_is_deterministic demoClient) buyParams (clock 0)).
  - apply (bool_decide_unpack _). vm_compute. reflexivity.
  - apply (bool_decide_unpack _). vm_compute. reflexivity.
Defined.

Lemma trigger_order_new_is_pending_witness :
  bingx.GetOrders demoClient (ordersEnv scenarioC) None
  = Ok (map bingx.toOrder
          [sellOnLong 1 "STOP_MARKET" "NEW"; sellOnLong 2 "LIMIT" "NEW";
           sellOnLong 3 "LIMIT" "PARTIALLY_FILLED"])
  /\ map (fun o => (broker.Order.ID o, broker.Order.Type_ o, broker.Order.Status o))
         (map bingx.toOrder
            [sellOnLong 1 "STOP_MARKET" "NEW"; sellOnLong 2 "LIMIT" "NEW";
             sellOnLong 3 "LIMIT" "PARTIALLY_FILLED"])
     = [("1", "STOP_MARKET", "PENDING"); ("2", "LIMIT", "NEW");
        ("3", "LIMIT", "PARTIALLY_FILLED")].
Proof.
  split; [|vm_compute; reflexivity].
  exact (proj2 (proj2 (proj2 (proj2 trigger_order_new_is_pending)))
           demoClient (ordersEnv scenarioC) (ordersBody scenarioC) scenarioC
           eq_refl eq_refl eq_refl).
Defined.

(** * The rest of the client

    The operations and helpers the properties above leave aside: the error
    type of [broker], the outcomes of [makeRequest], the requests each
    operation sends, [CancelOrder], [CancelAllOrders], [SetLeverage],
    [GetCurrentPrice], the filters, and the parameters of [PlaceOrder]. *)

(** ** Errors *)

Lemma Err_eqb_eq (x y : strconv.Err) : Err_eqb x y = true <-> x = y.
Proof. destruct x, y; cbn; split; intros H; congruence. Qed.

Lemma error_eqb_eq (x y : error) : error_eqb x y = true <-> x = y.
Proof.
  revert x y. fix IH 1. intros x y.
  destruct x as [s|m e|f n k|b c m o], y as [t|m' e'|f' n' k'|b' c' m' o'];
    cbn [error_eqb]; try (split; intros H; discriminate H).
  - rewrite bool_decide_eq_true. split; intros H; congruence.
  - rewrite andb_true_iff, bool_decide_eq_true, (IH e e'). split; [intros [-> ->]; reflexivity|].
    intros H. injection H as -> ->. auto.
  - rewrite !andb_true_iff, !bool_decide_eq_true, Err_eqb_eq.
    split; [intros [[-> ->] ->]; reflexivity|]. intros H. injection H as -> -> ->. auto.
  - rewrite !andb_true_iff, !bool_decide_eq_true.
    destruct o as [e|], o' as [e'|].
    + rewrite (IH e e'). split; [intros [[[-> ->] ->] ->]; reflexivity|].
      intros H. injection H as -> -> -> ->. auto.
    + split; [intros [_ H]; discriminate H|intros H; discriminate H].
    + split; [intros [_ H]; discriminate H|intros H; discriminate H].
    + split; [intros [[[-> ->] ->] _]; reflexivity|]. intros H. injection H as -> -> ->. auto.
Qed.

Lemma error_eqb_refl (x : error) : error_eqb x x = true.
Proof. by apply error_eqb_eq. Qed.

Lemma Is_refl (e : error) : errors.Is e e = true.
Proof. destruct e; cbn [errors.Is]; by rewrite error_eqb_refl. Qed.

(** A [BrokerError] matches itself and what its cause matches. *)
Lemma Is_BrokerError (b c m : string) (cause : option error) (target : error) :
  errors.Is (BrokerError b c m cause) target
  = error_eqb (BrokerError b c m cause) target
    || match cause with Some e => errors.Is e target | None => false end.
Proof. destruct cause; reflexivity. Qed.

(** X1: [Unwrap] of a [BrokerError] is the error it was built with, nil
    included; its [Error()] text is [<broker> error [<code>]: <message>],
    with nothing of the cause. [errors.Is] matches it with its cause and
    with whatever its cause matches; it matches no target that differs from
    it and that its cause does not match, and, built with no cause, no
    target that differs from it. *)
Theorem BrokerError_matches_its_cause (b c m : string) :
  (forall cause, errors.Unwrap (broker.NewBrokerError b c m cause) = cause)
  /\ (forall cause,
         Error (broker.NewBrokerError b c m cause) = b +:+ " error [" +:+ c +:+ "]: " +:+ m)
  /\ (forall e, errors.Is (broker.NewBrokerError b c m (Some e)) e = true)
  /\ (forall e target,
         errors.Is e target = true ->
         errors.Is (broker.NewBrokerError b c m (Some e)) target = true)
  /\ (forall e target,
         target <> broker.NewBrokerError b c m (Some e) ->
         errors.Is e target = false ->
         errors.Is (broker.NewBrokerError b c m (Some e)) target = false)
  /\ (forall target,
         target <> broker.NewBrokerError b c m None ->
         errors.Is (broker.NewBrokerError b c m None) target = false).
Proof.
  unfold broker.NewBrokerError. split; [reflexivity|]. split; [reflexivity|]. split.
  { intros e. rewrite Is_BrokerError, Is_refl. apply orb_true_r. }
  split.
  { intros e target Ht. rewrite Is_BrokerError, Ht. apply orb_true_r. }
  split.
  - intros e target Hne Ht. rewrite Is_BrokerError, Ht, orb_false_r.
    apply not_true_is_false. intros Heq. apply error_eqb_eq in Heq. by apply Hne.
  - intros target Hne. rewrite Is_BrokerError, orb_false_r.
    apply not_true_is_false. intros Heq. apply error_eqb_eq in Heq. by apply Hne.
Qed.

(** ** The outcomes of [makeRequest] *)

Lemma makeRequest_Response {A : Type} (c : bingx.Client) (env : Env A)
    (method endpoint : string) (params : gmap string string) (status : Z) (body : http.Body A) :
  Do env (bingx.newRequest c method endpoint params (Now env 0)) = http.Response status body ->
  bingx.makeRequest c env method endpoint params
  = if decide (status ≠ http.StatusOK) then Err (httpError status (http.bytes body))
    else Ok body.
Proof. intros H. unfold bingx.makeRequest. by rewrite H. Qed.

Lemma makeRequest_Ok_iff {A : Type} (c : bingx.Client) (env : Env A)
    (method endpoint : string) (params : gmap string string) (body : http.Body A) :
  bingx.makeRequest c env method endpoint params = Ok body
  <-> Do env (bingx.newRequest c method endpoint params (Now env 0))
      = http.Response http.StatusOK body.
Proof.
  unfold bingx.makeRequest. destruct (Do env _) as [| | |status body'].
  - split; intros H; discriminate H.
  - split; intros H; discriminate H.
  - split; intros H; discriminate H.
  - case_decide as Hst.
    + split; intros H; [discriminate H|]. injection H as Hs _. contradiction.
    + subst status. split; intros H; injection H as ->; reflexivity.
Qed.

(** X2: when the HTTP exchange fails, [makeRequest] reports REQUEST_FAILED,
    when the body cannot be read READ_FAILED, each with a fixed message that
    holds nothing of the cause; when the request cannot be built it wraps
    the cause behind [failed to create request: ]. In the three cases
    [Unwrap] returns the cause, and [errors.Is] matches whatever the cause
    matches. *)
Theorem transport_failures_keep_their_cause {A : Type} (c : bingx.Client) (env : Env A)
    (method endpoint : string) (params : gmap string string) (err : error) :
  let request := bingx.newRequest c method endpoint params (Now env 0) in
  let result := bingx.makeRequest c env method endpoint params in
  (Do env request = http.DoFails err ->
   exists e, result = Err e
             /\ Error e = "bingx error [REQUEST_FAILED]: HTTP request failed"
             /\ errors.Unwrap e = Some err
             /\ forall target, errors.Is err target = true -> errors.Is e target = true)
  /\ (Do env request = http.ReadFails err ->
      exists e, result = Err e
                /\ Error e = "bingx error [READ_FAILED]: Failed to read response"
                /\ errors.Unwrap e = Some err
                /\ forall target, errors.Is err target = true -> errors.Is e target = true)
  /\ (Do env request = http.NewRequestFails err ->
      exists e, result = Err e
                /\ Error e = "failed to create request: " +:+ Error err
                /\ errors.Unwrap e = Some err
                /\ forall target, errors.Is err target = true -> errors.Is e target = true).
Proof.
  cbv zeta. unfold bingx.makeRequest. repeat split; intros H; rewrite H; eexists;
    (split; [reflexivity|]); (split; [reflexivity|]); (split; [reflexivity|]);
    intros target Ht; cbn [errors.Is broker.NewBrokerError]; rewrite Ht; apply orb_true_r.
Qed.

(** X3: the HTTP status is checked before the body is looked at. On a
    status other than 200 every operation fails with HTTP_ERROR, whose
    message is [HTTP <status>: <body>] and which has no cause, whatever the
    body holds ([PlaceOrder]: for an order with no leg attached). *)
Theorem status_is_checked_before_the_body (c : bingx.Client) (status : Z) :
  status <> http.StatusOK ->
  (forall env body,
      Do env (bingx.newRequest c "GET" bingx.EndpointBalance ∅ (Now env 0))
      = http.Response status body ->
      bingx.GetBalance c env = Err (httpError status (http.bytes body)))
  /\ (forall env filter body,
         Do env (bingx.newRequest c "GET" bingx.EndpointPositions
                   (bingx.symbolParams (broker.PositionFilter.Symbol <$> filter)) (Now env 0))
         = http.Response status body ->
         bingx.GetPositions c env filter = Err (httpError status (http.bytes body)))
  /\ (forall env symbol body,
         Do env (bingx.newRequest c "GET" bingx.EndpointPositions
                   (bingx.symbolParams (Some symbol)) (Now env 0))
         = http.Response status body ->
         bingx.GetPosition c env symbol = Err (httpError status (http.bytes body)))
  /\ (forall env filter body,
         Do env (bingx.newRequest c "GET" bingx.EndpointOpenOrders
                   (bingx.symbolParams (broker.OrderFilter.Symbol <$> filter)) (Now env 0))
         = http.Response status body ->
         bingx.GetOrders c env filter = Err (httpError status (http.bytes body)))
  /\ (forall makeRequestWithPayload env order body,
         broker.OrderRequest.StopLoss order = None ->
         broker.OrderRequest.TakeProfit order = None ->
         Do env (bingx.newRequest c "POST" bingx.EndpointPlaceOrder
                   (bingx.orderParams order) (Now env 0))
         = http.Response status body ->
         bingx.PlaceOrder makeRequestWithPayload c env order
         = Err (httpError status (http.bytes body)))
  /\ (forall env symbol orderID body,
         Do env (bingx.newRequest c "DELETE" bingx.EndpointPlaceOrder
                   (<["symbol" := symbol]> (<["orderId" := orderID]> ∅)) (Now env 0))
         = http.Response status body ->
         bingx.CancelOrder c env symbol orderID = Some (httpError status (http.bytes body)))
  /\ (forall env symbol body,
         Do env (bingx.newRequest c "DELETE" bingx.EndpointCancelAll
                   (bingx.symbolParams (Some symbol)) (Now env 0))
         = http.Response status body ->
         bingx.CancelAllOrders c env symbol = Some (httpError status (http.bytes body)))
  /\ (forall env symbol body,
         Do env (bingx.newRequest c "GET" bingx.EndpointPrice (<["symbol" := symbol]> ∅)
                   (Now env 0))
         = http.Response status body ->
         bingx.GetCurrentPrice c env symbol = Err (httpError status (http.bytes body)))
  /\ (forall env symbol side leverage body,
         Do env (bingx.newRequest c "POST" bingx.EndpointLeverage
                   (<["symbol" := symbol]>
                      (<["side" := side]> (<["leverage" := strconv.Itoa leverage]> ∅)))
                   (Now env 0))
         = http.Response status body ->
         bingx.SetLeverage c env symbol side leverage
         = Some (httpError status (http.bytes body))).
Proof.
  intros Hst.
  assert (Hreq : forall A (env : Env A) method endpoint params body,
             Do env (bingx.newRequest c method endpoint params (Now env 0))
             = http.Response status body ->
             bingx.makeRequest c env method endpoint params
             = Err (httpError status (http.bytes body))).
  { intros A env method endpoint params body H.
    rewrite (makeRequest_Response _ _ _ _ _ _ _ H). by case_decide. }
  repeat split.
  - intros env body H. unfold bingx.GetBalance. by rewrite (Hreq _ _ _ _ _ _ H).
  - intros env filter body H. unfold bingx.GetPositions. by rewrite (Hreq _ _ _ _ _ _ H).
  - intros env symbol body H. unfold bingx.GetPosition, bingx.GetPositions.
    change (bingx.symbolParams (broker.PositionFilter.Symbol <$> Some _))
      with (bingx.symbolParams (Some symbol)).
    by rewrite (Hreq _ _ _ _ _ _ H).
  - intros env filter body H. unfold bingx.GetOrders. by rewrite (Hreq _ _ _ _ _ _ H).
  - intros mrwp env order body Hsl Htp H. unfold bingx.PlaceOrder. rewrite Hsl, Htp. cbn.
    by rewrite (Hreq _ _ _ _ _ _ H).
  - intros env symbol orderID body H. unfold bingx.CancelOrder.
    by rewrite (Hreq _ _ _ _ _ _ H).
  - intros env symbol body H. unfold bingx.CancelAllOrders.
    unfold bingx.symbolParams in H. by rewrite (Hreq _ _ _ _ _ _ H).
  - intros env symbol body H. unfold bingx.GetCurrentPrice. by rewrite (Hreq _ _ _ _ _ _ H).
  - intros env symbol side leverage body H. unfold bingx.SetLeverage.
    by rewrite (Hreq _ _ _ _ _ _ H).
Qed.

Lemma status_is_checked_before_the_body_witness :
  bingx.GetBalance demoClient (always clock (http.Response 502 gatewayBody))
  = Err (httpError 502 maintenance).
Proof.
  apply (proj1 (status_is_checked_before_the_body demoClient 502
                  ltac:(unfold http.StatusOK; lia))
           (always clock (http.Response 502 gatewayBody)) gatewayBody).
  reflexivity.
Defined.

Lemma causeless_matchesNoSentinel (b c m : string) :
  matchesNoSentinel (BrokerError b c m None).
Proof. repeat constructor. Qed.

Lemma parse_failure_matchesNoSentinel (b c m f n : string) (k : strconv.Err) :
  matchesNoSentinel (BrokerError b c m (Some (NumError f n k))).
Proof. destruct k; repeat constructor. Qed.

Lemma makeRequest_answered {A : Type} (c : bingx.Client) (env : Env A)
    (method endpoint : string) (params : gmap string string) :
  answered (Do env (bingx.newRequest c method endpoint params (Now env 0))) ->
  match bingx.makeRequest c env method endpoint params with
  | Ok body => exists resp, http.decoded body = Ok resp
  | Err e => matchesNoSentinel e
  end.
Proof.
  unfold bingx.makeRequest, answered.
  destruct (Do env _) as [| | |status body]; try done.
  intros H. case_decide.
  - apply causeless_matchesNoSentinel.
  - destruct (http.decoded body); [eauto|done].
Qed.

(** X4: once the exchange has answered and the body has decoded, no
    operation returns an error that [errors.Is] matches with one of the ten
    sentinel errors of [broker], but for [GetPosition], whose
    [ErrPositionNotFound] is the only sentinel the client returns: a refusal
    of the exchange is an [API_<code>] error with no cause. *)
Theorem exchange_errors_match_no_sentinel (c : bingx.Client) :
  (forall env e,
      answered (Do env (bingx.newRequest c "GET" bingx.EndpointBalance ∅ (Now env 0))) ->
      bingx.GetBalance c env = Err e -> matchesNoSentinel e)
  /\ (forall env filter e,
         answered (Do env (bingx.newRequest c "GET" bingx.EndpointPositions
                             (bingx.symbolParams (broker.PositionFilter.Symbol <$> filter))
                             (Now env 0))) ->
         bingx.GetPositions c env filter = Err e -> matchesNoSentinel e)
  /\ (forall env symbol e,
         answered (Do env (bingx.newRequest c "GET" bingx.EndpointPositions
                             (bingx.symbolParams (Some symbol)) (Now env 0))) ->
         bingx.GetPosition c env symbol = Err e ->
         e = broker.ErrPositionNotFound \/ matchesNoSentinel e)
  /\ (forall env filter e,
         answered (Do env (bingx.newRequest c "GET" bingx.EndpointOpenOrders
                             (bingx.symbolParams (broker.OrderFilter.Symbol <$> filter))
                             (Now env 0))) ->
         bingx.GetOrders c env filter = Err e -> matchesNoSentinel e)
  /\ (forall makeRequestWithPayload env order e,
         broker.OrderRequest.StopLoss order = None ->
         broker.OrderRequest.TakeProfit order = None ->
         answered (Do env (bingx.newRequest c "POST" bingx.EndpointPlaceOrder
                             (bingx.orderParams order) (Now env 0))) ->
         bingx.PlaceOrder makeRequestWithPayload c env order = Err e -> matchesNoSentinel e)
  /\ (forall env symbol orderID e,
         answered (Do env (bingx.newRequest c "DELETE" bingx.EndpointPlaceOrder
                             (<["symbol" := symbol]> (<["orderId" := orderID]> ∅))
                             (Now env 0))) ->
         bingx.CancelOrder c env symbol orderID = Some e -> matchesNoSentinel e)
  /\ (forall env symbol e,
         answered (Do env (bingx.newRequest c "DELETE" bingx.EndpointCancelAll
                             (bingx.symbolParams (Some symbol)) (Now env 0))) ->
         bingx.CancelAllOrders c env symbol = Some e -> matchesNoSentinel e)
  /\ (forall env symbol e,
         answered (Do env (bingx.newRequest c "GET" bingx.EndpointPrice
                             (<["symbol" := symbol]> ∅) (Now env 0))) ->
         bingx.GetCurrentPrice c env symbol = Err e -> matchesNoSentinel e)
  /\ (forall env symbol side leverage e,
         answered (Do env (bingx.newRequest c "POST" bingx.EndpointLeverage
                             (<["symbol" := symbol]>
                                (<["side" := side]>
                                   (<["leverage" := strconv.Itoa leverage]> ∅)))
                             (Now env 0))) ->
         bingx.SetLeverage c env symbol side leverage = Some e -> matchesNoSentinel e).
Proof.
  assert (Hpos : forall env filter e,
             answered (Do env (bingx.newRequest c "GET" bingx.EndpointPositions
                                 (bingx.symbolParams (broker.PositionFilter.Symbol <$> filter))
                                 (Now env 0))) ->
             bingx.GetPositions c env filter = Err e -> matchesNoSentinel e).
  { intros env filter e Ha. apply makeRequest_answered in Ha. unfold bingx.GetPositions.
    destruct (bingx.makeRequest _ _ _ _ _) as [body|e']; cbn.
    - destruct Ha as [resp ->]. case_decide; intros [= <-].
      apply causeless_matchesNoSentinel.
    - by intros [= <-]. }
  split; [|split; [exact Hpos|split; [|split; [|split; [|split; [|split; [|split]]]]]]].
  - intros env e Ha. apply makeRequest_answered in Ha. unfold bingx.GetBalance.
    destruct (bingx.makeRequest _ _ _ _ _) as [body|e']; cbn.
    + destruct Ha as [resp ->]. case_decide; [|destruct (bingx.BalanceResponse.Data resp)];
        intros [= <-]; apply causeless_matchesNoSentinel.
    + by intros [= <-].
  - intros env symbol e Ha. unfold bingx.GetPosition.
    destruct (bingx.GetPositions _ _ _) as [[|p ps]|e'] eqn:Hl; cbn; intros [= <-].
    + by left.
    + right. eapply Hpos; [|exact Hl]. exact Ha.
  - intros env filter e Ha. apply makeRequest_answered in Ha. unfold bingx.GetOrders.
    destruct (bingx.makeRequest _ _ _ _ _) as [body|e']; cbn.
    + destruct Ha as [resp ->]. case_decide; intros [= <-].
      apply causeless_matchesNoSentinel.
    + by intros [= <-].
  - intros mrwp env order e Hsl Htp Ha. apply makeRequest_answered in Ha.
    unfold bingx.PlaceOrder. rewrite Hsl, Htp. cbn.
    destruct (bingx.makeRequest _ _ _ _ _) as [body|e']; cbn.
    + destruct Ha as [resp ->]. case_decide; intros [= <-].
      apply causeless_matchesNoSentinel.
    + by intros [= <-].
  - intros env symbol orderID e Ha. apply makeRequest_answered in Ha.
    unfold bingx.CancelOrder.
    destruct (bingx.makeRequest _ _ _ _ _) as [body|e']; cbn.
    + destruct Ha as [resp ->]. case_decide; intros [= <-].
      apply causeless_matchesNoSentinel.
    + by intros [= <-].
  - intros env symbol e Ha. apply makeRequest_answered in Ha.
    unfold bingx.CancelAllOrders. unfold bingx.symbolParams in Ha.
    destruct (bingx.makeRequest _ _ _ _ _) as [body|e']; cbn.
    + destruct Ha as [resp ->]. case_decide; intros [= <-].
      apply causeless_matchesNoSentinel.
    + by intros [= <-].
  - intros env symbol e Ha. apply makeRequest_answered in Ha.
    unfold bingx.GetCurrentPrice.
    destruct (bingx.makeRequest _ _ _ _ _) as [body|e']; cbn.
    + destruct Ha as [resp ->]. case_decide; [intros [= <-]; apply causeless_matchesNoSentinel|].
      unfold ParseFloat. destruct (strconv.ParseFloat _) as [f [k|]]; cbn; intros [= <-].
      apply parse_failure_matchesNoSentinel.
    + by intros [= <-].
  - intros env symbol side leverage e Ha. apply makeRequest_answered in Ha.
    unfold bingx.SetLeverage.
    destruct (bingx.makeRequest _ _ _ _ _) as [body|e']; cbn.
    + destruct Ha as [resp ->]. case_decide; intros [= <-].
      apply causeless_matchesNoSentinel.
    + by intros [= <-].
Qed.

Lemma exchange_errors_match_no_sentinel_witness :
  bingx.GetCurrentPrice demoClient (answering clock (priceBody unknownSymbol)) "INVALID-SYMBOL"
  = Err (bingx.apiError 109400 "symbol not exist")
  /\ errors.Is (bingx.apiError 109400 "symbol not exist") broker.ErrInvalidSymbol = false
  /\ errors.Is (bingx.apiError 109400 "symbol not exist") broker.ErrAPIError = false.
Proof.
  assert (H : bingx.GetCurrentPrice demoClient (answering clock (priceBody unknownSymbol))
                "INVALID-SYMBOL"
              = Err (bingx.apiError 109400 "symbol not exist")) by reflexivity.
  split; [exact H|].
  pose proof (proj1 (proj2 (proj2 (proj2 (proj2 (proj2 (proj2 (proj2
                (exchange_errors_match_no_sentinel demoClient))))))))
                (answering clock (priceBody unknownSymbol)) "INVALID-SYMBOL" _ I H) as Hn.
  unfold matchesNoSentinel, sentinels in Hn. rewrite !Forall_cons in Hn. tauto.
Defined.

(** ** The requests *)

(** X5: the [timestamp] parameter is the clock's first reading in
    milliseconds; a [timestamp] the caller put among the parameters is
    overwritten, and changes neither the request nor the outcome. *)
Theorem caller_timestamp_is_overwritten {A : Type} (c : bingx.Client) (env : Env A)
    (method endpoint : string) (params : gmap string string) (v : string) :
  bingx.stamped params (Now env 0) !! "timestamp" = Some (millis (Now env 0))
  /\ bingx.newRequest c method endpoint (<["timestamp" := v]> params) (Now env 0)
     = bingx.newRequest c method endpoint params (Now env 0)
  /\ bingx.makeRequest c env method endpoint (<["timestamp" := v]> params)
     = bingx.makeRequest c env method endpoint params.
Proof.
  assert (Hs : bingx.stamped (<["timestamp" := v]> params) (Now env 0)
               = bingx.stamped params (Now env 0)).
  { unfold bingx.stamped. apply insert_insert_eq. }
  assert (Hr : bingx.newRequest c method endpoint (<["timestamp" := v]> params) (Now env 0)
               = bingx.newRequest c method endpoint params (Now env 0)).
  { unfold bingx.newRequest, bingx.queryString. rewrite Hs. reflexivity. }
  split; [apply lookup_insert_eq|]. split; [exact Hr|].
  unfold bingx.makeRequest. rewrite Hr. reflexivity.
Qed.

(** The sorted keys of a map are the sorted list of its keys. *)
Lemma sortedKeys_eq (params : gmap string string) (l : list string) :
  Sorted String.le l -> NoDup l -> (forall k, k ∈ l <-> is_Some (params !! k)) ->
  sortedKeys params = l.
Proof.
  intros Hs Hnd Hl. apply (Sorted_unique String.le).
  - apply Sorted_merge_sort, _.
  - exact Hs.
  - unfold sortedKeys. rewrite merge_sort_Permutation. apply NoDup_Permutation.
    + apply NoDup_fst_map_to_list.
    + exact Hnd.
    + intros k. by rewrite keys_of_map, Hl.
Qed.

Lemma QueryEscape_uint (d : Decimal.uint) :
  url.QueryEscape (NilEmpty.string_of_uint d) = NilEmpty.string_of_uint d.
Proof. induction d; cbn; [reflexivity|by rewrite IHd ..]. Qed.

(** A decimal numeral is not changed by [url.QueryEscape]. *)
Lemma QueryEscape_FormatInt (n : Z) :
  url.QueryEscape (strconv.FormatInt n) = strconv.FormatInt n.
Proof.
  unfold strconv.FormatInt, NilZero.string_of_int, NilZero.string_of_uint.
  destruct (Z.to_int n) as [d|d]; destruct d; cbn; try reflexivity;
    by rewrite QueryEscape_uint.
Qed.

Ltac keys_of_params :=
  let k := fresh "k" in
  intros k; unfold bingx.stamped; rewrite ?lookup_insert_is_Some', lookup_empty;
  rewrite ?elem_of_cons, elem_of_nil;
  split; [intros H; repeat destruct H as [<-|H]; [auto 6 ..|destruct H]
         |intros H; repeat destruct H as [H|H]; [auto 6 ..|by destruct H]].

Ltac sorted_keys l :=
  rewrite (sortedKeys_eq _ l);
  [|apply (bool_decide_unpack _); vm_compute; reflexivity
   |apply (bool_decide_unpack _); vm_compute; reflexivity
   |keys_of_params].

Lemma written_first (params : gmap string string) (k v : string) (ks : list string) :
  params !! k = Some v ->
  written params (k :: ks) "" = url.QueryEscape k +:+ "=" +:+ url.QueryEscape v +:+ suffix params ks.
Proof.
  intros Hk. rewrite written_cons, Hk, written_nonempty by apply writePair_nonempty.
  unfold url.writePair. cbn [strlen String.length Z.of_nat Z.ltb Z.compare].
  by rewrite !string_app_assoc.
Qed.

Lemma suffix_cons (params : gmap string string) (k v : string) (ks : list string) :
  params !! k = Some v ->
  suffix params (k :: ks) = "&" +:+ url.QueryEscape k +:+ "=" +:+ url.QueryEscape v +:+ suffix params ks.
Proof. intros Hk. cbn [suffix foldr]. by rewrite Hk. Qed.

Ltac finish_query :=
  cbn [suffix foldr];
  repeat match goal with
         | |- context [strconv.FormatInt ?n] => generalize (strconv.FormatInt n); intro
         | |- context [url.QueryEscape ?s] => is_var s; generalize (url.QueryEscape s); intro
         end;
  rewrite string_app_nil_r; vm_compute; reflexivity.

Lemma symbolParams_empty : bingx.symbolParams (Some "") = ∅.
Proof. reflexivity. Qed.

Lemma symbolParams_Some (symbol : string) :
  symbol <> "" -> bingx.symbolParams (Some symbol) = <["symbol" := symbol]> ∅.
Proof. intros H. unfold bingx.symbolParams. by case_decide. Qed.

Lemma queryString_empty (now : time.Time) :
  bingx.queryString ∅ now = "timestamp=" +:+ millis now.
Proof.
  unfold bingx.queryString. rewrite Encode_written. sorted_keys ["timestamp"].
  rewrite (written_first _ _ (millis now)) by apply lookup_insert_eq.
  unfold millis. rewrite QueryEscape_FormatInt. finish_query.
Qed.

Lemma queryString_symbol (now : time.Time) (symbol : string) :
  bingx.queryString (<["symbol" := symbol]> ∅) now
  = "symbol=" +:+ url.QueryEscape symbol +:+ "&timestamp=" +:+ millis now.
Proof.
  unfold bingx.queryString. rewrite Encode_written.
  sorted_keys ["symbol"; "timestamp"].
  rewrite (written_first _ _ symbol)
    by (unfold bingx.stamped; rewrite lookup_insert_ne by done; apply lookup_insert_eq).
  rewrite (suffix_cons _ _ (millis now)) by apply lookup_insert_eq.
  unfold millis. rewrite QueryEscape_FormatInt. finish_query.
Qed.

Lemma queryString_cancel (now : time.Time) (symbol orderID : string) :
  bingx.queryString (<["symbol" := symbol]> (<["orderId" := orderID]> ∅)) now
  = "orderId=" +:+ url.QueryEscape orderID +:+ "&symbol=" +:+ url.QueryEscape symbol
    +:+ "&timestamp=" +:+ millis now.
Proof.
  unfold bingx.queryString. rewrite Encode_written.
  sorted_keys ["orderId"; "symbol"; "timestamp"].
  rewrite (written_first _ _ orderID)
    by (unfold bingx.stamped; rewrite !lookup_insert_ne by done; apply lookup_insert_eq).
  rewrite (suffix_cons _ _ symbol)
    by (unfold bingx.stamped; rewrite !lookup_insert_ne by done; apply lookup_insert_eq).
  rewrite (suffix_cons _ _ (millis now)) by apply lookup_insert_eq.
  unfold millis. rewrite QueryEscape_FormatInt. finish_query.
Qed.

Lemma queryString_leverage (now : time.Time) (symbol side : string) (leverage : Z) :
  bingx.queryString
    (<["symbol" := symbol]> (<["side" := side]> (<["leverage" := strconv.Itoa leverage]> ∅)))
    now
  = "leverage=" +:+ strconv.Itoa leverage +:+ "&side=" +:+ url.QueryEscape side
    +:+ "&symbol=" +:+ url.QueryEscape symbol +:+ "&timestamp=" +:+ millis now.
Proof.
  unfold bingx.queryString. rewrite Encode_written.
  sorted_keys ["leverage"; "side"; "symbol"; "timestamp"].
  rewrite (written_first _ _ (strconv.Itoa leverage))
    by (unfold bingx.stamped; rewrite !lookup_insert_ne by done; apply lookup_insert_eq).
  rewrite (suffix_cons _ _ side)
    by (unfold bingx.stamped; rewrite !lookup_insert_ne by done; apply lookup_insert_eq).
  rewrite (suffix_cons _ _ symbol)
    by (unfold bingx.stamped; rewrite !lookup_insert_ne by done; apply lookup_insert_eq).
  rewrite (suffix_cons _ _ (millis now)) by apply lookup_insert_eq.
  unfold millis, strconv.Itoa. rewrite !QueryEscape_FormatInt. finish_query.
Qed.

(** X6: the string each operation signs and sends. With no parameter
    ([GetBalance], and a listing or [CancelAllOrders] with no symbol or an
    empty one) it is [timestamp=<ms>]; with a symbol it is
    [symbol=<symbol>&timestamp=<ms>]; [CancelOrder] sends
    [orderId=..&symbol=..&timestamp=..] and [SetLeverage]
    [leverage=..&side=..&symbol=..&timestamp=..]: the keys in ascending
    order, the values escaped, the leverage as its decimal numeral whatever
    its value. *)
Theorem query_strings_of_the_requests (now : time.Time) :
  bingx.queryString ∅ now = "timestamp=" +:+ millis now
  /\ bingx.queryString (bingx.symbolParams None) now = "timestamp=" +:+ millis now
  /\ bingx.queryString (bingx.symbolParams (Some "")) now = "timestamp=" +:+ millis now
  /\ (forall symbol, symbol <> "" ->
        bingx.queryString (bingx.symbolParams (Some symbol)) now
        = "symbol=" +:+ url.QueryEscape symbol +:+ "&timestamp=" +:+ millis now)
  /\ (forall symbol,
        bingx.queryString (<["symbol" := symbol]> ∅) now
        = "symbol=" +:+ url.QueryEscape symbol +:+ "&timestamp=" +:+ millis now)
  /\ (forall symbol orderID,
        bingx.queryString (<["symbol" := symbol]> (<["orderId" := orderID]> ∅)) now
        = "orderId=" +:+ url.QueryEscape orderID +:+ "&symbol=" +:+ url.QueryEscape symbol
          +:+ "&timestamp=" +:+ millis now)
  /\ (forall symbol side leverage,
        bingx.queryString
          (<["symbol" := symbol]>
             (<["side" := side]> (<["leverage" := strconv.Itoa leverage]> ∅))) now
        = "leverage=" +:+ strconv.Itoa leverage +:+ "&side=" +:+ url.QueryEscape side
          +:+ "&symbol=" +:+ url.QueryEscape symbol +:+ "&timestamp=" +:+ millis now).
Proof.
  split; [exact (queryString_empty now)|]. split; [exact (queryString_empty now)|]. split.
  { rewrite symbolParams_empty. exact (queryString_empty now). }
  split.
  { intros symbol Hs. rewrite symbolParams_Some by exact Hs. exact (queryString_symbol now symbol). }
  split; [exact (queryString_symbol now)|].
  split; [exact (queryString_cancel now)|exact (queryString_leverage now)].
Qed.

Lemma QueryEscape_free (s : string) : free (url.QueryEscape s) = true.
Proof.
  induction s as [|c s IH]; [reflexivity|].
  destruct c as [[] [] [] [] [] [] [] []]; cbn [url.QueryEscape]; simpl;
    rewrite ?IH; reflexivity.
Qed.

Lemma free_split (a a' t t' : string) :
  free a = true -> free a' = true -> stops t = true -> stops t' = true ->
  a +:+ t = a' +:+ t' -> a = a' /\ t = t'.
Proof.
  revert a'. induction a as [|x a IH]; intros [|y a'] Ha Ha' Ht Ht' H.
  - by split.
  - exfalso. change ("" +:+ t) with t in H. rewrite string_app_cons in H. subst t.
    cbn in Ht, Ha'. rewrite Ht in Ha'. discriminate Ha'.
  - exfalso. change ("" +:+ t') with t' in H. rewrite string_app_cons in H. subst t'.
    cbn in Ht', Ha. rewrite Ht' in Ha. discriminate Ha.
  - rewrite !string_app_cons in H. injection H as -> H.
    cbn in Ha, Ha'. apply andb_prop in Ha as [_ Ha]. apply andb_prop in Ha' as [_ Ha'].
    destruct (IH a' Ha Ha' Ht Ht' H) as [-> ->]. by split.
Qed.

Lemma stops_suffix (params : gmap string string) (ks : list string) :
  stops (suffix params ks) = true.
Proof.
  induction ks as [|k ks IH]; [reflexivity|]. cbn [suffix foldr]. fold (suffix params ks).
  by destruct (params !! k).
Qed.

Lemma pair_split (k v k' v' t t' : string) :
  stops t = true -> stops t' = true ->
  url.QueryEscape k +:+ "=" +:+ url.QueryEscape v +:+ t
  = url.QueryEscape k' +:+ "=" +:+ url.QueryEscape v' +:+ t' ->
  k = k' /\ v = v' /\ t = t'.
Proof.
  intros Ht Ht' H.
  apply free_split in H as [Hk H]; [|apply QueryEscape_free ..|reflexivity|reflexivity].
  rewrite !string_app_cons in H. injection H as H. change ("" +:+ ?x) with x in H.
  apply free_split in H as [Hv H]; [|apply QueryEscape_free ..|done|done].
  split; [by apply QueryEscape_inj|]. split; [by apply QueryEscape_inj|done].
Qed.

Lemma suffix_inj (p1 p2 : gmap string string) (ks1 ks2 : list string) :
  Forall (fun k => is_Some (p1 !! k)) ks1 -> Forall (fun k => is_Some (p2 !! k)) ks2 ->
  suffix p1 ks1 = suffix p2 ks2 -> pairsOf p1 ks1 = pairsOf p2 ks2.
Proof.
  revert ks2. induction ks1 as [|k1 ks1 IH]; intros [|k2 ks2] H1 H2 H.
  - reflexivity.
  - apply Forall_cons in H2 as [[v2 Hv2] _]. rewrite (suffix_cons _ _ v2 _ Hv2) in H.
    discriminate H.
  - apply Forall_cons in H1 as [[v1 Hv1] _]. rewrite (suffix_cons _ _ v1 _ Hv1) in H.
    discriminate H.
  - apply Forall_cons in H1 as [[v1 Hv1] H1]. apply Forall_cons in H2 as [[v2 Hv2] H2].
    rewrite (suffix_cons _ _ v1 _ Hv1), (suffix_cons _ _ v2 _ Hv2) in H.
    rewrite !string_app_cons in H. injection H as H. change ("" +:+ ?x) with x in H.
    apply pair_split in H as (-> & -> & H); [|apply stops_suffix ..].
    unfold pairsOf. cbn [map]. rewrite Hv1, Hv2. f_equal. by apply IH.
Qed.

Lemma written_inj (p1 p2 : gmap string string) (ks1 ks2 : list string) :
  Forall (fun k => is_Some (p1 !! k)) ks1 -> Forall (fun k => is_Some (p2 !! k)) ks2 ->
  written p1 ks1 "" = written p2 ks2 "" -> pairsOf p1 ks1 = pairsOf p2 ks2.
Proof.
  intros H1 H2 H. destruct ks1 as [|k1 ks1], ks2 as [|k2 ks2].
  - reflexivity.
  - apply Forall_cons in H2 as [[v2 Hv2] _]. rewrite (written_first _ _ v2 _ Hv2) in H.
    apply (f_equal String.length) in H. rewrite !string_app_length in H. cbn in H. lia.
  - apply Forall_cons in H1 as [[v1 Hv1] _]. rewrite (written_first _ _ v1 _ Hv1) in H.
    apply (f_equal String.length) in H. rewrite !string_app_length in H. cbn in H. lia.
  - apply Forall_cons in H1 as [[v1 Hv1] H1]. apply Forall_cons in H2 as [[v2 Hv2] H2].
    rewrite (written_first _ _ v1 _ Hv1), (written_first _ _ v2 _ Hv2) in H.
    apply pair_split in H as (-> & -> & H); [|apply stops_suffix ..].
    unfold pairsOf. cbn [map]. rewrite Hv1, Hv2. f_equal. by apply suffix_inj.
Qed.

(** The encoding of the parameters can be read back. *)
Lemma Encode_inj (p1 p2 : gmap string string) :
  url.Encode (bingx.rangeSet (map_to_list p1)) = url.Encode (bingx.rangeSet (map_to_list p2)) ->
  p1 = p2.
Proof.
  rewrite !Encode_written. intros H. apply written_inj in H.
  2,3: apply Forall_forall; intros k Hk; by apply sortedKeys_spec.
  assert (Hks : sortedKeys p1 = sortedKeys p2).
  { apply (f_equal (map fst)) in H. unfold pairsOf in H. rewrite !map_map in H. cbn in H.
    by rewrite !map_id in H. }
  apply map_eq. intros k.
  destruct (decide (k ∈ sortedKeys p1)) as [Hin|Hin].
  - rewrite Hks in H. unfold pairsOf in H.
    assert (Hl : forall l, pairsOf p1 l = pairsOf p2 l -> k ∈ l -> p1 !! k = p2 !! k).
    { induction l as [|x l IHl]; intros Hp Hl; [by apply elem_of_nil in Hl|].
      unfold pairsOf in Hp. cbn in Hp. injection Hp as Hx Hp.
      apply elem_of_cons in Hl as [->|Hl]; [done|]. by apply IHl. }
    apply (Hl (sortedKeys p2)); [exact H|]. by rewrite <- Hks.
  - assert (Hin' : k ∉ sortedKeys p2) by (by rewrite <- Hks).
    rewrite sortedKeys_spec in Hin, Hin'.
    rewrite <- not_eq_None_Some in Hin, Hin'.
    apply dec_stable in Hin, Hin'. by rewrite Hin, Hin'.
Qed.

(** X7: the signed string determines what was signed. Two requests with
    the same query string have the same parameters, values included, and the
    same timestamp in milliseconds: no value, whatever bytes it holds, makes
    two different parameter sets read alike. *)
Theorem signed_string_determines_the_parameters (p1 p2 : gmap string string)
    (now1 now2 : time.Time) :
  bingx.queryString p1 now1 = bingx.queryString p2 now2 ->
  bingx.stamped p1 now1 = bingx.stamped p2 now2
  /\ time.UnixMilli now1 = time.UnixMilli now2
  /\ forall k, k <> "timestamp" -> p1 !! k = p2 !! k.
Proof.
  intros H. unfold bingx.queryString in H. apply Encode_inj in H.
  split; [exact H|]. split.
  - apply (f_equal (fun m => m !! "timestamp")) in H. unfold bingx.stamped in H.
    rewrite !lookup_insert_eq in H. injection H as H. by apply FormatInt_inj.
  - intros k Hk. apply (f_equal (fun m => m !! k)) in H. unfold bingx.stamped in H.
    by rewrite !lookup_insert_ne in H.
Qed.

Lemma signed_string_determines_the_parameters_witness :
  bingx.queryString buyParams (clock 0) = bingx.queryString buyParams' (clock 0 + 999)
  /\ forall k, k <> "timestamp" -> buyParams !! k = buyParams' !! k.
Proof.
  assert (H : bingx.queryString buyParams (clock 0)
              = bingx.queryString buyParams' (clock 0 + 999)) by (vm_compute; reflexivity).
  split; [exact H|].
  exact (proj2 (proj2 (signed_string_determines_the_parameters _ _ _ _ H))).
Defined.

Lemma prefix_app (p rest : string) : String.prefix p (p +:+ rest) = true.
Proof.
  induction p as [|a p IH]; [by destruct rest|].
  rewrite string_app_cons. cbn. destruct (ascii_dec a a); [exact IH|done].
Qed.

(** X8: a client made with [demoMode] sends every request to the demo host
    and none to the production host; a client made without it does the
    opposite. *)
Theorem demo_client_never_calls_production (apiKey secretKey method endpoint : string)
    (params : gmap string string) (now : time.Time) :
  let url demoMode :=
    http.URL (bingx.newRequest (bingx.NewClient apiKey secretKey demoMode)
                method endpoint params now) in
  (String.prefix bingx.BaseURLDemo (url true) = true
   /\ String.prefix bingx.BaseURLProd (url true) = false)
  /\ (String.prefix bingx.BaseURLProd (url false) = true
      /\ String.prefix bingx.BaseURLDemo (url false) = false).
Proof.
  cbv zeta. unfold bingx.newRequest, bingx.NewClient. cbn [http.URL bingx.baseURL].
  generalize (bingx.queryString params now). intros q.
  generalize (bingx.sign {| bingx.apiKey := apiKey; bingx.secretKey := secretKey;
                            bingx.baseURL := bingx.BaseURLDemo |} q).
  generalize (bingx.sign {| bingx.apiKey := apiKey; bingx.secretKey := secretKey;
                            bingx.baseURL := bingx.BaseURLProd |} q).
  intros s1 s2.
  split; (split; [apply prefix_app|vm_compute; reflexivity]).
Qed.

(** ** Operations that return only an error *)

(** The proof that an operation without a result succeeds exactly on an
    acknowledgement. *)
Ltac acknowledged :=
  cbv zeta; split; [|split];
  [ destruct (bingx.makeRequest _ _ _ _ _) as [body|e] eqn:Hreq;
    [ apply makeRequest_Ok_iff in Hreq; rewrite Hreq;
      destruct (http.decoded body) as [resp|err] eqn:Hdec;
      [ case_decide as Hc;
        [ split; [intros H; discriminate H|];
          intros (body' & resp' & [= <-] & Hd & Hc'); rewrite Hdec in Hd;
          injection Hd as <-; contradiction
        | split; [|reflexivity]; intros _; by exists body, resp ]
      | split; [intros H; discriminate H|];
        intros (body' & resp' & [= <-] & Hd & _); rewrite Hdec in Hd; discriminate Hd ]
    | split; [intros H; discriminate H|];
      intros (body & resp & Hdo & _); apply makeRequest_Ok_iff in Hdo;
      rewrite Hdo in Hreq; discriminate Hreq ]
  | intros body resp Hdo Hdec Hc; apply makeRequest_Ok_iff in Hdo; rewrite Hdo, Hdec;
    by case_decide
  | intros body err Hdo Hdec; apply makeRequest_Ok_iff in Hdo; by rewrite Hdo, Hdec ].

(** X9: [CancelOrder] sends a DELETE to the order endpoint and returns nil
    exactly when the exchange answers 200 with a body that decodes and has
    code 0; a code other than 0 gives the [API_<code>] error with the
    exchange's message, a body that does not decode PARSE_ERROR with the
    decoder's error as its cause. *)
Theorem CancelOrder_succeeds_iff (c : bingx.Client) (env : Env bingx.CancelResponse.t)
    (symbol orderID : string) :
  let request :=
    bingx.newRequest c "DELETE" bingx.EndpointPlaceOrder
      (<["symbol" := symbol]> (<["orderId" := orderID]> ∅)) (Now env 0) in
  (bingx.CancelOrder c env symbol orderID = None
   <-> exists body resp,
         Do env request = http.Response http.StatusOK body
         /\ http.decoded body = Ok resp
         /\ bingx.CancelResponse.Code resp = bingx.APISuccessCode)
  /\ (forall body resp,
         Do env request = http.Response http.StatusOK body ->
         http.decoded body = Ok resp ->
         bingx.CancelResponse.Code resp <> bingx.APISuccessCode ->
         bingx.CancelOrder c env symbol orderID
         = Some (bingx.apiError (bingx.CancelResponse.Code resp)
                   (bingx.CancelResponse.Msg resp)))
  /\ (forall body err,
         Do env request = http.Response http.StatusOK body ->
         http.decoded body = Err err ->
         bingx.CancelOrder c env symbol orderID
         = Some (broker.NewBrokerError "bingx" "PARSE_ERROR"
                   "Failed to parse cancel response" (Some err))).
Proof. unfold bingx.CancelOrder. acknowledged. Qed.

(** X10: [CancelAllOrders] does the same on the cancel-all endpoint; the
    symbol is sent only when it is not empty. *)
Theorem CancelAllOrders_succeeds_iff (c : bingx.Client) (env : Env bingx.CancelResponse.t)
    (symbol : string) :
  let request :=
    bingx.newRequest c "DELETE" bingx.EndpointCancelAll
      (bingx.symbolParams (Some symbol)) (Now env 0) in
  (bingx.CancelAllOrders c env symbol = None
   <-> exists body resp,
         Do env request = http.Response http.StatusOK body
         /\ http.decoded body = Ok resp
         /\ bingx.CancelResponse.Code resp = bingx.APISuccessCode)
  /\ (forall body resp,
         Do env request = http.Response http.StatusOK body ->
         http.decoded body = Ok resp ->
         bingx.CancelResponse.Code resp <> bingx.APISuccessCode ->
         bingx.CancelAllOrders c env symbol
         = Some (bingx.apiError (bingx.CancelResponse.Code resp)
                   (bingx.CancelResponse.Msg resp)))
  /\ (forall body err,
         Do env request = http.Response http.StatusOK body ->
         http.decoded body = Err err ->
         bingx.CancelAllOrders c env symbol
         = Some (broker.NewBrokerError "bingx" "PARSE_ERROR"
                   "Failed to parse cancel all response" (Some err))).
Proof.
  unfold bingx.CancelAllOrders.
  change (bingx.makeRequest c env "DELETE" bingx.EndpointCancelAll _)
    with (bingx.makeRequest c env "DELETE" bingx.EndpointCancelAll
            (bingx.symbolParams (Some symbol))).
  generalize (bingx.symbolParams (Some symbol)). intros params.
  acknowledged.
Qed.

(** X11: [SetLeverage] posts symbol, side and leverage as they are given,
    with no check of its own, and returns nil exactly when the exchange
    answers 200 with a body that decodes and has code 0; the data of the
    answer is not read. *)
Theorem SetLeverage_succeeds_iff (c : bingx.Client) (env : Env bingx.LeverageResponse.t)
    (symbol side : string) (leverage : Z) :
  let request :=
    bingx.newRequest c "POST" bingx.EndpointLeverage
      (<["symbol" := symbol]>
         (<["side" := side]> (<["leverage" := strconv.Itoa leverage]> ∅))) (Now env 0) in
  (bingx.SetLeverage c env symbol side leverage = None
   <-> exists body resp,
         Do env request = http.Response http.StatusOK body
         /\ http.decoded body = Ok resp
         /\ bingx.LeverageResponse.Code resp = bingx.APISuccessCode)
  /\ (forall body resp,
         Do env request = http.Response http.StatusOK body ->
         http.decoded body = Ok resp ->
         bingx.LeverageResponse.Code resp <> bingx.APISuccessCode ->
         bingx.SetLeverage c env symbol side leverage
         = Some (bingx.apiError (bingx.LeverageResponse.Code resp)
                   (bingx.LeverageResponse.Msg resp)))
  /\ (forall body err,
         Do env request = http.Response http.StatusOK body ->
         http.decoded body = Err err ->
         bingx.SetLeverage c env symbol side leverage
         = Some (broker.NewBrokerError "bingx" "PARSE_ERROR"
                   "Failed to parse leverage response" (Some err))).
Proof. unfold bingx.SetLeverage. acknowledged. Qed.

(** X12: [GetCurrentPrice] returns a price exactly when the exchange
    answers 200 with a body that decodes, has code 0 and a price string
    that [ParseFloat] accepts; the price is the float it reads. *)
Theorem GetCurrentPrice_succeeds_iff (c : bingx.Client) (env : Env bingx.PriceResponse.t)
    (symbol : string) (price : float) :
  bingx.GetCurrentPrice c env symbol = Ok price
  <-> exists body resp,
        Do env (bingx.newRequest c "GET" bingx.EndpointPrice (<["symbol" := symbol]> ∅)
                  (Now env 0))
        = http.Response http.StatusOK body
        /\ http.decoded body = Ok resp
        /\ bingx.PriceResponse.Code resp = bingx.APISuccessCode
        /\ ParseFloat (bingx.PriceData.Price (bingx.PriceResponse.Data resp)) = (price, None).
Proof.
  unfold bingx.GetCurrentPrice.
  destruct (bingx.makeRequest _ _ _ _ _) as [body|e] eqn:Hreq; cbn.
  - apply makeRequest_Ok_iff in Hreq. rewrite Hreq.
    destruct (http.decoded body) as [resp|err] eqn:Hdec.
    + case_decide as Hc.
      * split; [intros H; discriminate H|].
        intros (body' & resp' & [= <-] & Hd & Hc' & _). rewrite Hdec in Hd.
        injection Hd as <-. contradiction.
      * destruct (ParseFloat _) as [f [err|]] eqn:Hp.
        -- split; [intros H; discriminate H|].
           intros (body' & resp' & [= <-] & Hd & _ & Hp'). rewrite Hdec in Hd.
           injection Hd as <-. rewrite Hp in Hp'. discriminate Hp'.
        -- split.
           ++ intros [= <-]. by exists body, resp.
           ++ intros (body' & resp' & [= <-] & Hd & _ & Hp'). rewrite Hdec in Hd.
              injection Hd as <-. rewrite Hp in Hp'. by injection Hp' as ->.
    + split; [intros H; discriminate H|].
      intros (body' & resp' & [= <-] & Hd & _). rewrite Hdec in Hd. discriminate Hd.
  - split; [intros H; discriminate H|].
    intros (body & resp & Hdo & _). apply makeRequest_Ok_iff in Hdo.
    rewrite Hdo in Hreq. discriminate Hreq.
Qed.

(** ** Filters *)

Lemma keepsPosition_onSide (symbol : string) (side : broker.Side) (pos : bingx.PositionData.t) :
  keepsPosition (sideFilter symbol side) pos = onSide side pos.
Proof.
  unfold keepsPosition, onSide, sideFilter, bingx.sideFiltered. cbn. f_equal.
  destruct (decide (side = bingx.sideOf (bingx.PositionData.PositionSide pos))) as [->|Hn].
  - rewrite bool_decide_eq_false_2 by auto. by rewrite bool_decide_eq_true_2.
  - rewrite bool_decide_eq_true_2 by done. by rewrite bool_decide_eq_false_2 by auto.
Qed.

Lemma filter_ext_list {X : Type} (f g : X -> bool) (l : list X) :
  (forall x, f x = g x) -> List.filter f l = List.filter g l.
Proof. intros H. induction l as [|x l IH]; cbn; [done|]. by rewrite H, IH. Qed.

(** X13: under a side filter [GetPositions] returns the entries of the
    response with an amount that is not 0 and that side, in their order, and
    nothing else: every position returned has the side asked for, and a
    filter on a side that is neither LONG nor SHORT returns no position. *)
Theorem side_filter_selects (c : bingx.Client) (env : Env bingx.PositionsResponse.t)
    (symbol : string) (side : broker.Side) (ps : list broker.Position.t) :
  bingx.GetPositions c env (sideFilter symbol side) = Ok ps ->
  Forall (fun p => broker.Position.Side p = side) ps
  /\ (side <> broker.SideLong -> side <> broker.SideShort -> ps = [])
  /\ exists body resp,
       Do env (bingx.newRequest c "GET" bingx.EndpointPositions
                 (bingx.symbolParams (Some symbol)) (Now env 0))
       = http.Response http.StatusOK body
       /\ http.decoded body = Ok resp
       /\ ps = stampedPositions env
                 (List.filter (onSide side) (bingx.PositionsResponse.Data resp)) 1.
Proof.
  intros H. apply GetPositions_Ok_inv in H as (body & resp & Hreq & Hdec & Hcode & ->).
  rewrite (filter_ext_list _ _ _ (keepsPosition_onSide symbol side)).
  assert (Hall : Forall (fun pos => bingx.sideOf (bingx.PositionData.PositionSide pos) = side)
                   (List.filter (onSide side) (bingx.PositionsResponse.Data resp))).
  { apply Forall_forall. intros pos Hin. apply list_elem_of_In, filter_In in Hin as [_ Hk].
    unfold onSide in Hk. apply andb_prop in Hk as [_ Hk]. by apply bool_decide_eq_true in Hk. }
  split; [|split].
  - eapply stampedPositions_Forall; [|exact Hall]. intros pos now Hs. exact Hs.
  - intros Hl Hsh. destruct (List.filter _ _) as [|pos kept]; [reflexivity|].
    apply Forall_cons in Hall as [Hs _]. unfold bingx.sideOf in Hs.
    case_decide; congruence.
  - exists body, resp. split; [|split; [exact Hdec|reflexivity]].
    by apply makeRequest_Ok_iff in Hreq.
Qed.

Lemma side_filter_selects_witness :
  bingx.GetPositions demoClient (positionsEnv scenarioB) (sideFilter "" broker.SideShort)
  = Ok scenarioB_shorts
  /\ Forall (fun p => broker.Position.Side p = broker.SideShort) scenarioB_shorts.
Proof.
  assert (H : bingx.GetPositions demoClient (positionsEnv scenarioB)
                (sideFilter "" broker.SideShort)
              = Ok scenarioB_shorts) by (vm_compute; reflexivity).
  split; [exact H|].
  exact (proj1 (side_filter_selects demoClient (positionsEnv scenarioB) ""
                  broker.SideShort scenarioB_shorts H)).
Defined.

(** X14: the symbol of a filter is sent to the exchange and never compared
    with what comes back, and the [Status] of an order filter is not read at
    all: against an exchange that answers alike whatever it is asked,
    [GetPositions], [GetPosition] and [GetOrders] return the same for every
    symbol and every [Status], and a filter that sets neither side is as no
    filter. *)
Theorem symbol_is_sent_not_checked (c : bingx.Client) (now : nat -> time.Time) :
  (forall rt s1 s2 side,
      bingx.GetPositions c (always now rt)
        (Some {| broker.PositionFilter.Symbol := s1; broker.PositionFilter.Side := side |})
      = bingx.GetPositions c (always now rt)
          (Some {| broker.PositionFilter.Symbol := s2; broker.PositionFilter.Side := side |}))
  /\ (forall rt s,
         bingx.GetPositions c (always now rt)
           (Some {| broker.PositionFilter.Symbol := s; broker.PositionFilter.Side := None |})
         = bingx.GetPositions c (always now rt) None)
  /\ (forall rt s1 s2,
         bingx.GetPosition c (always now rt) s1 = bingx.GetPosition c (always now rt) s2)
  /\ (forall rt s1 s2 side st1 st2,
         bingx.GetOrders c (always now rt)
           (Some {| broker.OrderFilter.Symbol := s1; broker.OrderFilter.Side := side;
                    broker.OrderFilter.Status := st1 |})
         = bingx.GetOrders c (always now rt)
             (Some {| broker.OrderFilter.Symbol := s2; broker.OrderFilter.Side := side;
                      broker.OrderFilter.Status := st2 |}))
  /\ (forall rt s status,
         bingx.GetOrders c (always now rt)
           (Some {| broker.OrderFilter.Symbol := s; broker.OrderFilter.Side := None;
                    broker.OrderFilter.Status := status |})
         = bingx.GetOrders c (always now rt) None).
Proof.
  assert (Hpos : forall rt f1 f2,
             f1 ≫= broker.PositionFilter.Side = f2 ≫= broker.PositionFilter.Side ->
             bingx.GetPositions c (always now rt) f1 = bingx.GetPositions c (always now rt) f2).
  { intros rt f1 f2 Hside. unfold bingx.GetPositions, bingx.makeRequest. cbn [Do always].
    destruct rt as [| | |status body]; try reflexivity.
    case_decide; [reflexivity|]. cbn. destruct (http.decoded body) as [resp|]; [|reflexivity].
    case_decide; [reflexivity|]. do 2 f_equal.
    apply foldl_agree. intros [acc tick] pos _. rewrite !appendPosition_step.
    replace (keepsPosition f1 pos) with (keepsPosition f2 pos); [reflexivity|].
    unfold keepsPosition, bingx.sideFiltered.
    destruct f1 as [[? ?]|], f2 as [[? ?]|]; cbn in Hside; subst; reflexivity. }
  assert (Hord : forall rt f1 f2,
             f1 ≫= broker.OrderFilter.Side = f2 ≫= broker.OrderFilter.Side ->
             bingx.GetOrders c (always now rt) f1 = bingx.GetOrders c (always now rt) f2).
  { intros rt f1 f2 Hside. unfold bingx.GetOrders, bingx.makeRequest. cbn [Do always].
    destruct rt as [| | |status body]; try reflexivity.
    case_decide; [reflexivity|]. cbn. destruct (http.decoded body) as [resp|]; [|reflexivity].
    case_decide; [reflexivity|]. f_equal.
    apply foldl_agree. intros acc o _. unfold bingx.appendOrder, bingx.orderFiltered.
    destruct f1 as [[? ? ?]|], f2 as [[? ? ?]|]; cbn in Hside; subst; reflexivity. }
  split; [|split; [|split; [|split]]].
  - intros rt s1 s2 side. by apply Hpos.
  - intros rt s. by apply Hpos.
  - intros rt s1 s2. unfold bingx.GetPosition. by rewrite (Hpos rt _ (Some
      {| broker.PositionFilter.Symbol := s2; broker.PositionFilter.Side := None |})).
  - intros rt s1 s2 side st1 st2. by apply Hord.
  - intros rt s status. by apply Hord.
Qed.

(** ** Orders *)

(** X15: the creation and update times of a listed order are whole seconds:
    the exchange's milliseconds with the part below a second dropped,
    toward zero. *)
Theorem order_times_drop_milliseconds (o : bingx.OpenOrderData.t) :
  let order := bingx.toOrder o in
  time.UnixMilli (broker.Order.CreatedAt order)
  = bingx.OpenOrderData.Time_ o - Z.rem (bingx.OpenOrderData.Time_ o) 1000
  /\ time.UnixMilli (broker.Order.UpdatedAt order)
     = bingx.OpenOrderData.UpdateTime o - Z.rem (bingx.OpenOrderData.UpdateTime o) 1000
  /\ broker.Order.CreatedAt order mod 1000000000 = 0
  /\ broker.Order.UpdatedAt order mod 1000000000 = 0
  /\ (0 <= bingx.OpenOrderData.Time_ o ->
      bingx.OpenOrderData.Time_ o - 1000 < time.UnixMilli (broker.Order.CreatedAt order)
      <= bingx.OpenOrderData.Time_ o).
Proof.
  assert (H : forall t, time.UnixMilli (time.Unix (Z.quot t 1000) 0) = t - Z.rem t 1000).
  { intros t. unfold time.UnixMilli, time.Unix. rewrite Z.add_0_r.
    replace (t ÷ 1000 * 1000000000) with ((t ÷ 1000 * 1000) * 1000000) by lia.
    rewrite Z.div_mul by lia. pose proof (Z.quot_rem' t 1000). lia. }
  assert (Hm : forall t, time.Unix (Z.quot t 1000) 0 mod 1000000000 = 0).
  { intros t. unfold time.Unix. rewrite Z.add_0_r. apply Z.mod_mul. lia. }
  cbv zeta. cbn [bingx.toOrder broker.Order.CreatedAt broker.Order.UpdatedAt].
  rewrite !H, !Hm. repeat split; try lia.
  - pose proof (Z.rem_bound_pos (bingx.OpenOrderData.Time_ o) 1000). lia.
  - pose proof (Z.rem_bound_pos (bingx.OpenOrderData.Time_ o) 1000). lia.
Qed.

Lemma lookup_addIf_ne (c : bool) (k v k' : string) (m : gmap string string) :
  k <> k' -> addIf c k v m !! k' = m !! k'.
Proof. intros H. unfold addIf. destruct c; [by rewrite lookup_insert_ne|done]. Qed.

Lemma lookup_addIf_eq (c : bool) (k v : string) (m : gmap string string) :
  addIf c k v m !! k = if c then Some v else m !! k.
Proof. unfold addIf. destruct c; [by rewrite lookup_insert_eq|done]. Qed.

Lemma lookup_addOpt_ne {X : Type} (o : option X) (k k' : string) (f : X -> string)
    (m : gmap string string) :
  k <> k' -> addOpt o k f m !! k' = m !! k'.
Proof. intros H. unfold addOpt. destruct o; [by rewrite lookup_insert_ne|done]. Qed.

Lemma lookup_addOpt_eq {X : Type} (o : option X) (k : string) (f : X -> string)
    (m : gmap string string) :
  addOpt o k f m !! k = match o with Some x => Some (f x) | None => m !! k end.
Proof. unfold addOpt. destruct o; [by rewrite lookup_insert_eq|done]. Qed.

(** The parameters of an order, layer by layer. *)
Lemma orderParams_layers (order : broker.OrderRequest.t) :
  bingx.orderParams order
  = addOpt (broker.OrderRequest.TakeProfit order) "takeProfit"
      (fun tp => bingx.legJSON "TAKE_PROFIT" (broker.TakeProfitConfig.TriggerPrice tp)
                   (broker.TakeProfitConfig.OrderPrice tp))
      (addOpt (broker.OrderRequest.StopLoss order) "stopLoss"
         (fun sl => bingx.legJSON "STOP" (broker.StopLossConfig.TriggerPrice sl)
                      (broker.StopLossConfig.TriggerPrice sl))
         (addIf (broker.OrderRequest.ReduceOnly order) "reduceOnly" "true"
            (addOpt (timeInForceSent order) "timeInForce" id
               (addIf (0 <? broker.OrderRequest.StopPrice order)%float "stopPrice"
                  (fmt.Sprintf_f8 (broker.OrderRequest.StopPrice order))
                  (addIf (0 <? broker.OrderRequest.Price order)%float "price"
                     (fmt.Sprintf_f8 (broker.OrderRequest.Price order))
                     (<["symbol" := broker.OrderRequest.Symbol order]>
                        (<["side" := if decide (broker.OrderRequest.Side order
                                                = broker.SideShort)
                                     then "SELL" else "BUY"]>
                           (<["positionSide" := if decide (broker.OrderRequest.Side order
                                                           = broker.SideShort)
                                                then "SHORT" else "LONG"]>
                              (<["type" := broker.OrderRequest.Type_ order]>
                                 (<["quantity" :=
                                      fmt.Sprintf_f8 (broker.OrderRequest.Size order)]>
                                    ∅)))))))))).
Proof.
  unfold bingx.orderParams, timeInForceSent, addIf, addOpt.
  destruct (decide (broker.OrderRequest.Side order = broker.SideShort));
    destruct (decide (broker.OrderRequest.Type_ order = broker.OrderTypeLimit));
    (destruct (decide (broker.OrderRequest.TimeInForce order = "")) as [He|He];
     [rewrite (decide_False (P := _ ≠ "")) by auto
     |rewrite (decide_True (P := _ ≠ "")) by auto]);
    reflexivity.
Qed.

Lemma orderParams_side (order : broker.OrderRequest.t) :
  (bingx.orderParams order !! "side", bingx.orderParams order !! "positionSide")
  = (if decide (broker.OrderRequest.Side order = broker.SideShort)
     then (Some "SELL", Some "SHORT") else (Some "BUY", Some "LONG")).
Proof.
  rewrite orderParams_layers.
  rewrite !lookup_addOpt_ne, !lookup_addIf_ne, !lookup_addOpt_ne, !lookup_addIf_ne by done.
  rewrite !lookup_insert_ne, !lookup_insert_eq by done.
  by destruct (decide _).
Qed.

Lemma lookup_stamped (params : gmap string string) (now : time.Time) (k : string) :
  k <> "timestamp" -> bingx.stamped params now !! k = params !! k.
Proof. intros Hk. unfold bingx.stamped. by rewrite lookup_insert_ne. Qed.

(** X16: what [PlaceOrder] sends. The request routine is handed the
    parameters of the order, and the outcome depends on the routine through
    nothing else; for an order with no leg the exchange is asked once, by a
    POST to the order endpoint, and the outcome depends on the exchange
    through its answer to that request alone. The URL of the request is the
    encoded parameters, the timestamp among them, followed by the
    signature of that string. The signed parameters are the timestamp;
    symbol, type and quantity always, the quantity with eight decimals;
    [price] and [stopPrice] only when they are above 0; [timeInForce] as
    asked, [GTC] for a limit order that asks for none, and not at all
    otherwise; [reduceOnly] only when it is set; and no key beyond these,
    the side pair and the two legs. *)
Theorem order_parameters
    (makeRequestWithPayload :
       bingx.Client -> Env bingx.OrderResponse.t -> string -> string -> gmap string string ->
       result (http.Body bingx.OrderResponse.t))
    (c : bingx.Client) (env : Env bingx.OrderResponse.t) (order : broker.OrderRequest.t) :
  let params := bingx.orderParams order in
  let request := bingx.newRequest c "POST" bingx.EndpointPlaceOrder params (Now env 0) in
  let signed := bingx.stamped params (Now env 0) in
  (forall makeRequestWithPayload',
      makeRequestWithPayload' c env "POST" bingx.EndpointPlaceOrder params
      = makeRequestWithPayload c env "POST" bingx.EndpointPlaceOrder params ->
      bingx.PlaceOrder makeRequestWithPayload' c env order
      = bingx.PlaceOrder makeRequestWithPayload c env order)
  /\ (broker.OrderRequest.StopLoss order = None ->
      broker.OrderRequest.TakeProfit order = None ->
      forall env',
        (forall n, Now env' n = Now env n) ->
        Do env' request = Do env request ->
        bingx.PlaceOrder makeRequestWithPayload c env' order
        = bingx.PlaceOrder makeRequestWithPayload c env order)
  /\ http.Method request = "POST"
  /\ http.URL request
     = bingx.baseURL c +:+ bingx.EndpointPlaceOrder +:+ "?"
       +:+ url.Encode (bingx.rangeSet (map_to_list signed)) +:+ "&signature="
       +:+ bingx.sign c (url.Encode (bingx.rangeSet (map_to_list signed)))
  /\ signed !! "timestamp" = Some (millis (Now env 0))
  /\ signed !! "symbol" = Some (broker.OrderRequest.Symbol order)
  /\ signed !! "type" = Some (broker.OrderRequest.Type_ order)
  /\ signed !! "quantity" = Some (fmt.Sprintf_f8 (broker.OrderRequest.Size order))
  /\ signed !! "price"
     = (if (0 <? broker.OrderRequest.Price order)%float
        then Some (fmt.Sprintf_f8 (broker.OrderRequest.Price order)) else None)
  /\ signed !! "stopPrice"
     = (if (0 <? broker.OrderRequest.StopPrice order)%float
        then Some (fmt.Sprintf_f8 (broker.OrderRequest.StopPrice order)) else None)
  /\ signed !! "timeInForce"
     = (if decide (broker.OrderRequest.TimeInForce order = "")
        then if decide (broker.OrderRequest.Type_ order = broker.OrderTypeLimit)
             then Some "GTC" else None
        else Some (broker.OrderRequest.TimeInForce order))
  /\ signed !! "reduceOnly"
     = (if broker.OrderRequest.ReduceOnly order then Some "true" else None)
  /\ (forall k, k ∉ "timestamp" :: orderKeys -> signed !! k = None).
Proof.
  cbv zeta. split.
  { intros mrwp' Hsame. unfold bingx.PlaceOrder. by rewrite Hsame. }
  split.
  { intros Hsl Htp env' Hnow Hdo. unfold bingx.PlaceOrder. rewrite Hsl, Htp.
    cbn [bool_decide decide_rel orb]. unfold bingx.makeRequest.
    rewrite !Hnow, Hdo. reflexivity. }
  split; [reflexivity|]. split; [reflexivity|].
  split; [apply lookup_insert_eq|].
  rewrite !lookup_stamped by done. rewrite orderParams_layers.
  split; [|split; [|split; [|split; [|split; [|split]]]]].
  - rewrite !lookup_addOpt_ne, !lookup_addIf_ne, !lookup_addOpt_ne, !lookup_addIf_ne by done.
    apply lookup_insert_eq.
  - rewrite !lookup_addOpt_ne, !lookup_addIf_ne, !lookup_addOpt_ne, !lookup_addIf_ne by done.
    rewrite !lookup_insert_ne by done. apply lookup_insert_eq.
  - rewrite !lookup_addOpt_ne, !lookup_addIf_ne, !lookup_addOpt_ne, !lookup_addIf_ne by done.
    rewrite !lookup_insert_ne by done. apply lookup_insert_eq.
  - rewrite !lookup_addOpt_ne, !lookup_addIf_ne, !lookup_addOpt_ne, !lookup_addIf_ne by done.
    rewrite lookup_addIf_eq. by rewrite !lookup_insert_ne, lookup_empty by done.
  - rewrite !lookup_addOpt_ne, !lookup_addIf_ne, !lookup_addOpt_ne by done.
    rewrite lookup_addIf_eq, lookup_addIf_ne by done.
    by rewrite !lookup_insert_ne, lookup_empty by done.
  - rewrite !lookup_addOpt_ne, !lookup_addIf_ne by done.
    rewrite lookup_addOpt_eq, !lookup_addIf_ne by done.
    rewrite !lookup_insert_ne, lookup_empty by done. unfold timeInForceSent.
    by repeat destruct (decide _).
  - split.
    + rewrite !lookup_addOpt_ne by done.
      rewrite lookup_addIf_eq, lookup_addOpt_ne, !lookup_addIf_ne by done.
      by rewrite !lookup_insert_ne, lookup_empty by done.
    + intros k Hk. unfold orderKeys in Hk. rewrite !not_elem_of_cons in Hk.
      destruct Hk as (? & ? & ? & ? & ? & ? & ? & ? & ? & ? & ? & ? & _).
      rewrite lookup_stamped by done.
      rewrite !lookup_addOpt_ne, !lookup_addIf_ne, !lookup_addOpt_ne, !lookup_addIf_ne
        by done.
      rewrite !lookup_insert_ne by done. apply lookup_empty.
Qed.

(** X17: [PlaceOrder] sends SELL with SHORT for a short order and BUY with
    LONG for any other side, so that [isReduceOnly], applied to the pair an
    order was placed with, is false, and the side read back from the
    position side is the side of the request, LONG for a side that is
    neither. *)
Theorem placed_orders_are_never_inferred_reduce_only (order : broker.OrderRequest.t) :
  let params := bingx.orderParams order in
  (params !! "side", params !! "positionSide")
  = (if decide (broker.OrderRequest.Side order = broker.SideShort)
     then (Some "SELL", Some "SHORT") else (Some "BUY", Some "LONG"))
  /\ forall side positionSide,
       params !! "side" = Some side -> params !! "positionSide" = Some positionSide ->
       bingx.isReduceOnly side positionSide = false
       /\ bingx.sideOf positionSide
          = (if decide (broker.OrderRequest.Side order = broker.SideShort)
             then broker.SideShort else broker.SideLong).
Proof.
  cbv zeta. pose proof (orderParams_side order) as H.
  split; [exact H|]. intros side positionSide Hs Hp. rewrite Hs, Hp in H.
  destruct (decide (broker.OrderRequest.Side order = broker.SideShort));
    injection H as -> ->; split; reflexivity.
Qed.

(** X18: fields of the request that never reach the exchange. The
    trailing configuration, the limit price and the working type of the
    stop-loss leg and the working type of the take-profit leg change neither
    the parameters nor the outcome of [PlaceOrder]: the stop-loss leg is
    sent with its trigger price as both prices, the take-profit leg with
    its trigger and order prices, both with MARK_PRICE. *)
Theorem unread_fields_do_not_reach_the_exchange
    (makeRequestWithPayload :
       bingx.Client -> Env bingx.OrderResponse.t -> string -> string -> gmap string string ->
       result (http.Body bingx.OrderResponse.t))
    (c : bingx.Client) (env : Env bingx.OrderResponse.t) (order : broker.OrderRequest.t)
    (trailing : option broker.TrailingConfig.t) (slPrice : float)
    (slWorking tpWorking : broker.WorkingType) :
  let order' := withUnread trailing slPrice slWorking tpWorking order in
  bingx.orderParams order' = bingx.orderParams order
  /\ bingx.PlaceOrder makeRequestWithPayload c env order'
     = bingx.PlaceOrder makeRequestWithPayload c env order
  /\ (forall sl, broker.OrderRequest.StopLoss order = Some sl ->
        bingx.orderParams order !! "stopLoss"
        = Some (bingx.legJSON "STOP" (broker.StopLossConfig.TriggerPrice sl)
                  (broker.StopLossConfig.TriggerPrice sl)))
  /\ (forall tp, broker.OrderRequest.TakeProfit order = Some tp ->
        bingx.orderParams order !! "takeProfit"
        = Some (bingx.legJSON "TAKE_PROFIT" (broker.TakeProfitConfig.TriggerPrice tp)
                  (broker.TakeProfitConfig.OrderPrice tp))).
Proof.
  cbv zeta.
  assert (Hp : bingx.orderParams (withUnread trailing slPrice slWorking tpWorking order)
               = bingx.orderParams order).
  { unfold bingx.orderParams, withUnread.
    cbn [broker.OrderRequest.Symbol broker.OrderRequest.Side broker.OrderRequest.Type_
         broker.OrderRequest.Size broker.OrderRequest.Price broker.OrderRequest.StopPrice
         broker.OrderRequest.TimeInForce broker.OrderRequest.ReduceOnly
         broker.OrderRequest.StopLoss broker.OrderRequest.TakeProfit].
    destruct (broker.OrderRequest.StopLoss order) as [sl|],
             (broker.OrderRequest.TakeProfit order) as [tp|]; reflexivity. }
  split; [exact Hp|]. split; [|split].
  - unfold bingx.PlaceOrder. rewrite Hp. unfold withUnread.
    cbn [broker.OrderRequest.StopLoss broker.OrderRequest.TakeProfit].
    destruct (broker.OrderRequest.StopLoss order) as [sl|],
             (broker.OrderRequest.TakeProfit order) as [tp|]; reflexivity.
  - intros sl Hsl. rewrite orderParams_layers, Hsl.
    rewrite lookup_addOpt_ne by done. by rewrite lookup_addOpt_eq.
  - intros tp Htp. rewrite orderParams_layers, Htp. by rewrite lookup_addOpt_eq.
Qed.

(** X19: the order [PlaceOrder] returns is made of the acknowledgement
    only. When the request routine returns a body that decodes with code 0,
    [PlaceOrder] succeeds, and whatever was asked the order has the id,
    symbol, type and status of the acknowledgement, the status as the
    exchange spells it, and the side of its position side; it has no stop
    price, filled size, average price, time in force or client id and is
    not reduce-only. A trigger order acknowledged as NEW is so returned as
    NEW, where [GetOrders] lists an order of that type and status as
    PENDING. *)
Theorem placed_order_reports_only_the_acknowledgement
    (makeRequestWithPayload :
       bingx.Client -> Env bingx.OrderResponse.t -> string -> string -> gmap string string ->
       result (http.Body bingx.OrderResponse.t))
    (c : bingx.Client) (env : Env bingx.OrderResponse.t) (order : broker.OrderRequest.t)
    (body : http.Body bingx.OrderResponse.t) (resp : bingx.OrderResponse.t) :
  (if bool_decide (broker.OrderRequest.StopLoss order <> None)
      || bool_decide (broker.OrderRequest.TakeProfit order <> None)
   then makeRequestWithPayload c env "POST" bingx.EndpointPlaceOrder (bingx.orderParams order)
   else bingx.makeRequest c env "POST" bingx.EndpointPlaceOrder (bingx.orderParams order))
  = Ok body ->
  http.decoded body = Ok resp ->
  bingx.OrderResponse.Code resp = bingx.APISuccessCode ->
  let data := bingx.OrderResponse.Data resp in
  exists placed,
    bingx.PlaceOrder makeRequestWithPayload c env order = Ok placed
    /\ broker.Order.ID placed = strconv.FormatInt (bingx.OrderData.OrderId data)
    /\ broker.Order.Symbol placed = bingx.OrderData.Symbol data
    /\ broker.Order.Type_ placed = bingx.OrderData.Type_ data
    /\ broker.Order.Status placed = bingx.OrderData.Status data
    /\ broker.Order.Side placed = bingx.sideOf (bingx.OrderData.PositionSide data)
    /\ (broker.Order.ReduceOnly placed = false
        /\ broker.Order.StopPrice placed = 0%float
        /\ broker.Order.FilledSize placed = 0%float
        /\ broker.Order.AveragePrice placed = 0%float
        /\ broker.Order.TimeInForce placed = ""
        /\ broker.Order.ClientOrderID placed = "")
    /\ (bingx.OrderData.Type_ data
        ∈ ["STOP"; "STOP_MARKET"; "TAKE_PROFIT"; "TAKE_PROFIT_MARKET"] ->
        bingx.OrderData.Status data = "NEW" ->
        broker.Order.Status placed = "NEW"
        /\ forall listed,
             bingx.OpenOrderData.Type_ listed = bingx.OrderData.Type_ data ->
             bingx.OpenOrderData.Status listed = bingx.OrderData.Status data ->
             broker.Order.Status (bingx.toOrder listed) = "PENDING").
Proof.
  intros Hreq Hdec Hcode data.
  exists (bingx.toPlacedOrder data (Now env 1) (Now env 2)).
  split; [by apply PlaceOrder_success with (body := body)|].
  do 5 (split; [reflexivity|]). split; [repeat split|].
  intros Hty Hst. split; [exact Hst|]. intros listed Hlt Hls.
  cbn [bingx.toOrder broker.Order.Status]. rewrite Hlt, Hls, Hst.
  rewrite mapBingXStatus_cases. unfold isTriggerType.
  set_unfold. destruct Hty as [->|[->|[->|[->|[]]]]]; reflexivity.
Qed.

Lemma placed_order_reports_only_the_acknowledgement_witness :
  exists placed,
    bingx.PlaceOrder bingx.makeRequest demoClient (answering clock (ackBody stopAck)) stopShort
    = Ok placed
    /\ broker.Order.Status placed = "NEW"
    /\ broker.Order.ReduceOnly placed = false.
Proof.
  destruct (placed_order_reports_only_the_acknowledgement bingx.makeRequest demoClient
              (answering clock (ackBody stopAck)) stopShort (ackBody stopAck) stopAck
              eq_refl eq_refl eq_refl)
    as (placed & Hplaced & _ & _ & _ & Hstatus & _ & (Hreduce & _) & _).
  exists placed. split; [exact Hplaced|]. split; [exact Hstatus|exact Hreduce].
Defined.

(** ** Leverage *)

Lemma leverage_of_raw (raw : json.RawMessage) (pos : bingx.PositionData.t) (now : time.Time) :
  broker.Position.Leverage (bingx.toPosition (withLeverage raw pos) now) = leverageReported raw.
Proof. reflexivity. Qed.

Lemma leverages_checked :
  forallb (fun n => (leverageReported (Some (json.JString (strconv.Itoa n))) =? n)
                    && (leverageReported (Some (json.JNumber (strconv.Itoa n))) =? n))
          (map Z.of_nat (seq 1 125))
  = true.
Proof. vm_compute. reflexivity. Qed.

(** X20: every leverage from 1 to the maximum [SupportedFeatures]
    advertises, written as [SetLeverage] sends it, is reported by
    [GetPositions] as that integer, whether the exchange returns it as a
    JSON string or as a JSON number. *)
Theorem leverage_reads_back (c : bingx.Client) (pos : bingx.PositionData.t)
    (now : time.Time) (n : Z) :
  1 <= n <= broker.Features.MaxLeverage (bingx.SupportedFeatures c) ->
  broker.Position.Leverage
    (bingx.toPosition (withLeverage (Some (json.JString (strconv.Itoa n))) pos) now) = n
  /\ broker.Position.Leverage
       (bingx.toPosition (withLeverage (Some (json.JNumber (strconv.Itoa n))) pos) now) = n.
Proof.
  intros Hn. cbn in Hn. rewrite !leverage_of_raw.
  pose proof leverages_checked as H. rewrite forallb_forall in H.
  specialize (H n). rewrite andb_true_iff, !Z.eqb_eq in H. apply H.
  apply in_map_iff. exists (Z.to_nat n). split; [lia|]. apply in_seq. lia.
Qed.

Lemma leverage_reads_back_witness :
  broker.Position.Leverage
    (bingx.toPosition (withLeverage (Some (json.JString (strconv.Itoa 10))) btcLong) (clock 1))
  = 10.
Proof.
  apply (leverage_reads_back demoClient btcLong (clock 1) 10). cbn. lia.
Defined.
(** ** The position of a symbol *)

Lemma keepsPosition_unsided (symbol : string) (pos : bingx.PositionData.t) :
  keepsPosition (Some {| broker.PositionFilter.Symbol := symbol;
                         broker.PositionFilter.Side := None |}) pos
  = negb (isFlat pos).
Proof. unfold keepsPosition, isFlat. cbn. apply andb_true_r. Qed.

Lemma filter_first {X : Type} (f : X -> bool) (l : list X) :
  match List.filter f l with
  | [] => Forall (fun x => f x = false) l
  | x :: _ => exists before after,
                l = before ++ x :: after /\ Forall (fun y => f y = false) before /\ f x = true
  end.
Proof.
  induction l as [|y l IH]; cbn; [constructor|].
  destruct (f y) eqn:Hy.
  - exists [], l. by repeat split.
  - destruct (List.filter f l) as [|x kept].
    + by constructor.
    + destruct IH as (before & after & -> & Hb & Hx). exists (y :: before), after.
      repeat split; [|done]. by constructor.
Qed.

(** X22: [GetPosition] returns the first entry of the answer whose amount
    is not 0, whatever symbol that entry names, stamped with the clock's
    second reading; when every entry is flat, and when there is none, it
    fails with [ErrPositionNotFound]: a flat position is not found, not
    returned with size 0. *)
Theorem flat_position_is_not_found (c : bingx.Client) (env : Env bingx.PositionsResponse.t)
    (symbol : string) (body : http.Body bingx.PositionsResponse.t)
    (resp : bingx.PositionsResponse.t) :
  Do env (bingx.newRequest c "GET" bingx.EndpointPositions
            (bingx.symbolParams (Some symbol)) (Now env 0))
  = http.Response http.StatusOK body ->
  http.decoded body = Ok resp ->
  bingx.PositionsResponse.Code resp = bingx.APISuccessCode ->
  (bingx.GetPosition c env symbol = Err broker.ErrPositionNotFound
   <-> Forall (fun pos => isFlat pos = true) (bingx.PositionsResponse.Data resp))
  /\ (forall p,
        bingx.GetPosition c env symbol = Ok p
        <-> exists before pos after,
              bingx.PositionsResponse.Data resp = before ++ pos :: after
              /\ Forall (fun pos' => isFlat pos' = true) before
              /\ isFlat pos = false
              /\ p = bingx.toPosition pos (Now env 1)).
Proof.
  intros Hdo Hdec Hcode. apply makeRequest_Ok_iff in Hdo.
  unfold bingx.GetPosition.
  rewrite (GetPositions_success c env
             (Some {| broker.PositionFilter.Symbol := symbol;
                      broker.PositionFilter.Side := None |}) body resp Hdo Hdec Hcode).
  rewrite (filter_ext_list _ _ _ (keepsPosition_unsided symbol)). cbn [mbind result_bind].
  pose proof (filter_first (fun pos => negb (isFlat pos)) (bingx.PositionsResponse.Data resp))
    as Hf.
  destruct (List.filter _ _) as [|pos kept]; unfold stampedPositions;
    cbn [zip_with length seq]; cbv beta in Hf.
  - assert (Hall : Forall (fun pos => isFlat pos = true) (bingx.PositionsResponse.Data resp)).
    { eapply Forall_impl; [exact Hf|]. intros pos Hp. by apply negb_false_iff in Hp. }
    split; [by split|]. intros p. split; [intros H; discriminate H|].
    intros (before & pos & after & Hd & _ & Hp & _). rewrite Hd in Hall.
    apply Forall_app in Hall as [_ Hall]. apply Forall_cons in Hall as [Hpos _].
    cbv beta in Hpos. congruence.
  - destruct Hf as (before & after & Hd & Hb & Hp). apply negb_true_iff in Hp.
    assert (Hb' : Forall (fun pos' => isFlat pos' = true) before).
    { eapply Forall_impl; [exact Hb|]. intros pos' Hp'. by apply negb_false_iff in Hp'. }
    split.
    + split; [intros H; discriminate H|]. intros Hall. rewrite Hd in Hall.
      apply Forall_app in Hall as [_ Hall]. apply Forall_cons in Hall as [Hpos _].
      cbv beta in Hpos. congruence.
    + intros p. split.
      * intros [= <-]. by exists before, pos, after.
      * intros (before' & pos' & after' & Hd' & Hbf & Hp' & ->). do 2 f_equal.
        rewrite Hd in Hd'. clear -Hd' Hb' Hp Hbf Hp'.
        revert before' Hd' Hbf. induction before as [|x before IH]; intros [|y before'] Hd' Hbf.
        -- by injection Hd'.
        -- injection Hd' as -> _. apply Forall_cons in Hbf as [Hy _].
           cbv beta in Hy. congruence.
        -- injection Hd' as -> _. apply Forall_cons in Hb' as [Hx _].
           cbv beta in Hx. congruence.
        -- injection Hd' as -> Hd'. apply Forall_cons in Hb' as [_ Hb'].
           apply Forall_cons in Hbf as [_ Hbf]. by apply (IH Hb' before').
Qed.

Lemma flat_position_is_not_found_witness :
  bingx.GetPosition demoClient (positionsEnv scenarioB) "SOL-USDT"
  = Ok (bingx.toPosition btcLong (clock 1)).
Proof.
  apply (proj2 (flat_position_is_not_found demoClient (positionsEnv scenarioB) "SOL-USDT"
                  (positionsBody scenarioB) scenarioB eq_refl eq_refl eq_refl)).
  exists [], btcLong, [flat; ethShort].
  split; [reflexivity|]. split; [constructor|]. split; [vm_compute; reflexivity|reflexivity].
Defined.

(** ** The retry test of the examples *)

Lemma causeless_not_retryable (b c m : string) :
  error_handling.isRetryable (BrokerError b c m None) = false.
Proof. reflexivity. Qed.

(** X21: the retry test of the error-handling example, on the errors of
    [GetBalance]. An answer of the exchange is never retried: not a status
    other than 200 (a 429 or a 503 included), not a refusal with an
    [API_<code>], not an empty data list. A transport failure, or a body
    that does not decode, is retried exactly when its cause is. *)
Theorem exchange_refusals_are_not_retried (c : bingx.Client)
    (env : Env bingx.BalanceResponse.t) (e : error) :
  bingx.GetBalance c env = Err e ->
  match Do env (bingx.newRequest c "GET" bingx.EndpointBalance ∅ (Now env 0)) with
  | http.Response status body =>
      if decide (status = http.StatusOK) then
        match http.decoded body with
        | Ok _ => error_handling.isRetryable e = false
        | Err err => error_handling.isRetryable e = error_handling.isRetryable err
        end
      else error_handling.isRetryable e = false
  | http.DoFails err | http.ReadFails err | http.NewRequestFails err =>
      error_handling.isRetryable e = error_handling.isRetryable err
  end.
Proof.
  assert (Hwrap : forall b code m err,
             error_handling.isRetryable (BrokerError b code m (Some err))
             = error_handling.isRetryable err).
  { intros b code m err. unfold error_handling.isRetryable. by rewrite !Is_BrokerError. }
  unfold bingx.GetBalance, bingx.makeRequest.
  destruct (Do env _) as [err|err|err|status body]; cbn.
  - intros [= <-]. unfold error_handling.isRetryable. cbn [errors.Is error_eqb orb].
    reflexivity.
  - intros [= <-]. apply Hwrap.
  - intros [= <-]. apply Hwrap.
  - destruct (decide (status = http.StatusOK)) as [->|Hst].
    + rewrite decide_False by auto. cbn.
      destruct (http.decoded body) as [resp|err].
      * case_decide; [|destruct (bingx.BalanceResponse.Data resp)]; intros [= <-];
          apply causeless_not_retryable.
      * intros [= <-]. apply Hwrap.
    + rewrite decide_True by done. cbn. intros [= <-]. apply causeless_not_retryable.
Qed.

Lemma exchange_refusals_are_not_retried_witness :
  bingx.GetBalance demoClient
    (always clock (http.Response 429 (balanceBody rateLimited)))
  = Err (httpError 429 (http.bytes (balanceBody rateLimited)))
  /\ error_handling.isRetryable (httpError 429 (http.bytes (balanceBody rateLimited))) = false.
Proof.
  assert (H : bingx.GetBalance demoClient
                (always clock (http.Response 429 (balanceBody rateLimited)))
              = Err (httpError 429 (http.bytes (balanceBody rateLimited)))) by reflexivity.
  split; [exact H|]. exact (exchange_refusals_are_not_retried _ _ _ H).
Defined.
